(** * friendly-medbot: the chat page and the shared schema

    A shallow embedding of [client/src/pages/chat.tsx] (the [Chat] component:
    its three pieces of component state, its three mutations, its message
    query and its event handlers) and of [shared/schema.ts] (the three tables
    and the insert schemas derived from them), followed by the properties of
    the chat client state machine and of the validation layer.

    Conventions.
    - A JavaScript string is the list of its UTF-16 code units.
    - A JavaScript number that is used as an identifier or as a clock reading
      is an integer [Z]; [null] is [None].
    - The component is observed between browser tasks: every handler and
      every mutation callback reads the state of the latest render, and the
      promise chain started by [mutate] ([onMutate], then [mutationFn], then
      [onError] when [mutationFn] throws before any request) runs to its end
      before the next event is handled.
    - Mutations are not retried (the library default); the mount effect runs
      once.
    - The message query is fetched when its key becomes enabled. When it is
      invalidated while enabled, the query client asks for the list again,
      with two exceptions of its own: while a fetch of the key is running
      and nothing is cached for the key, the running fetch is left to
      answer and no request is made; while a fetch is running and a list is
      cached, the running fetch is cancelled (its answer will be ignored,
      so the page no longer awaits it) and a new one is started. The answer
      of the fetch in flight replaces the cached list of its key. Other
      refetch triggers of the query client are not part of the page.
    - An insert schema is an object schema: it checks the fields of its shape
      and drops every other property of the object it parses. *)

From Stdlib Require Import ZArith NArith List String Ascii Bool Lia.
From Stdlib Require Import DecimalString.
From stdpp Require Import base option list gmap strings fin_maps.
Import ListNotations.
Local Open Scope Z_scope.

(* ===================================================================== *)
(** ** JavaScript values used by the page                                 *)
(* ===================================================================== *)

Module JS.

(** A string, as the list of its UTF-16 code units. *)
Definition jsstring := list N.

(** A string literal of the source (ASCII text). *)
Definition lit (s : string) : jsstring :=
  List.map N_of_ascii (list_ascii_of_string s).

(** ECMAScript [WhiteSpace] and [LineTerminator] code points: the code
    units that [String.prototype.trim] strips. *)
Definition is_white_space (c : N) : bool :=
  ((9 <=? c) && (c <=? 13))%N           (* TAB, LF, VT, FF, CR *)
  || (c =? 32)%N                         (* SPACE *)
  || (c =? 160)%N                        (* NO-BREAK SPACE *)
  || (c =? 5760)%N                       (* U+1680 *)
  || ((8192 <=? c) && (c <=? 8202))%N    (* U+2000 .. U+200A *)
  || (c =? 8232)%N || (c =? 8233)%N      (* LS, PS *)
  || (c =? 8239)%N                       (* U+202F *)
  || (c =? 8287)%N                       (* U+205F *)
  || (c =? 12288)%N                      (* U+3000 *)
  || (c =? 65279)%N.                     (* U+FEFF *)

Fixpoint trimStart (s : jsstring) : jsstring :=
  match s with
  | [] => []
  | c :: r => if is_white_space c then trimStart r else s
  end.

Definition trimEnd (s : jsstring) : jsstring := rev (trimStart (rev s)).

(** [s.trim()] *)
Definition trim (s : jsstring) : jsstring := trimEnd (trimStart s).

(** Truthiness of a string: only the empty string is falsy. *)
Definition truthy_string (s : jsstring) : bool :=
  match s with [] => false | _ => true end.

(** Truthiness of a [number | null]: [null] and [0] are falsy. *)
Definition truthy_id (n : option Z) : bool :=
  match n with
  | None => false
  | Some v => negb (v =? 0)
  end.

(** A thrown or rejected value: an [Error] instance with its message, or
    some other value. *)
Inductive js_error :=
| ErrorObj (message : jsstring)
| NonError.

Definition first_unit (s : jsstring) : option N := head s.
Definition last_unit (s : jsstring) : option N := last s.

End JS.
Import JS.

(* ===================================================================== *)
(** ** shared/schema.ts                                                   *)
(* ===================================================================== *)

Module Schema.

(** Run-time values that reach a schema. A number is an integer [VNum n]
    or a number that is no integer (a fraction, [NaN], an infinity). *)
Inductive value :=
| VNull
| VNum (n : Z)
| VNonInteger
| VStr (s : jsstring)
| VBool (b : bool)
| VDate (ms : Z).

(** The range of a 32-bit signed integer. *)
Definition int32 (n : Z) : bool :=
  (-2147483648 <=? n) && (n <=? 2147483647).

(** The column kinds the tables use. *)
Inductive dataType := TSerial | TText | TInteger | TBoolean | TTimestamp.

(** A column as the builders leave it: its name in the database, its kind,
    and the two flags that the insert schema reads. *)
Record column := mkColumn {
  name : string;
  kind : dataType;
  isNotNull : bool;
  hasDefault : bool
}.

(** Column builders: [serial] is not null and has a default; the others
    start nullable without default. *)
Definition serial (n : string) : column := mkColumn n TSerial true true.
Definition text (n : string) : column := mkColumn n TText false false.
Definition integer (n : string) : column := mkColumn n TInteger false false.
Definition boolean (n : string) : column := mkColumn n TBoolean false false.
Definition timestamp (n : string) : column :=
  mkColumn n TTimestamp false false.

(** Column modifiers, applied left to right as in [text("x").notNull()]. *)
Definition primaryKey (c : column) : column :=
  mkColumn (name c) (kind c) true (hasDefault c).
Definition notNull (c : column) : column :=
  mkColumn (name c) (kind c) true (hasDefault c).
Definition unique (c : column) : column := c.
Definition references (target : string) (c : column) : column := c.
Definition default (v : value) (c : column) : column :=
  mkColumn (name c) (kind c) (isNotNull c) true.
Definition defaultNow (c : column) : column :=
  mkColumn (name c) (kind c) (isNotNull c) true.

Notation "c '|>' f" := (f c) (at level 45, left associativity, only parsing).

(** A table: its columns under the property names of the declaration. *)
Definition table := list (string * column).

Definition users : table :=
  [ ("id", serial "id" |> primaryKey);
    ("username", text "username" |> notNull |> unique);
    ("password", text "password" |> notNull) ]%string.

Definition conversations : table :=
  [ ("id", serial "id" |> primaryKey);
    ("userId", text "user_id");
    ("title", text "title" |> default (VStr (lit "New Conversation")));
    ("createdAt", timestamp "created_at" |> defaultNow) ]%string.

Definition messages : table :=
  [ ("id", serial "id" |> primaryKey);
    ("conversationId",
       integer "conversation_id" |> references "conversations.id");
    ("role", text "role" |> notNull);   (* 'user' or 'assistant' *)
    ("content", text "content" |> notNull);
    ("timestamp", timestamp "timestamp" |> defaultNow);
    ("isTyping", boolean "is_typing" |> default (VBool false)) ]%string.

(** A field of an object schema: the base check of the column kind, and
    whether [null] and a missing property are let through. *)
Record field := mkField {
  fkey : string;
  base : dataType;
  nullable : bool;
  optional : bool
}.

Definition schema := list field.

(** [createInsertSchema]: one field per column, under its property name; a
    nullable column becomes [.nullable().optional()], a not-null column with
    a default becomes [.optional()], any other column is required. *)
Definition insertField (p : string * column) : field :=
  let (k, c) := p in
  if isNotNull c
  then mkField k (kind c) false (hasDefault c)
  else mkField k (kind c) true true.

Definition createInsertSchema (t : table) : schema := List.map insertField t.

Definition omit (ks : list string) (sc : schema) : schema :=
  List.filter (fun f => negb (existsb (String.eqb (fkey f)) ks)) sc.

Definition pick (ks : list string) (sc : schema) : schema :=
  List.filter (fun f => existsb (String.eqb (fkey f)) ks) sc.

Definition insertUserSchema : schema :=
  pick ["username"; "password"]%string (createInsertSchema users).

Definition insertConversationSchema : schema :=
  omit ["id"; "createdAt"]%string (createInsertSchema conversations).

Definition insertMessageSchema : schema :=
  omit ["id"; "timestamp"; "isTyping"]%string (createInsertSchema messages).

Definition keys (sc : schema) : list string := List.map fkey sc.

(** The base check of a kind: a [serial] or [integer] column takes an
    integer in the 32-bit range, and no other number. *)
Definition check_base (t : dataType) (v : value) : bool :=
  match t, v with
  | (TSerial | TInteger), VNum n => int32 n
  | TText, VStr _ => true
  | TBoolean, VBool _ => true
  | TTimestamp, VDate _ => true
  | _, _ => false
  end.

Definition check_field (f : field) (v : option value) : bool :=
  match v with
  | None => optional f
  | Some VNull => nullable f
  | Some x => check_base (base f) x
  end.

(** Parsing an object: every field of the shape is checked against the
    property of that name (a missing property is [undefined]); the result
    carries the checked properties and nothing else, since an object schema
    drops the properties it does not know. *)
Fixpoint parse (sc : schema) (input : gmap string value)
  : option (gmap string value) :=
  match sc with
  | [] => Some ∅
  | f :: rest =>
      if check_field f (input !! fkey f)
      then match parse rest input with
           | Some out =>
               Some (match input !! fkey f with
                     | Some v => <[fkey f := v]> out
                     | None => out
                     end)
           | None => None
           end
      else None
  end.

Definition accepts (sc : schema) (input : gmap string value) : bool :=
  match parse sc input with Some _ => true | None => false end.

(** Whether a schema has a field of that name. *)
Definition has_key (sc : schema) (k : string) : bool :=
  existsb (String.eqb k) (keys sc).

(** An object with the three creation fields of a message. *)
Definition message_input (cid : Z) (role content : jsstring)
  : gmap string value :=
  <["conversationId" := VNum cid]>
    (<["role" := VStr role]> (<["content" := VStr content]> ∅)).

(** An object with the two creation fields of a conversation. *)
Definition conversation_input (userId title : jsstring)
  : gmap string value :=
  <["userId" := VStr userId]> (<["title" := VStr title]> ∅).

(** The two values the comment on the [role] column names. *)
Definition is_role (s : jsstring) : bool :=
  bool_decide (s = lit "user") || bool_decide (s = lit "assistant").

(** Rows as the client receives them ([$inferSelect]). *)
Record Conversation := mkConversation {
  conv_id : Z;
  conv_userId : option jsstring;
  conv_title : option jsstring;
  conv_createdAt : option Z
}.

Record Message := mkMessage {
  msg_id : Z;
  msg_conversationId : option Z;
  msg_role : jsstring;
  msg_content : jsstring;
  msg_timestamp : option Z;
  msg_isTyping : option bool
}.

End Schema.
Import Schema.

(* ===================================================================== *)
(** ** client/src/pages/chat.tsx                                          *)
(* ===================================================================== *)

Module Chat.

Record QuickAction := mkQuickAction {
  qa_id : string;
  qa_label : string;
  qa_action : jsstring
}.

(** The four buttons (the icon is presentation only). *)
Definition quickActions : list QuickAction :=
  [ mkQuickAction "symptoms" "Common Symptoms" (lit "symptoms");
    mkQuickAction "medications" "Medication Info" (lit "medications");
    mkQuickAction "wellness" "Wellness Tips" (lit "wellness");
    mkQuickAction "emergency" "Emergency Info" (lit "emergency") ].

(** Requests that leave the page. [GetMessages] is the fetch of the query
    keyed by ["/api/conversations", id, "messages"]. *)
Inductive Request :=
| CreateConversation (userId title : jsstring)
| PostMessage (conversationId : Z) (content : jsstring)
| QuickActionCall (action : jsstring)
| GetMessages (conversationId : Z).

Definition is_create (r : Request) : bool :=
  match r with CreateConversation _ _ => true | _ => false end.
Definition is_post (r : Request) : bool :=
  match r with PostMessage _ _ => true | _ => false end.
Definition is_quick (r : Request) : bool :=
  match r with QuickActionCall _ => true | _ => false end.
Definition is_get (r : Request) : bool :=
  match r with GetMessages _ => true | _ => false end.

Record Toast := mkToast {
  toast_title : jsstring;
  toast_description : jsstring;
  toast_variant : jsstring
}.

(** The page between two events: the three [useState] cells, the cached
    query data per conversation id of the key, the status of the three
    mutations, whether the mount effect has run, the requests awaiting a
    response, every request issued so far (oldest first) and the notices
    shown so far (oldest first). *)
Record State := mkState {
  conversationId : option Z;
  messageInput : jsstring;
  isTyping : bool;
  queryData : gmap (option Z) (list Message);
  createPending : bool;
  sendPending : bool;
  quickPending : bool;
  mounted : bool;
  inflight : list Request;
  sent : list Request;
  toasts : list Toast
}.

Definition init : State :=
  mkState None [] false ∅ false false false false [] [] [].

(** *** State updates *)

Definition setConversationId (v : option Z) (s : State) : State :=
  mkState v (messageInput s) (isTyping s) (queryData s) (createPending s)
    (sendPending s) (quickPending s) (mounted s) (inflight s) (sent s)
    (toasts s).

Definition setMessageInput (v : jsstring) (s : State) : State :=
  mkState (conversationId s) v (isTyping s) (queryData s) (createPending s)
    (sendPending s) (quickPending s) (mounted s) (inflight s) (sent s)
    (toasts s).

Definition setIsTyping (v : bool) (s : State) : State :=
  mkState (conversationId s) (messageInput s) v (queryData s)
    (createPending s) (sendPending s) (quickPending s) (mounted s)
    (inflight s) (sent s) (toasts s).

Definition setQueryData (k : option Z)
    (f : option (list Message) -> list Message) (s : State) : State :=
  mkState (conversationId s) (messageInput s) (isTyping s)
    (<[k := f (queryData s !! k)]> (queryData s)) (createPending s)
    (sendPending s) (quickPending s) (mounted s) (inflight s) (sent s)
    (toasts s).

Definition toast (t : Toast) (s : State) : State :=
  mkState (conversationId s) (messageInput s) (isTyping s) (queryData s)
    (createPending s) (sendPending s) (quickPending s) (mounted s)
    (inflight s) (sent s) (toasts s ++ [t]).

Definition setMounted (s : State) : State :=
  mkState (conversationId s) (messageInput s) (isTyping s) (queryData s)
    (createPending s) (sendPending s) (quickPending s) true
    (inflight s) (sent s) (toasts s).

Definition setInflight (l : list Request) (s : State) : State :=
  mkState (conversationId s) (messageInput s) (isTyping s) (queryData s)
    (createPending s) (sendPending s) (quickPending s) (mounted s)
    l (sent s) (toasts s).

(** A request leaves the page. *)
Definition issue (r : Request) (s : State) : State :=
  mkState (conversationId s) (messageInput s) (isTyping s) (queryData s)
    (createPending s) (sendPending s) (quickPending s) (mounted s)
    (inflight s ++ [r]) (sent s ++ [r]) (toasts s).

(** *** The message query *)

(** [enabled: !!conversationId] *)
Definition query_enabled (s : State) : bool := truthy_id (conversationId s).

(** [const { data: messages = [] } = useQuery(...)]: the list the page
    renders. *)
Definition messages (s : State) : list Message :=
  match queryData s !! conversationId s with
  | Some l => l
  | None => []
  end.

(** A fetch of the list of conversation [id]. *)
Definition is_get_of (id : Z) (r : Request) : bool :=
  match r with
  | GetMessages i => i =? id
  | _ => false
  end.

(** The query of conversation [id] is being fetched. *)
Definition fetching (id : Z) (s : State) : bool :=
  existsb (is_get_of id) (inflight s).

(** The running fetch of [id] is cancelled: the page no longer awaits its
    answer. *)
Definition cancel (id : Z) (s : State) : State :=
  setInflight (List.filter (fun r => negb (is_get_of id r)) (inflight s)) s.

(** The refetch of an invalidated query: with a fetch running and nothing
    cached, the running fetch is left to answer; with a fetch running and a
    list cached, the running fetch is cancelled and a new one started;
    otherwise a fetch is started. *)
Definition refetch (id : Z) (s : State) : State :=
  if fetching id s then
    match queryData s !! Some id with
    | None => s
    | Some _ => issue (GetMessages id) (cancel id s)
    end
  else issue (GetMessages id) s.

(** [queryClient.invalidateQueries({ queryKey: [.., conversationId, ..] })]:
    the query of the page is refetched when it is enabled; no cached data
    is touched. *)
Definition invalidateQueries (s : State) : State :=
  match conversationId s with
  | Some id => if query_enabled s then refetch id s else s
  | None => s
  end.

(** *** Mutations *)

Inductive MutationId := MCreate | MSend | MQuick.

Definition isPending (m : MutationId) (s : State) : bool :=
  match m with
  | MCreate => createPending s
  | MSend => sendPending s
  | MQuick => quickPending s
  end.

Definition setPending (m : MutationId) (v : bool) (s : State) : State :=
  mkState (conversationId s) (messageInput s) (isTyping s) (queryData s)
    (match m with MCreate => v | _ => createPending s end)
    (match m with MSend => v | _ => sendPending s end)
    (match m with MQuick => v | _ => quickPending s end)
    (mounted s) (inflight s) (sent s) (toasts s).

(** The options object handed to [useMutation]: [mutationFn] either throws
    before any request or sends one request whose response decides the
    outcome; [D] is what [onSuccess] receives. *)
Record Mutation (V D : Type) := mkMutation {
  mid : MutationId;
  mutationFn : V -> State -> js_error + Request;
  onMutate : State -> State;
  onSuccess : D -> State -> State;
  onError : js_error -> State -> State
}.
Arguments mid {V D} _.
Arguments mutationFn {V D} _ _ _.
Arguments onMutate {V D} _ _.
Arguments onSuccess {V D} _ _ _.
Arguments onError {V D} _ _ _.

(** [mutation.mutate(v)] up to the point where a request is in flight or
    the mutation has already failed. *)
Definition mutate {V D} (m : Mutation V D) (v : V) (s : State) : State :=
  let s1 := onMutate m (setPending (mid m) true s) in
  match mutationFn m v s1 with
  | inr req => issue req s1
  | inl err => setPending (mid m) false (onError m err s1)
  end.

Definition resolve {V D} (m : Mutation V D) (d : D) (s : State) : State :=
  setPending (mid m) false (onSuccess m d s).

Definition reject {V D} (m : Mutation V D) (e : js_error) (s : State)
  : State :=
  setPending (mid m) false (onError m e s).

(** [error instanceof Error ? error.message : fallback] *)
Definition error_description (e : js_error) (fallback : jsstring)
  : jsstring :=
  match e with
  | ErrorObj m => m
  | NonError => fallback
  end.

Definition error_toast (description : jsstring) : Toast :=
  mkToast (lit "Error") description (lit "destructive").

(** Create initial conversation *)
Definition createConversationMutation : Mutation unit Conversation :=
  {| mid := MCreate;
     mutationFn := fun _ _ =>
       inr (CreateConversation (lit "anonymous") (lit "MedAssist Chat"));
     onMutate := fun s => s;
     onSuccess := fun conversation s =>
       setConversationId (Some (conv_id conversation)) s;
     onError := fun _ s =>
       toast (error_toast
         (lit "Failed to start conversation. Please refresh the page.")) s
  |}.

(** Send message mutation *)
Definition sendMessageMutation : Mutation jsstring Message :=
  {| mid := MSend;
     mutationFn := fun content s =>
       match conversationId s with
       | Some id =>
           if truthy_id (Some id) then inr (PostMessage id content)
           else inl (ErrorObj (lit "No conversation"))
       | None => inl (ErrorObj (lit "No conversation"))
       end;
     onMutate := setIsTyping true;
     onSuccess := fun _ s =>
       setIsTyping false (setMessageInput [] (invalidateQueries s));
     onError := fun error s =>
       toast (error_toast
                (error_description error (lit "Failed to send message")))
             (setIsTyping false s)
  |}.

(** What [onSuccess] of the quick action receives: the response body and
    the clock reading it takes for the synthetic message. *)
Record QuickData := mkQuickData {
  content : jsstring;
  now : Z
}.

(** The synthetic message of the quick action: [Date.now()] is its id,
    [new Date()] its timestamp. *)
Definition fakeAssistantMessage (id : Z) (data : QuickData) : Message :=
  {| msg_id := now data;
     msg_conversationId := Some id;
     msg_role := lit "assistant";
     msg_content := content data;
     msg_timestamp := Some (now data);
     msg_isTyping := Some false |}.

(** Quick action mutation *)
Definition quickActionMutation : Mutation jsstring QuickData :=
  {| mid := MQuick;
     mutationFn := fun action _ => inr (QuickActionCall action);
     onMutate := setIsTyping true;
     onSuccess := fun data s =>
       setIsTyping false
         (match conversationId s with
          | Some id =>
              if truthy_id (Some id) then
                (* Add the quick action response as an assistant message *)
                setQueryData (Some id)
                  (fun old => match old with
                              | Some l => l ++ [fakeAssistantMessage id data]
                              | None => [] ++ [fakeAssistantMessage id data]
                              end) s
              else s
          | None => s
          end);
     onError := fun error s =>
       toast (error_toast
                (error_description error
                   (lit "Failed to get quick action response")))
             (setIsTyping false s)
  |}.

(** *** Effects and handlers *)

(** Initialize conversation on mount *)
Definition mountEffect (s : State) : State :=
  if negb (truthy_id (conversationId s))
  then mutate createConversationMutation tt s
  else s.

Definition handleSendMessage (s : State) : State :=
  if negb (truthy_string (trim (messageInput s))) || isPending MSend s
  then s
  else mutate sendMessageMutation (trim (messageInput s)) s.

Definition handleQuickAction (action : jsstring) (s : State) : State :=
  mutate quickActionMutation action s.

Definition handleKeyDown (enter shiftKey : bool) (s : State) : State :=
  if enter && negb shiftKey then handleSendMessage s else s.

(** [disabled] attributes of the controls. *)
Definition quick_buttons_disabled (s : State) : bool := isPending MQuick s.
Definition textarea_disabled (s : State) : bool := isPending MSend s.
Definition send_button_disabled (s : State) : bool :=
  negb (truthy_string (trim (messageInput s))) || isPending MSend s.

End Chat.
Import Chat.

(* ===================================================================== *)
(** ** The page as a transition system                                    *)
(* ===================================================================== *)

Module Session.

(** What can happen to a mounted page: the user acts on a control, or the
    response to a request in flight arrives. *)
Inductive Event :=
| Mount
| ChangeInput (v : jsstring)
| ClickSend
| KeyDown (enter shiftKey : bool)
| ClickQuickAction (i : nat)
| CreateResolved (c : Conversation)
| CreateRejected (e : js_error)
| SendResolved (reply : Message)
| SendRejected (e : js_error)
| QuickResolved (d : QuickData)
| QuickRejected (e : js_error)
| MessagesFetched (msgs : list Message).

(** The oldest request in flight that satisfies [p], and the others. *)
Fixpoint take_first (p : Request -> bool) (l : list Request)
  : option (Request * list Request) :=
  match l with
  | [] => None
  | r :: rest =>
      if p r then Some (r, rest)
      else match take_first p rest with
           | Some (x, rest') => Some (x, r :: rest')
           | None => None
           end
  end.

(** Number of requests of a kind. *)
Definition count (p : Request -> bool) (l : list Request) : nat :=
  length (List.filter p l).

(** The response to a request of kind [p] arrives: the request leaves the
    set in flight and [k] handles the response. *)
Definition settle (p : Request -> bool) (k : Request -> State -> State)
    (s : State) : option State :=
  match take_first p (inflight s) with
  | Some (r, rest) => Some (k r (setInflight rest s))
  | None => None
  end.

(** The query observer after the conversation id was stored: the query
    for the new key is fetched when it is enabled. *)
Definition observe_query (s : State) : State :=
  match conversationId s with
  | Some id => if query_enabled s then issue (GetMessages id) s else s
  | None => s
  end.

(** One event. [None]: the event cannot occur in this state (the control
    is disabled, the effect has already run, or no matching request is in
    flight). *)
Definition step (e : Event) (s : State) : option State :=
  match e with
  | Mount =>
      if mounted s then None else Some (mountEffect (setMounted s))
  | _ =>
      if negb (mounted s) then None else
      match e with
      | Mount => None
      | ChangeInput v =>
          if textarea_disabled s then None else Some (setMessageInput v s)
      | ClickSend =>
          if send_button_disabled s then None
          else Some (handleSendMessage s)
      | KeyDown enter shiftKey =>
          if textarea_disabled s then None
          else Some (handleKeyDown enter shiftKey s)
      | ClickQuickAction i =>
          if quick_buttons_disabled s then None
          else match quickActions !! i with
               | Some a => Some (handleQuickAction (qa_action a) s)
               | None => None
               end
      | CreateResolved c =>
          settle is_create
            (fun _ s0 => observe_query (resolve createConversationMutation c s0)) s
      | CreateRejected err =>
          settle is_create (fun _ => reject createConversationMutation err) s
      | SendResolved reply =>
          settle is_post (fun _ => resolve sendMessageMutation reply) s
      | SendRejected err =>
          settle is_post (fun _ => reject sendMessageMutation err) s
      | QuickResolved d =>
          settle is_quick (fun _ => resolve quickActionMutation d) s
      | QuickRejected err =>
          settle is_quick (fun _ => reject quickActionMutation err) s
      | MessagesFetched msgs =>
          settle is_get
            (fun r => match r with
                      | GetMessages id => setQueryData (Some id) (fun _ => msgs)
                      | _ => fun s0 => s0
                      end) s
      end
  end.

Fixpoint run (tr : list Event) (s : State) : option State :=
  match tr with
  | [] => Some s
  | e :: rest =>
      match step e s with
      | Some s' => run rest s'
      | None => None
      end
  end.

Definition reachable (s : State) : Prop := exists tr, run tr init = Some s.

(** A conversation id is held: the test the page itself applies. *)
Definition holds_conversation (s : State) : bool :=
  truthy_id (conversationId s).

(** The completion events of a send or a quick action. *)
Definition is_completion (e : Event) : bool :=
  match e with
  | SendResolved _ | SendRejected _ | QuickResolved _ | QuickRejected _ => true
  | _ => false
  end.

(** 1 for [true], 0 for [false]. *)
Definition b2n (b : bool) : nat := if b then 1%nat else 0%nat.

(** What every reachable state satisfies: before the mount effect nothing
    has happened; afterwards exactly one conversation was requested; each
    mutation has a request in flight exactly when it is pending; the
    conversation id is unset while its creation is pending and held while
    a send is pending; every message posted so far went to the stored
    conversation id, and every fetch in flight is for it. *)
Record Inv (s : State) : Prop := mkInv {
  inv_unmounted : mounted s = false -> s = init;
  inv_create_sent : mounted s = true -> count is_create (sent s) = 1%nat;
  inv_create : count is_create (inflight s) = b2n (createPending s);
  inv_post : count is_post (inflight s) = b2n (sendPending s);
  inv_quick : count is_quick (inflight s) = b2n (quickPending s);
  inv_create_id : createPending s = true -> conversationId s = None;
  inv_send_id : sendPending s = true -> holds_conversation s = true;
  inv_post_target : forall id c,
    In (PostMessage id c) (sent s) -> conversationId s = Some id;
  inv_get_target : forall id,
    In (GetMessages id) (inflight s) -> conversationId s = Some id
}.

Definition is_send_resolved (e : Event) : bool :=
  match e with SendResolved _ => true | _ => false end.

(** How often a trace stores a conversation id. *)
Definition is_create_resolved (e : Event) : bool :=
  match e with CreateResolved _ => true | _ => false end.

Definition creations (tr : list Event) : nat :=
  length (List.filter is_create_resolved tr).

End Session.
Import Session.

(* ===================================================================== *)
(** ** Sample sessions                                                    *)
(* ===================================================================== *)

Module Scenario.

Definition conversation7 : Conversation :=
  mkConversation 7 (Some (lit "anonymous")) (Some (lit "MedAssist Chat"))
    (Some 1000).

Definition reply : Message :=
  mkMessage 2 (Some 7) (lit "assistant") (lit "Rest and drink water.")
    (Some 2000) (Some false).

Definition emergency : QuickData :=
  mkQuickData (lit "Call your local emergency services.") 3000.

(** The state a trace leads to from the initial page. *)
Definition after (tr : list Event) : State :=
  match run tr init with
  | Some s => s
  | None => init
  end.

(** The page has its conversation and a draft. *)
Definition ready : list Event :=
  [Mount; CreateResolved conversation7;
   ChangeInput (lit " I have a headache ")].

(** The draft was sent and the emergency button clicked. *)
Definition both_in_flight : list Event :=
  ready ++ [ClickSend; ClickQuickAction 3].

(** The page is still waiting for its conversation; a draft was typed. *)
Definition waiting : list Event := [Mount; ChangeInput (lit "hi")].

(** The emergency button was clicked before the conversation arrived. *)
Definition quick_while_waiting : list Event := [Mount; ClickQuickAction 3].

(** The send failed on the server. *)
Definition server_error : js_error := ErrorObj (lit "500: Internal error").

Definition send_in_flight : list Event := ready ++ [ClickSend].
Definition quick_in_flight : list Event := ready ++ [ClickQuickAction 3].

(** What a client could post on top of the creation fields. *)
Definition forged_message : gmap string value :=
  <["id" := VNum 99]>
    (<["timestamp" := VDate 0]>
       (<["isTyping" := VBool true]>
          (message_input 7 (lit "user") (lit "hi")))).

Definition forged_conversation : gmap string value :=
  <["id" := VNum 99]>
    (<["createdAt" := VDate 0]>
       (conversation_input (lit "anonymous") (lit "MedAssist Chat"))).

End Scenario.
Import Scenario.

(* ===================================================================== *)
(** ** What the page shows                                                *)
(* ===================================================================== *)

Module Display.

(** The argument of [formatTimestamp]: [Date | string | null]. A [Date] is
    given by its time value in milliseconds. *)
Inductive Timestamp :=
| TNull
| TDate (ms : Z)
| TString (s : jsstring).

(** An integer in a template literal. *)
Definition decimal (n : Z) : jsstring :=
  lit (NilEmpty.string_of_int (Z.to_int n)).

Section Clock.

(** [new Date(s)] for a string: its time value, or [None] for an invalid
    date. *)
Variable parseDate : jsstring -> option Z.

(** [date.toLocaleTimeString([], { hour: 'numeric', minute: '2-digit' })]
    for a valid date. *)
Variable toLocaleTimeString : Z -> jsstring.

(** [!timestamp]: [null] and the empty string are falsy; a [Date] is an
    object, hence truthy. *)
Definition falsy_timestamp (t : Timestamp) : bool :=
  match t with
  | TNull => true
  | TString [] => true
  | _ => false
  end.

(** [new Date(timestamp).getTime()]; [None] is [NaN]. *)
Definition time_value (t : Timestamp) : option Z :=
  match t with
  | TNull => Some 0
  | TDate ms => Some ms
  | TString s => parseDate s
  end.

(** [formatTimestamp], called when the clock reads [now]. With an invalid
    date both comparisons are false and the locale time of an invalid date
    is the text "Invalid Date". [Math.floor] of the quotient is the integer
    quotient rounded down. *)
Definition formatTimestamp (now : Z) (timestamp : Timestamp) : jsstring :=
  if falsy_timestamp timestamp then lit "Just now"
  else
    match time_value timestamp with
    | None => lit "Invalid Date"
    | Some date =>
        let diffMs := now - date in
        let diffMins := diffMs / 60000 in
        if diffMins <? 1 then lit "Just now"
        else if diffMins <? 60 then
          decimal diffMins ++ lit " min"
            ++ (if diffMins =? 1 then lit "" else lit "s") ++ lit " ago"
        else toLocaleTimeString date
    end.

(** The timestamp of a row: [Date | null]. *)
Definition row_timestamp (m : Message) : Timestamp :=
  match msg_timestamp m with
  | Some ms => TDate ms
  | None => TNull
  end.

Inductive BubbleStyle := UserBg | BotBg.

(** One message of the list, as the JSX lays it out: the row is pushed to
    the right for the user; the heart avatar comes before the bubble of the
    assistant and the user avatar after the bubble of the user; the bubble
    is narrow and in the user colours for the user, in the bot colours
    otherwise; the time label is right-aligned for the user. *)
Record Bubble := mkBubble {
  bubble_key : Z;
  justify_end : bool;
  heart_avatar : bool;
  user_avatar : bool;
  narrow : bool;
  style : BubbleStyle;
  text_shown : jsstring;
  time_right : bool;
  time_label : jsstring
}.

Definition is_user (m : Message) : bool :=
  bool_decide (msg_role m = lit "user").

Definition is_assistant (m : Message) : bool :=
  bool_decide (msg_role m = lit "assistant").

Definition renderMessage (now : Z) (m : Message) : Bubble :=
  {| bubble_key := msg_id m;
     justify_end := is_user m;
     heart_avatar := is_assistant m;
     user_avatar := is_user m;
     narrow := is_user m;
     style := if is_user m then UserBg else BotBg;
     text_shown := msg_content m;
     time_right := is_user m;
     time_label := formatTimestamp now (row_timestamp m) |}.

(** The children of the messages area, top to bottom. *)
Inductive Item :=
| WelcomeMessage
| ChatMessage (b : Bubble)
| TypingIndicator.

Definition messagesArea (now : Z) (s : State) : list Item :=
  WelcomeMessage
    :: List.map (fun m => ChatMessage (renderMessage now m)) (messages s)
    ++ (if isTyping s then [TypingIndicator] else []).

End Clock.

End Display.
Import Display.

(* ===================================================================== *)
(** ** What the page sends                                                *)
(* ===================================================================== *)

Module Wire.

(** The JSON body handed to [apiRequest]; the query fetch has none. *)
Definition body (r : Request) : gmap string value :=
  match r with
  | CreateConversation userId title =>
      <["userId" := VStr userId]> (<["title" := VStr title]> ∅)
  | PostMessage _ content => <["content" := VStr content]> ∅
  | QuickActionCall action => <["action" := VStr action]> ∅
  | GetMessages _ => ∅
  end.

(** The action of one of the four buttons. *)
Definition is_quick_tag (a : jsstring) : bool :=
  existsb (fun q => bool_decide (qa_action q = a)) quickActions.

(** What a request of the page looks like when [cid] is the conversation
    id of the page: the creation carries the fixed user and title; a message
    goes to the stored, non-zero id with a non-empty content that [trim]
    leaves alone; a quick action carries the action of a button; a fetch is
    for the stored, non-zero id. *)
Definition request_ok (cid : option Z) (r : Request) : bool :=
  match r with
  | CreateConversation userId title =>
      bool_decide (userId = lit "anonymous")
      && bool_decide (title = lit "MedAssist Chat")
  | PostMessage id content =>
      bool_decide (cid = Some id) && negb (id =? 0)
      && truthy_string content && bool_decide (trim content = content)
  | QuickActionCall action => is_quick_tag action
  | GetMessages id => bool_decide (cid = Some id) && negb (id =? 0)
  end.

(** A notice as [onError] builds it. *)
Definition is_error_notice (t : Toast) : bool :=
  bool_decide (toast_title t = lit "Error")
  && bool_decide (toast_variant t = lit "destructive").

End Wire.
Import Wire.

(* ===================================================================== *)
(** ** The steps of the page, case by case                                *)
(* ===================================================================== *)

Module Trace.

(** The two ways to submit the draft. *)
Definition is_submit (e : Event) : bool :=
  match e with
  | ClickSend => true
  | KeyDown enter shiftKey => enter && negb shiftKey
  | _ => false
  end.

(** The event is the response to a request of the kind of [r]. *)
Definition answers (e : Event) (r : Request) : bool :=
  match e with
  | CreateResolved _ | CreateRejected _ => is_create r
  | SendResolved _ | SendRejected _ => is_post r
  | QuickResolved _ | QuickRejected _ => is_quick r
  | MessagesFetched _ => is_get r
  | _ => false
  end.

(** A request has failed. *)
Definition is_rejection (e : Event) : bool :=
  match e with
  | CreateRejected _ | SendRejected _ | QuickRejected _ => true
  | _ => false
  end.

(** [step] as a relation, one rule per way an event can be taken. *)
Inductive Step (s : State) : Event -> State -> Prop :=
| Step_mount :
    mounted s = false ->
    Step s Mount (mountEffect (setMounted s))
| Step_change v :
    mounted s = true -> sendPending s = false ->
    Step s (ChangeInput v) (setMessageInput v s)
| Step_key_idle enter shiftKey :
    mounted s = true -> sendPending s = false ->
    enter && negb shiftKey = false \/ trim (messageInput s) = [] ->
    Step s (KeyDown enter shiftKey) s
| Step_submit_fail e :
    mounted s = true -> is_submit e = true -> sendPending s = false ->
    trim (messageInput s) <> [] -> holds_conversation s = false ->
    Step s e
      (setPending MSend false
         (toast (error_toast (lit "No conversation"))
            (setIsTyping false (setIsTyping true (setPending MSend true s)))))
| Step_submit_send e id :
    mounted s = true -> is_submit e = true -> sendPending s = false ->
    trim (messageInput s) <> [] ->
    conversationId s = Some id -> (id =? 0) = false ->
    Step s e
      (issue (PostMessage id (trim (messageInput s)))
         (setIsTyping true (setPending MSend true s)))
| Step_quick i a :
    mounted s = true -> quickPending s = false ->
    quickActions !! i = Some a ->
    Step s (ClickQuickAction i)
      (issue (QuickActionCall (qa_action a))
         (setIsTyping true (setPending MQuick true s)))
| Step_create_resolved c userId title rest :
    mounted s = true ->
    take_first is_create (inflight s)
      = Some (CreateConversation userId title, rest) ->
    Step s (CreateResolved c)
      (observe_query (resolve createConversationMutation c (setInflight rest s)))
| Step_create_rejected err userId title rest :
    mounted s = true ->
    take_first is_create (inflight s)
      = Some (CreateConversation userId title, rest) ->
    Step s (CreateRejected err)
      (reject createConversationMutation err (setInflight rest s))
| Step_send_resolved reply id c rest :
    mounted s = true ->
    take_first is_post (inflight s) = Some (PostMessage id c, rest) ->
    Step s (SendResolved reply)
      (resolve sendMessageMutation reply (setInflight rest s))
| Step_send_rejected err id c rest :
    mounted s = true ->
    take_first is_post (inflight s) = Some (PostMessage id c, rest) ->
    Step s (SendRejected err)
      (reject sendMessageMutation err (setInflight rest s))
| Step_quick_resolved d a rest :
    mounted s = true ->
    take_first is_quick (inflight s) = Some (QuickActionCall a, rest) ->
    Step s (QuickResolved d)
      (resolve quickActionMutation d (setInflight rest s))
| Step_quick_rejected err a rest :
    mounted s = true ->
    take_first is_quick (inflight s) = Some (QuickActionCall a, rest) ->
    Step s (QuickRejected err)
      (reject quickActionMutation err (setInflight rest s))
| Step_fetched msgs id rest :
    mounted s = true ->
    take_first is_get (inflight s) = Some (GetMessages id, rest) ->
    Step s (MessagesFetched msgs)
      (setQueryData (Some id) (fun _ => msgs) (setInflight rest s)).

(** What the reachable states satisfy beyond [Inv]: every request sent is
    well formed for the stored conversation id; a request in flight was
    sent; Typing is on only while a send or a quick action is pending; the
    message in flight is the trimmed draft; the cache has data for the held
    conversation id only; every notice is an error notice. *)
Record Wf (s : State) : Prop := mkWf {
  wf_sent : Forall (fun r => request_ok (conversationId s) r = true) (sent s);
  wf_inflight : forall r, In r (inflight s) -> In r (sent s);
  wf_typing : isTyping s = true -> sendPending s || quickPending s = true;
  wf_draft : forall id c,
    In (PostMessage id c) (inflight s) -> c = trim (messageInput s);
  wf_cache : forall k l,
    queryData s !! k = Some l -> k = conversationId s /\ truthy_id k = true;
  wf_toasts : Forall (fun t => is_error_notice t = true) (toasts s)
}.

(** The creation of the conversation has failed: the page is mounted, no
    creation is pending and no id is stored. *)
Definition stranded (s : State) : Prop :=
  mounted s = true /\ createPending s = false /\ conversationId s = None.

(** The response that settles each request in flight: a mutation fails
    with [err], a fetch of the list is answered with [msgs]. *)
Definition settling (err : js_error) (msgs : list Message) (r : Request)
  : Event :=
  match r with
  | CreateConversation _ _ => CreateRejected err
  | PostMessage _ _ => SendRejected err
  | QuickActionCall _ => QuickRejected err
  | GetMessages _ => MessagesFetched msgs
  end.

(** The page has its conversation and the first answer to its fetch. *)
Definition settled : list Event :=
  [Mount; CreateResolved conversation7; MessagesFetched [reply]].

End Trace.
Import Trace.

(* ===================================================================== *)
(** ** Properties of [trim]                                               *)
(* ===================================================================== *)

Section Trim.

Lemma trimStart_split (s : jsstring) :
  exists pre, s = pre ++ trimStart s /\ forallb is_white_space pre = true.
Proof.
  induction s as [|c r IH]; simpl.
  - exists []. split; reflexivity.
  - destruct (is_white_space c) eqn:Hc.
    + destruct IH as [pre [Heq Hall]].
      exists (c :: pre). simpl. rewrite Hc, Hall. split; [|reflexivity].
      f_equal. exact Heq.
    + exists []. split; reflexivity.
Qed.

Lemma trimStart_head (s : jsstring) (c : N) :
  head (trimStart s) = Some c -> is_white_space c = false.
Proof.
  induction s as [|d r IH]; simpl; [discriminate|].
  destruct (is_white_space d) eqn:Hd; [exact IH|].
  simpl. intros [= <-]. exact Hd.
Qed.

Lemma last_rev (l : jsstring) : last (rev l) = head l.
Proof.
  destruct l as [|a l]; [reflexivity|].
  simpl. rewrite last_snoc. reflexivity.
Qed.

Lemma head_rev (l : jsstring) : head (rev l) = last l.
Proof. rewrite <- (rev_involutive l) at 2. symmetry. apply last_rev. Qed.

Lemma head_app_nonempty (l k : jsstring) : l <> [] -> head (l ++ k) = head l.
Proof. destruct l; [congruence | reflexivity]. Qed.

Lemma trim_last (s : jsstring) (c : N) :
  last_unit (trim s) = Some c -> is_white_space c = false.
Proof.
  unfold last_unit, trim, trimEnd. rewrite last_rev. apply trimStart_head.
Qed.

Lemma trim_first (s : jsstring) (c : N) :
  first_unit (trim s) = Some c -> is_white_space c = false.
Proof.
  unfold first_unit, trim, trimEnd. intros H.
  destruct (trimStart_split (rev (trimStart s))) as [pre [Heq _]].
  apply (f_equal (@rev N)) in Heq.
  rewrite rev_involutive, rev_app_distr in Heq.
  apply (trimStart_head s). rewrite Heq.
  rewrite head_app_nonempty; [exact H|].
  intros Hnil. rewrite Hnil in H. discriminate.
Qed.

Lemma truthy_string_nonempty (s : jsstring) :
  truthy_string s = true <-> s <> [].
Proof. destruct s; simpl; split; congruence. Qed.

End Trim.

(* ===================================================================== *)
(** ** Requests in flight: bookkeeping lemmas                             *)
(* ===================================================================== *)

Section Counting.

Lemma count_snoc (p : Request -> bool) (l : list Request) (r : Request) :
  count p (l ++ [r]) = (count p l + b2n (p r))%nat.
Proof.
  unfold count. rewrite List.filter_app, length_app. simpl.
  destruct (p r); reflexivity.
Qed.

Lemma take_first_count (p : Request -> bool) (l rest : list Request)
    (r : Request) :
  take_first p l = Some (r, rest) ->
  p r = true /\
  forall q, count q l = (b2n (q r) + count q rest)%nat.
Proof.
  revert rest. induction l as [|a l IH]; intros rest; simpl; [discriminate|].
  destruct (p a) eqn:Hpa.
  - intros [= <- <-]. split; [exact Hpa|].
    intros q. unfold count. simpl. destruct (q a); reflexivity.
  - destruct (take_first p l) as [[x rest']|]; [|discriminate].
    intros [= <- <-]. destruct (IH rest' eq_refl) as [Hp Hq].
    split; [exact Hp|].
    intros q. specialize (Hq q). unfold count in *. simpl.
    destruct (q a); simpl; lia.
Qed.

Lemma take_first_none (p : Request -> bool) (l : list Request) :
  take_first p l = None <-> count p l = 0%nat.
Proof.
  induction l as [|a l IH]; simpl; [split; reflexivity|].
  unfold count in *. simpl. destruct (p a); simpl.
  - split; discriminate.
  - destruct (take_first p l) as [[x rest']|].
    + split; [discriminate|]. intros H. apply IH in H. discriminate.
    + split; [intros _; apply IH; reflexivity | reflexivity].
Qed.

Lemma take_first_in (p : Request -> bool) (l rest : list Request)
    (r : Request) :
  take_first p l = Some (r, rest) -> In r l.
Proof.
  revert rest. induction l as [|a l IH]; intros rest; simpl; [discriminate|].
  destruct (p a).
  - intros [= <- <-]. left. reflexivity.
  - destruct (take_first p l) as [[x rest']|]; [|discriminate].
    intros [= <- <-]. right. apply (IH rest'). reflexivity.
Qed.

Lemma take_first_rest (p : Request -> bool) (l rest : list Request)
    (r : Request) :
  take_first p l = Some (r, rest) -> forall x, In x rest -> In x l.
Proof.
  revert rest. induction l as [|a l IH]; intros rest; simpl; [discriminate|].
  destruct (p a).
  - intros [= <- <-] x Hx. right. exact Hx.
  - destruct (take_first p l) as [[y rest']|]; [|discriminate].
    intros [= <- <-] x [Hx|Hx]; [left; exact Hx|].
    right. apply (IH rest' eq_refl). exact Hx.
Qed.

End Counting.

(* ===================================================================== *)
(** ** Invalidating the message query                                     *)
(* ===================================================================== *)

Section Query.

Lemma count_filter_keep (p q : Request -> bool) (l : list Request) :
  (forall r, p r = true -> q r = true) ->
  count p (List.filter q l) = count p l.
Proof.
  intros Hpq. unfold count. induction l as [|a l IH]; [reflexivity|].
  simpl. destruct (q a) eqn:Hq; simpl.
  - destruct (p a); simpl; rewrite IH; reflexivity.
  - destruct (p a) eqn:Hp; [|exact IH].
    rewrite (Hpq a Hp) in Hq. discriminate.
Qed.

Lemma count_is_get_of_filter (id : Z) (l : list Request) :
  count (is_get_of id)
    (List.filter (fun r => negb (is_get_of id r)) l) = 0%nat.
Proof.
  unfold count. induction l as [|a l IH]; [reflexivity|].
  simpl. destruct (is_get_of id a) eqn:Ha; simpl; [exact IH|].
  rewrite Ha. exact IH.
Qed.

Lemma existsb_count (p : Request -> bool) (l : list Request) :
  existsb p l = false <-> count p l = 0%nat.
Proof.
  unfold count. induction l as [|a l IH]; simpl; [split; reflexivity|].
  destruct (p a); simpl; [split; discriminate | exact IH].
Qed.

Lemma setInflight_same (s : State) : setInflight (inflight s) s = s.
Proof. destruct s; reflexivity. Qed.

(** What an invalidation does to the page: nothing, or one new fetch for
    the held conversation, started on the requests [l] that stay in flight:
    all of them, or all but the cancelled fetch. *)
Lemma invalidateQueries_cases (s : State) :
  invalidateQueries s = s \/
  exists id l,
    conversationId s = Some id /\ (id =? 0) = false /\
    invalidateQueries s = issue (GetMessages id) (setInflight l s) /\
    (forall x, In x l -> In x (inflight s)) /\
    count (is_get_of id) l = 0%nat /\
    count is_create l = count is_create (inflight s) /\
    count is_post l = count is_post (inflight s) /\
    count is_quick l = count is_quick (inflight s).
Proof.
  unfold invalidateQueries, query_enabled.
  destruct (conversationId s) as [id|] eqn:Hid; [|left; reflexivity].
  simpl. destruct (id =? 0) eqn:Hz; simpl; [left; reflexivity|].
  unfold refetch. destruct (fetching id s) eqn:Hf.
  - destruct (queryData s !! Some id); [|left; reflexivity].
    right. exists id, (List.filter (fun r => negb (is_get_of id r)) (inflight s)).
    repeat split; auto.
    + intros x Hx. apply List.filter_In in Hx. tauto.
    + apply count_is_get_of_filter.
    + apply count_filter_keep. intros r Hr. destruct r; try discriminate.
      reflexivity.
    + apply count_filter_keep. intros r Hr. destruct r; try discriminate.
      reflexivity.
    + apply count_filter_keep. intros r Hr. destruct r; try discriminate.
      reflexivity.
  - right. exists id, (inflight s). rewrite setInflight_same.
    repeat split; auto.
    apply existsb_count. exact Hf.
Qed.

(** An invalidation touches nothing but the requests. *)
Lemma invalidateQueries_frame (s : State) :
  conversationId (invalidateQueries s) = conversationId s /\
  messageInput (invalidateQueries s) = messageInput s /\
  isTyping (invalidateQueries s) = isTyping s /\
  queryData (invalidateQueries s) = queryData s /\
  createPending (invalidateQueries s) = createPending s /\
  sendPending (invalidateQueries s) = sendPending s /\
  quickPending (invalidateQueries s) = quickPending s /\
  mounted (invalidateQueries s) = mounted s /\
  toasts (invalidateQueries s) = toasts s.
Proof.
  destruct (invalidateQueries_cases s)
    as [-> | (id & l & _ & _ & -> & _)]; simpl; repeat split; reflexivity.
Qed.

End Query.

(* ===================================================================== *)
(** ** The invariant holds in every reachable state                       *)
(* ===================================================================== *)

Section Invariant.

Lemma Inv_init : Inv init.
Proof.
  constructor; simpl; try reflexivity; try discriminate.
  - intros id c [].
  - intros id [].
Qed.

Lemma in_snoc (l : list Request) (r x : Request) :
  In x (l ++ [r]) -> In x l \/ x = r.
Proof.
  intros H. apply in_app_or in H. destruct H as [H|[H|[]]]; auto.
Qed.

Lemma Inv_mount (s : State) :
  Inv s -> mounted s = false -> Inv (mountEffect (setMounted s)).
Proof.
  intros HI Hm. rewrite (inv_unmounted s HI Hm).
  constructor; simpl; try reflexivity; try discriminate.
  - intros id c [H|[]]. discriminate.
  - intros id [H|[]]. discriminate.
Qed.

Lemma Inv_setMessageInput (v : jsstring) (s : State) :
  Inv s -> mounted s = true -> Inv (setMessageInput v s).
Proof.
  intros [H1 H2 H3 H4 H5 H6 H7 H8 H9] Hm.
  constructor; simpl; auto. intros Hf. congruence.
Qed.

Lemma Inv_handleSendMessage (s : State) :
  Inv s -> mounted s = true -> Inv (handleSendMessage s).
Proof.
  intros HI Hm. unfold handleSendMessage.
  destruct (negb (truthy_string (trim (messageInput s))) || isPending MSend s)
    eqn:Hguard; [exact HI|].
  apply orb_false_elim in Hguard. destruct Hguard as [_ Hp]. simpl in Hp.
  destruct HI as [H1 H2 H3 H4 H5 H6 H7 H8 H9].
  unfold mutate. simpl.
  destruct (conversationId s) as [id|] eqn:Hid; simpl.
  - destruct (id =? 0) eqn:Hz; simpl.
    + constructor; simpl; rewrite ?Hid; auto; try congruence.
      rewrite H4, Hp. reflexivity.
    + constructor; simpl; rewrite ?Hid, ?count_snoc; simpl; auto;
        try congruence.
      * intros _. rewrite (H2 Hm). reflexivity.
      * rewrite H3. lia.
      * rewrite H4, Hp. reflexivity.
      * rewrite H5. lia.
      * intros _. unfold holds_conversation. simpl. rewrite Hid. simpl.
        rewrite Hz. reflexivity.
      * intros id' c Hin. apply in_snoc in Hin. destruct Hin as [Hin|Heq].
        -- eapply H8. exact Hin.
        -- congruence.
      * intros id' Hin. apply in_snoc in Hin. destruct Hin as [Hin|Heq].
        -- apply H9. exact Hin.
        -- discriminate.
  - constructor; simpl; rewrite ?Hid; auto; try congruence.
    rewrite H4, Hp. reflexivity.
Qed.

Lemma Inv_handleQuickAction (a : jsstring) (s : State) :
  Inv s -> mounted s = true -> quickPending s = false ->
  Inv (handleQuickAction a s).
Proof.
  intros [H1 H2 H3 H4 H5 H6 H7 H8 H9] Hm Hq.
  constructor; simpl; rewrite ?count_snoc; simpl; auto; try congruence.
  - intros _. rewrite (H2 Hm). reflexivity.
  - rewrite H3. lia.
  - rewrite H4. lia.
  - rewrite H5, Hq. reflexivity.
  - intros id c Hin. apply in_snoc in Hin. destruct Hin as [Hin|Heq].
    + eapply H8. exact Hin.
    + discriminate.
  - intros id Hin. apply in_snoc in Hin. destruct Hin as [Hin|Heq].
    + apply H9. exact Hin.
    + discriminate.
Qed.

(** A response can only belong to a request that is in flight. *)
Lemma settle_inv (p : Request -> bool) (k : Request -> State -> State)
    (s s' : State) :
  settle p k s = Some s' ->
  exists r rest,
    take_first p (inflight s) = Some (r, rest) /\ p r = true /\
    (forall q, count q (inflight s) = (b2n (q r) + count q rest)%nat) /\
    s' = k r (setInflight rest s).
Proof.
  unfold settle. destruct (take_first p (inflight s)) as [[r rest]|] eqn:Ht;
    [|discriminate].
  intros [= <-]. exists r, rest.
  destruct (take_first_count p _ _ _ Ht) as [Hp Hq]. auto.
Qed.

Lemma b2n_pos (b : bool) (n : nat) :
  (1 + n)%nat = b2n b -> b = true /\ n = 0%nat.
Proof. destruct b; simpl; intros H; split; try reflexivity; lia. Qed.

(** The common opening of the response cases: the request [r] that the
    response answers, the requests [rest] that stay in flight, and the
    invariant of the state before, with the counts split accordingly. *)
Ltac open_response Hstep HI :=
  let r := fresh "r" in
  let rest := fresh "rest" in
  let Ht := fresh "Ht" in
  let Hp := fresh "Hp" in
  let Hc := fresh "Hc" in
  apply settle_inv in Hstep;
  destruct Hstep as (r & rest & Ht & Hp & Hc & ->);
  pose proof (take_first_rest _ _ _ _ Ht) as Hrest;
  pose proof (take_first_in _ _ _ _ Ht) as Hrin;
  destruct HI as [H1 H2 H3 H4 H5 H6 H7 H8 H9];
  destruct r; try discriminate;
  rewrite (Hc is_create) in H3; rewrite (Hc is_post) in H4;
  rewrite (Hc is_quick) in H5; simpl in H3, H4, H5.

Lemma step_Inv (e : Event) (s s' : State) :
  Inv s -> step e s = Some s' -> Inv s'.
Proof.
  intros HI Hstep. destruct e; simpl in Hstep;
    (destruct (mounted s) eqn:Hm; simpl in Hstep; try discriminate).
  - (* Mount *)
    injection Hstep as <-. apply Inv_mount; assumption.
  - destruct (textarea_disabled s); [discriminate|].
    injection Hstep as <-. apply Inv_setMessageInput; assumption.
  - destruct (send_button_disabled s); [discriminate|].
    injection Hstep as <-. apply Inv_handleSendMessage; assumption.
  - destruct (textarea_disabled s); [discriminate|].
    injection Hstep as <-. unfold handleKeyDown.
    destruct (enter && negb shiftKey); [|exact HI].
    apply Inv_handleSendMessage; assumption.
  - unfold quick_buttons_disabled in Hstep. simpl in Hstep.
    destruct (quickPending s) eqn:Hq; [discriminate|].
    destruct (quickActions !! i) as [a|]; [|discriminate].
    injection Hstep as <-. apply Inv_handleQuickAction; assumption.
  - (* CreateResolved *)
    open_response Hstep HI.
    apply b2n_pos in H3. destruct H3 as [Hcp H3].
    specialize (H6 Hcp).
    unfold observe_query, query_enabled. simpl.
    destruct (conv_id c =? 0) eqn:Hz; simpl;
      (constructor; simpl; rewrite ?count_snoc; simpl; auto; try congruence;
       try lia).
    + intros Hs. specialize (H7 Hs). unfold holds_conversation in H7.
      rewrite H6 in H7. discriminate.
    + intros id c0 Hin. specialize (H8 _ _ Hin). congruence.
    + intros id Hin. specialize (H9 _ (Hrest _ Hin)). congruence.
    + intros _. rewrite (H2 Hm). reflexivity.
    + intros Hs. unfold holds_conversation. simpl. rewrite Hz. reflexivity.
    + intros id c0 Hin. apply in_snoc in Hin. destruct Hin as [Hin|Heq].
      * specialize (H8 _ _ Hin). congruence.
      * discriminate.
    + intros id Hin. apply in_snoc in Hin. destruct Hin as [Hin|Heq].
      * specialize (H9 _ (Hrest _ Hin)). congruence.
      * congruence.
  - (* CreateRejected *)
    open_response Hstep HI.
    apply b2n_pos in H3. destruct H3 as [Hcp H3].
    constructor; simpl; auto; try congruence.
  - (* SendResolved *)
    open_response Hstep HI.
    apply b2n_pos in H4. destruct H4 as [Hsp H4].
    specialize (H7 Hsp). unfold holds_conversation in H7.
    destruct (conversationId s) as [id|] eqn:Hid; [|discriminate].
    simpl in H7. destruct (id =? 0) eqn:Hz; [discriminate|].
    unfold resolve. cbn [onSuccess sendMessageMutation mid].
    destruct (invalidateQueries_cases (setInflight rest s))
      as [Heq | (cid & l & Hcid & _ & Heq & Hl & _ & Hc1 & Hc2 & Hc3)];
      rewrite Heq; simpl in *.
    + constructor; simpl; rewrite ?Hid; auto; try congruence; try lia.
    + assert (cid = id) by congruence. subst cid.
      constructor; simpl; rewrite ?count_snoc, ?Hid, ?Hc1, ?Hc2, ?Hc3;
        simpl; auto; try congruence; try lia.
      * intros _. rewrite (H2 Hm). reflexivity.
      * intros id' c0 Hin. apply in_snoc in Hin. destruct Hin as [Hin|Heq'].
        -- eapply H8. exact Hin.
        -- discriminate.
      * intros id' Hin. apply in_snoc in Hin. destruct Hin as [Hin|Heq'].
        -- apply H9, Hrest, Hl, Hin.
        -- congruence.
  - (* SendRejected *)
    open_response Hstep HI.
    apply b2n_pos in H4. destruct H4 as [Hsp H4].
    constructor; simpl; auto; try congruence.
  - (* QuickResolved *)
    open_response Hstep HI.
    apply b2n_pos in H5. destruct H5 as [Hqp H5].
    unfold resolve. simpl.
    destruct (conversationId s) as [id|] eqn:Hid; simpl;
      [destruct (id =? 0) eqn:Hz; simpl|];
      (constructor; simpl; rewrite ?Hid; auto; try congruence).
  - (* QuickRejected *)
    open_response Hstep HI.
    apply b2n_pos in H5. destruct H5 as [Hqp H5].
    constructor; simpl; auto; try congruence.
  - (* MessagesFetched *)
    open_response Hstep HI.
    constructor; simpl; auto; try congruence.
Qed.

Lemma run_Inv (tr : list Event) (s s' : State) :
  Inv s -> run tr s = Some s' -> Inv s'.
Proof.
  revert s. induction tr as [|e tr IH]; intros s HI; simpl.
  - intros [= <-]. exact HI.
  - destruct (step e s) as [s1|] eqn:Hs; [|discriminate].
    apply IH. eapply step_Inv; eassumption.
Qed.

Lemma reachable_Inv (s : State) : reachable s -> Inv s.
Proof. intros [tr Hrun]. eapply run_Inv; [apply Inv_init | exact Hrun]. Qed.

Lemma run_app (tr1 tr2 : list Event) (s : State) :
  run (tr1 ++ tr2) s =
  match run tr1 s with Some s1 => run tr2 s1 | None => None end.
Proof.
  revert s. induction tr1 as [|e tr1 IH]; intros s; simpl; [reflexivity|].
  destruct (step e s); [apply IH | reflexivity].
Qed.

Lemma reachable_step (e : Event) (s s' : State) :
  reachable s -> step e s = Some s' -> reachable s'.
Proof.
  intros [tr Hrun] Hstep. exists (tr ++ [e]).
  rewrite run_app, Hrun. simpl. rewrite Hstep. reflexivity.
Qed.

Lemma reachable_run (tr : list Event) (s s' : State) :
  reachable s -> run tr s = Some s' -> reachable s'.
Proof.
  intros [tr0 Hrun] Hrun'. exists (tr0 ++ tr).
  rewrite run_app, Hrun. exact Hrun'.
Qed.

End Invariant.

(* ===================================================================== *)
(** ** Sending a message                                                  *)
(* ===================================================================== *)

Section Send.

Lemma snoc_neq (l : list Request) (r : Request) : l ++ [r] <> l.
Proof.
  intros H. apply (f_equal (@length Request)) in H.
  rewrite length_app in H. simpl in H. lia.
Qed.

(** The three outcomes of [handleSendMessage]. *)
Lemma handleSendMessage_cases (s : State) :
  (handleSendMessage s = s /\
   (trim (messageInput s) = [] \/ isPending MSend s = true))
  \/
  (trim (messageInput s) <> [] /\ isPending MSend s = false /\
   holds_conversation s = false /\
   handleSendMessage s =
     setPending MSend false
       (toast (error_toast (lit "No conversation"))
          (setIsTyping false (setIsTyping true (setPending MSend true s)))))
  \/
  (trim (messageInput s) <> [] /\ isPending MSend s = false /\
   holds_conversation s = true /\
   exists id, conversationId s = Some id /\
     handleSendMessage s =
       issue (PostMessage id (trim (messageInput s)))
         (setIsTyping true (setPending MSend true s))).
Proof.
  unfold handleSendMessage, holds_conversation.
  destruct (trim (messageInput s)) as [|c t] eqn:Ht; simpl.
  - left. split; [reflexivity | left; reflexivity].
  - destruct (sendPending s) eqn:Hp.
    + left. split; [reflexivity | right; reflexivity].
    + right. unfold mutate. simpl.
      destruct (conversationId s) as [id|] eqn:Hid; simpl.
      * destruct (id =? 0) eqn:Hz; simpl.
        -- left. repeat split; congruence.
        -- right. repeat split; try congruence. exists id. split; reflexivity.
      * left. repeat split; congruence.
Qed.

End Send.

(* ===================================================================== *)
(** ** At most one fetch of the list is in flight                         *)
(* ===================================================================== *)

Section OneFetch.

Lemma count_le_of_sublist (p : Request -> bool) (l rest : list Request)
    (r : Request) (q : Request -> bool) :
  take_first q l = Some (r, rest) -> (count p rest <= count p l)%nat.
Proof.
  intros Ht. destruct (take_first_count q l rest r Ht) as [_ Hc].
  rewrite (Hc p). lia.
Qed.

Lemma count_zero_in (p : Request -> bool) (l : list Request) (x : Request) :
  count p l = 0%nat -> In x l -> p x = false.
Proof.
  unfold count. induction l as [|a l IH]; simpl; [contradiction|].
  destruct (p a) eqn:Hpa; simpl; [discriminate|].
  intros Hc [<-|Hin]; auto.
Qed.

Lemma count_get_of (id : Z) (l : list Request) :
  (forall i, In (GetMessages i) l -> i = id) ->
  count is_get l = count (is_get_of id) l.
Proof.
  unfold count. induction l as [|a l IH]; intros H; [reflexivity|].
  assert (IH' := IH (fun i Hi => H i (or_intror Hi))).
  destruct a; simpl; try exact IH'.
  rewrite (H conversationId0) by (left; reflexivity).
  rewrite Z.eqb_refl. simpl. rewrite IH'. reflexivity.
Qed.

Lemma count_get_none (l : list Request) :
  (forall i, ~ In (GetMessages i) l) -> count is_get l = 0%nat.
Proof.
  unfold count. induction l as [|a l IH]; intros H; [reflexivity|].
  simpl. destruct a; simpl;
    try (apply IH; intros i Hi; apply (H i); right; exact Hi).
  exfalso. apply (H conversationId0). left. reflexivity.
Qed.

(** Every step keeps the fetches in flight at one at most. *)
Lemma step_one_fetch (e : Event) (s s' : State) :
  Inv s -> (count is_get (inflight s) <= 1)%nat -> step e s = Some s' ->
  (count is_get (inflight s') <= 1)%nat.
Proof.
  intros HI H1 Hstep. destruct e; simpl in Hstep;
    (destruct (mounted s) eqn:Hm; simpl in Hstep; try discriminate).
  - injection Hstep as <-. rewrite (inv_unmounted s HI Hm). simpl.
    unfold count. simpl. lia.
  - destruct (textarea_disabled s); [discriminate|].
    injection Hstep as <-. exact H1.
  - destruct (send_button_disabled s); [discriminate|].
    injection Hstep as <-.
    destruct (handleSendMessage_cases s)
      as [[Heq _] | [(_ & _ & _ & Heq) | (_ & _ & _ & id & _ & Heq)]];
      rewrite Heq; simpl; rewrite ?count_snoc; simpl; lia.
  - destruct (textarea_disabled s); [discriminate|].
    injection Hstep as <-. unfold handleKeyDown.
    destruct (enter && negb shiftKey); [|exact H1].
    destruct (handleSendMessage_cases s)
      as [[Heq _] | [(_ & _ & _ & Heq) | (_ & _ & _ & id & _ & Heq)]];
      rewrite Heq; simpl; rewrite ?count_snoc; simpl; lia.
  - destruct (quick_buttons_disabled s); [discriminate|].
    destruct (quickActions !! i) as [a|]; [|discriminate].
    injection Hstep as <-. simpl. rewrite count_snoc. simpl. lia.
  - (* the conversation arrives: no fetch was in flight *)
    apply settle_inv in Hstep.
    destruct Hstep as (r & rest & Ht & Hp & Hc & ->).
    pose proof (inv_create s HI) as H3. rewrite (Hc is_create), Hp in H3.
    simpl in H3. apply b2n_pos in H3. destruct H3 as [Hcp _].
    pose proof (inv_create_id s HI Hcp) as Hnone.
    assert (Hz : count is_get rest = 0%nat).
    { apply count_get_none. intros i Hi.
      pose proof (inv_get_target s HI i (take_first_rest _ _ _ _ Ht _ Hi)).
      congruence. }
    unfold observe_query, query_enabled. simpl.
    destruct (conv_id c =? 0); simpl; rewrite ?count_snoc, Hz; simpl; lia.
  - apply settle_inv in Hstep.
    destruct Hstep as (r & rest & Ht & Hp & Hc & ->). simpl.
    pose proof (count_le_of_sublist is_get _ _ _ _ Ht). lia.
  - (* the send succeeds *)
    apply settle_inv in Hstep.
    destruct Hstep as (r & rest & Ht & Hp & Hc & ->).
    pose proof (count_le_of_sublist is_get _ _ _ _ Ht) as Hle.
    unfold resolve. cbn [onSuccess sendMessageMutation mid].
    destruct (invalidateQueries_cases (setInflight rest s))
      as [Heq | (cid & l & Hcid & _ & Heq & Hl & Hg & _)];
      rewrite Heq; simpl in *; [lia|].
    rewrite count_snoc. simpl.
    rewrite (count_get_of cid l), Hg; [lia|].
    intros i Hi.
    pose proof (inv_get_target s HI i
                  (take_first_rest _ _ _ _ Ht _ (Hl _ Hi))).
    congruence.
  - apply settle_inv in Hstep.
    destruct Hstep as (r & rest & Ht & Hp & Hc & ->). simpl.
    pose proof (count_le_of_sublist is_get _ _ _ _ Ht). lia.
  - apply settle_inv in Hstep.
    destruct Hstep as (r & rest & Ht & Hp & Hc & ->).
    pose proof (count_le_of_sublist is_get _ _ _ _ Ht) as Hle.
    unfold resolve. simpl.
    destruct (conversationId s) as [cid|]; simpl; [|lia].
    destruct (cid =? 0); simpl; lia.
  - apply settle_inv in Hstep.
    destruct Hstep as (r & rest & Ht & Hp & Hc & ->). simpl.
    pose proof (count_le_of_sublist is_get _ _ _ _ Ht). lia.
  - apply settle_inv in Hstep.
    destruct Hstep as (r & rest & Ht & Hp & Hc & ->).
    pose proof (count_le_of_sublist is_get _ _ _ _ Ht) as Hle.
    destruct r; try discriminate. simpl. lia.
Qed.

Lemma run_one_fetch (tr : list Event) (s s' : State) :
  Inv s -> (count is_get (inflight s) <= 1)%nat -> run tr s = Some s' ->
  (count is_get (inflight s') <= 1)%nat.
Proof.
  revert s. induction tr as [|e tr IH]; intros s HI H1; simpl.
  - intros [= <-]. exact H1.
  - destruct (step e s) as [s1|] eqn:Hs; [|discriminate].
    apply IH; [eapply step_Inv; eassumption|].
    eapply step_one_fetch; eassumption.
Qed.

Lemma reachable_one_fetch (s : State) :
  reachable s -> (count is_get (inflight s) <= 1)%nat.
Proof.
  intros [tr Hrun]. eapply run_one_fetch; [apply Inv_init | | exact Hrun].
  unfold count. simpl. lia.
Qed.

(** While a fetch of [id] is running, it is the one fetch in flight. *)
Lemma fetching_count (s : State) (id : Z) :
  reachable s -> fetching id s = true ->
  count is_get (inflight s) = 1%nat.
Proof.
  intros Hr Hf. pose proof (reachable_one_fetch s Hr) as Hle.
  destruct (count is_get (inflight s)) as [|n] eqn:Hc; [|lia].
  exfalso. unfold fetching in Hf. apply existsb_exists in Hf.
  destruct Hf as (x & Hx & Hg).
  assert (Hgx : is_get x = true) by (destruct x; try discriminate; reflexivity).
  pose proof (count_zero_in is_get _ _ Hc Hx). congruence.
Qed.

End OneFetch.

(** C3. When the trimmed draft is empty, or a send is already pending,
    [handleSendMessage] leaves the whole client state as it is (so no request
    goes out). In every case it issues either no request or exactly one
    [PostMessage], addressed to the stored conversation id, whose content is
    the trimmed draft; that content is non-empty and neither starts nor ends
    with a white-space code unit. *)
Theorem C3_handleSendMessage_guard_and_content (s : State) :
  (trim (messageInput s) = [] \/ isPending MSend s = true ->
   handleSendMessage s = s) /\
  (sent (handleSendMessage s) = sent s \/
   exists id,
     conversationId s = Some id /\
     sent (handleSendMessage s) =
       sent s ++ [PostMessage id (trim (messageInput s))] /\
     trim (messageInput s) <> [] /\
     (forall c, first_unit (trim (messageInput s)) = Some c ->
                is_white_space c = false) /\
     (forall c, last_unit (trim (messageInput s)) = Some c ->
                is_white_space c = false)).
Proof.
  destruct (handleSendMessage_cases s)
    as [[Heq Hg] | [(Hne & Hp & Hh & Heq) | (Hne & Hp & Hh & id & Hid & Heq)]].
  - split; [intros _; exact Heq | left; rewrite Heq; reflexivity].
  - split.
    + intros [He|Hq]; [contradiction | congruence].
    + left. rewrite Heq. reflexivity.
  - split.
    + intros [He|Hq]; [contradiction | congruence].
    + right. exists id. rewrite Heq. simpl.
      repeat split; eauto using trim_first, trim_last.
Qed.

(** C3, on a page whose draft is blank. *)
Lemma C3_handleSendMessage_guard_witness :
  let s := setMessageInput (lit "   ") init in
  handleSendMessage s = s.
Proof.
  intros s.
  apply (proj1 (C3_handleSendMessage_guard_and_content s)).
  left. vm_compute. reflexivity.
Defined.

Section SendCompletion.

(** Removing an answered request that is no fetch of [id] leaves the fetch
    status of [id] as it is. *)
Lemma fetching_rest (p : Request -> bool) (l rest : list Request)
    (r : Request) (id : Z) :
  take_first p l = Some (r, rest) -> is_get_of id r = false ->
  existsb (is_get_of id) rest = existsb (is_get_of id) l.
Proof.
  intros Ht Hr. destruct (take_first_count p l rest r Ht) as [_ Hc].
  specialize (Hc (is_get_of id)). rewrite Hr in Hc. simpl in Hc.
  destruct (existsb (is_get_of id) l) eqn:Hl.
  - destruct (existsb (is_get_of id) rest) eqn:Hrest; [reflexivity|].
    apply existsb_count in Hrest. rewrite Hrest in Hc.
    apply existsb_count in Hc. congruence.
  - apply existsb_count. apply existsb_count in Hl. lia.
Qed.

Lemma fetching_issue_get (id : Z) (s : State) :
  fetching id (issue (GetMessages id) s) = true.
Proof.
  unfold fetching. simpl. rewrite existsb_app. simpl.
  rewrite Z.eqb_refl. apply orb_true_r.
Qed.

(** A send that succeeds: the query of the held conversation is
    invalidated, the cache is left alone, the draft is cleared and Typing
    is left. The list is asked for again, unless its first fetch is still
    running with nothing cached; either way a fetch of the list is in
    flight afterwards. *)
Lemma send_resolved (s s' : State) (reply : Message) :
  reachable s -> step (SendResolved reply) s = Some s' ->
  exists id,
    conversationId s = Some id /\ holds_conversation s = true /\
    (fetching id s = true -> queryData s !! Some id = None ->
     sent s' = sent s) /\
    (fetching id s = false \/ queryData s !! Some id <> None ->
     sent s' = sent s ++ [GetMessages id]) /\
    fetching id s' = true /\
    queryData s' = queryData s /\
    messageInput s' = [] /\
    isTyping s' = false /\
    isPending MSend s' = false.
Proof.
  intros Hr Hstep. pose proof (reachable_Inv s Hr) as HI.
  simpl in Hstep. destruct (mounted s); simpl in Hstep; [|discriminate].
  apply settle_inv in Hstep.
  destruct Hstep as (r & rest & Ht & Hp & Hc & ->).
  destruct r; try discriminate.
  pose proof (inv_post s HI) as H4. rewrite (Hc is_post) in H4.
  simpl in H4. apply b2n_pos in H4. destruct H4 as [Hsp _].
  pose proof (inv_send_id s HI Hsp) as Hh.
  unfold holds_conversation in Hh.
  destruct (conversationId s) as [id|] eqn:Hid; [|discriminate].
  exists id. unfold resolve, holds_conversation. simpl.
  unfold invalidateQueries, query_enabled. simpl. rewrite Hid, Hh. simpl.
  assert (Hf : fetching id (setInflight rest s) = fetching id s).
  { unfold fetching. simpl. eapply fetching_rest; [exact Ht | reflexivity]. }
  unfold refetch. rewrite Hf. simpl.
  destruct (fetching id s) eqn:Hfs.
  - destruct (queryData s !! Some id) as [l|] eqn:Hq; simpl.
    + repeat split; try reflexivity; try discriminate.
      apply fetching_issue_get.
    + repeat split; try reflexivity.
      * intros [H|H]; [discriminate | contradiction].
      * exact Hf.
  - simpl. repeat split; try reflexivity; try discriminate.
    apply fetching_issue_get.
Qed.

(** A send that fails: Typing is left, one notice with the error is shown,
    and nothing else changes; the draft in particular. *)
Lemma send_rejected (s s' : State) (e : js_error) :
  step (SendRejected e) s = Some s' ->
  isTyping s' = false /\
  toasts s' =
    toasts s ++
      [error_toast (error_description e (lit "Failed to send message"))] /\
  messageInput s' = messageInput s /\
  sent s' = sent s /\
  queryData s' = queryData s /\
  conversationId s' = conversationId s /\
  isPending MSend s' = false.
Proof.
  intros Hstep.
  simpl in Hstep. destruct (mounted s); simpl in Hstep; [|discriminate].
  apply settle_inv in Hstep.
  destruct Hstep as (r & rest & _ & Hp & Hc & ->).
  simpl. repeat split; reflexivity.
Qed.

(** The server's list replaces the displayed one when the fetch in flight
    returns; no fetch is in flight afterwards. *)
Lemma messages_fetched (s s' : State) (msgs : list Message) :
  reachable s -> step (MessagesFetched msgs) s = Some s' ->
  messages s' = msgs /\ count is_get (inflight s') = 0%nat.
Proof.
  intros Hr Hstep. pose proof (reachable_Inv s Hr) as HI.
  pose proof (reachable_one_fetch s Hr) as Hone.
  simpl in Hstep. destruct (mounted s); simpl in Hstep; [|discriminate].
  apply settle_inv in Hstep.
  destruct Hstep as (r & rest & Ht & Hp & Hc & ->).
  destruct r; try discriminate.
  pose proof (inv_get_target s HI _ (take_first_in _ _ _ _ Ht)) as Hid.
  split.
  - unfold messages. simpl. rewrite Hid. rewrite lookup_insert_eq.
    reflexivity.
  - simpl. rewrite (Hc is_get) in Hone. simpl in Hone. lia.
Qed.

(** While a send is pending nothing but its success touches the draft: the
    textarea is disabled and no other callback writes it. *)
Lemma pending_send_keeps_draft (e : Event) (s s' : State) :
  isPending MSend s = true -> step e s = Some s' ->
  is_send_resolved e = false ->
  messageInput s' = messageInput s.
Proof.
  intros Hp Hstep He. simpl in Hp.
  destruct e; try discriminate; simpl in Hstep;
    (destruct (mounted s) eqn:Hm; simpl in Hstep; try discriminate);
    unfold textarea_disabled, send_button_disabled in Hstep;
    simpl in Hstep; rewrite ?Hp, ?orb_true_r in Hstep; try discriminate.
  - injection Hstep as <-. unfold mountEffect, mutate. simpl.
    destruct (negb (truthy_id (conversationId s))); reflexivity.
  - destruct (quick_buttons_disabled s); [discriminate|].
    destruct (quickActions !! i) as [a|]; [|discriminate].
    injection Hstep as <-. reflexivity.
  - apply settle_inv in Hstep.
    destruct Hstep as (r & rest & _ & _ & _ & ->).
    unfold observe_query, query_enabled. simpl.
    destruct (conv_id c =? 0); reflexivity.
  - apply settle_inv in Hstep.
    destruct Hstep as (r & rest & _ & _ & _ & ->). reflexivity.
  - apply settle_inv in Hstep.
    destruct Hstep as (r & rest & _ & _ & _ & ->). reflexivity.
  - apply settle_inv in Hstep.
    destruct Hstep as (r & rest & _ & _ & _ & ->).
    unfold resolve. simpl.
    destruct (conversationId s) as [id|]; simpl; [|reflexivity].
    destruct (id =? 0); reflexivity.
  - apply settle_inv in Hstep.
    destruct Hstep as (r & rest & _ & _ & _ & ->). reflexivity.
  - apply settle_inv in Hstep.
    destruct Hstep as (r & rest & _ & Hq & _ & ->).
    destruct r; try discriminate. reflexivity.
Qed.

End SendCompletion.

(** C1, as stated, fails: on a page that is still waiting for its
    conversation, a non-empty draft is submitted with no send in flight, and
    no [PostMessage] goes out. *)
Lemma C1_submit_without_conversation_counterexample :
  ~ (forall s : State,
       reachable s ->
       trim (messageInput s) <> [] ->
       isPending MSend s = false ->
       isTyping (handleSendMessage s) = true /\
       exists id,
         sent (handleSendMessage s) =
           sent s ++ [PostMessage id (trim (messageInput s))]).
Proof.
  intros H.
  assert (Hr : reachable (after waiting))
    by (exists waiting; vm_compute; reflexivity).
  destruct (H (after waiting) Hr) as [_ [id Hs]].
  - vm_compute. discriminate.
  - vm_compute. reflexivity.
  - apply (f_equal (@length Request)) in Hs.
    vm_compute in Hs. discriminate.
Qed.

(** C1, amended. A submit of a non-empty draft with no send in flight, on a
    page that holds a conversation id, enters Typing and posts the trimmed
    draft to that conversation, keeping the draft. Without a conversation id
    the same submit sends nothing and fails at once: Typing is left, the
    notice "No conversation" is shown and the draft is kept. When a send
    succeeds the page invalidates the message query (no cached list is
    edited) and clears the draft and Typing: the list is asked for again,
    except while its first fetch is still unanswered with nothing cached,
    when that fetch is left to answer and no request is made; either way
    exactly one fetch of the list of the held conversation is in flight
    afterwards. The list that the fetch in flight brings back is the one
    displayed, and no fetch is in flight then. When a send fails the page
    leaves Typing, shows the error and keeps the draft; and since no event
    but the success of the send changes the draft while the send is
    pending, the draft kept is the one that was submitted. *)
Theorem C1_send_flow :
  (forall s : State,
     trim (messageInput s) <> [] -> isPending MSend s = false ->
     (holds_conversation s = true ->
      exists id,
        conversationId s = Some id /\
        isTyping (handleSendMessage s) = true /\
        isPending MSend (handleSendMessage s) = true /\
        sent (handleSendMessage s) =
          sent s ++ [PostMessage id (trim (messageInput s))] /\
        messageInput (handleSendMessage s) = messageInput s) /\
     (holds_conversation s = false ->
      sent (handleSendMessage s) = sent s /\
      isTyping (handleSendMessage s) = false /\
      isPending MSend (handleSendMessage s) = false /\
      toasts (handleSendMessage s) =
        toasts s ++ [error_toast (lit "No conversation")] /\
      messageInput (handleSendMessage s) = messageInput s)) /\
  (forall (s s' : State) (reply : Message),
     reachable s -> step (SendResolved reply) s = Some s' ->
     exists id,
       conversationId s = Some id /\
       (fetching id s = true -> queryData s !! Some id = None ->
        sent s' = sent s) /\
       (fetching id s = false \/ queryData s !! Some id <> None ->
        sent s' = sent s ++ [GetMessages id]) /\
       fetching id s' = true /\
       count is_get (inflight s') = 1%nat /\
       queryData s' = queryData s /\
       messageInput s' = [] /\
       isTyping s' = false) /\
  (forall (s s' : State) (msgs : list Message),
     reachable s -> step (MessagesFetched msgs) s = Some s' ->
     messages s' = msgs /\ count is_get (inflight s') = 0%nat) /\
  (forall (s s' : State) (e : js_error),
     step (SendRejected e) s = Some s' ->
     isTyping s' = false /\
     toasts s' =
       toasts s ++
         [error_toast (error_description e (lit "Failed to send message"))] /\
     messageInput s' = messageInput s /\
     sent s' = sent s) /\
  (forall (e : Event) (s s' : State),
     isPending MSend s = true -> step e s = Some s' ->
     is_send_resolved e = false ->
     messageInput s' = messageInput s).
Proof.
  split; [|split; [|split; [|split; [|exact pending_send_keeps_draft]]]].
  - intros s Hne Hp.
    destruct (handleSendMessage_cases s)
      as [[_ [He|Hq]] | [(_ & _ & Hh & Heq) | (_ & _ & Hh & id & Hid & Heq)]];
      try contradiction; try congruence.
    + split; [congruence|]. intros _. rewrite Heq. simpl.
      repeat split; reflexivity.
    + split; [|congruence]. intros _. exists id. rewrite Heq. simpl.
      repeat split; auto.
  - intros s s' reply Hr Hstep.
    destruct (send_resolved s s' reply Hr Hstep)
      as (id & Hid & _ & Hs1 & Hs2 & Hf & Hq & Hm & Ht & _).
    exists id.
    pose proof (fetching_count s' id (reachable_step _ _ _ Hr Hstep) Hf).
    repeat split; auto.
  - exact messages_fetched.
  - intros s s' e Hstep.
    destruct (send_rejected s s' e Hstep) as (Ht & Hto & Hm & Hs & _).
    auto.
Qed.

(* ===================================================================== *)
(** ** Quick actions                                                      *)
(* ===================================================================== *)

Section QuickAction.

Lemma quick_onSuccess_held (s : State) (d : QuickData) (id : Z) :
  conversationId s = Some id -> holds_conversation s = true ->
  onSuccess quickActionMutation d s =
    setIsTyping false
      (setQueryData (Some id)
         (fun old => match old with
                     | Some l => l ++ [fakeAssistantMessage id d]
                     | None => [] ++ [fakeAssistantMessage id d]
                     end) s).
Proof.
  unfold holds_conversation. intros Hid Hh. simpl. rewrite Hid in *.
  simpl in Hh. rewrite Hh. reflexivity.
Qed.

Lemma quick_onSuccess_not_held (s : State) (d : QuickData) :
  holds_conversation s = false ->
  onSuccess quickActionMutation d s = setIsTyping false s.
Proof.
  unfold holds_conversation. intros Hh. simpl.
  destruct (conversationId s) as [id|]; [|reflexivity].
  simpl in Hh. rewrite Hh. reflexivity.
Qed.

Lemma quick_resolved_state (s s' : State) (d : QuickData) :
  step (QuickResolved d) s = Some s' ->
  exists rest,
    s' = setPending MQuick false
           (onSuccess quickActionMutation d (setInflight rest s)).
Proof.
  intros Hstep.
  simpl in Hstep. destruct (mounted s); simpl in Hstep; [|discriminate].
  apply settle_inv in Hstep.
  destruct Hstep as (r & rest & _ & _ & _ & ->).
  exists rest. reflexivity.
Qed.

End QuickAction.

(** C2. When a quick action succeeds on a page that holds a conversation id,
    the displayed list becomes the old list followed by one message whose role
    is "assistant" and whose content is the returned content; every message
    displayed before is still displayed at its position, and no request goes
    out (the list is not fetched again). *)
Theorem C2_quick_action_appends (s s' : State) (d : QuickData) :
  holds_conversation s = true ->
  step (QuickResolved d) s = Some s' ->
  exists m,
    messages s' = messages s ++ [m] /\
    msg_role m = lit "assistant" /\
    msg_content m = content d /\
    (forall i x, messages s !! i = Some x -> messages s' !! i = Some x) /\
    sent s' = sent s /\
    count is_get (inflight s') = count is_get (inflight s).
Proof.
  intros Hh Hstep.
  simpl in Hstep. destruct (mounted s); simpl in Hstep; [|discriminate].
  apply settle_inv in Hstep.
  destruct Hstep as (r & rest & _ & Hp & Hc & ->).
  destruct r; try discriminate.
  pose proof Hh as Hh'. unfold holds_conversation in Hh'.
  destruct (conversationId s) as [id|] eqn:Hid; [|discriminate].
  exists (fakeAssistantMessage id d).
  unfold resolve.
  rewrite (quick_onSuccess_held (setInflight rest s) d id Hid)
    by (unfold holds_conversation; simpl; rewrite Hid; exact Hh').
  unfold messages. simpl. rewrite Hid, lookup_insert_eq.
  split; [destruct (queryData s !! Some id); reflexivity|].
  repeat split; try reflexivity.
  - intros i x Hx. destruct (queryData s !! Some id).
    + apply lookup_app_l_Some. exact Hx.
    + rewrite lookup_nil in Hx. discriminate.
  - rewrite (Hc is_get). reflexivity.
Qed.

(** C9. When a quick action succeeds on a page that holds no conversation
    id, [onSuccess] does nothing but clear Typing: the cached lists, the
    displayed list, the notices, the draft, the conversation id and the
    requests sent are what they were. *)
Theorem C9_quick_action_discarded (s : State) (d : QuickData) :
  holds_conversation s = false ->
  onSuccess quickActionMutation d s = setIsTyping false s /\
  forall s', step (QuickResolved d) s = Some s' ->
    queryData s' = queryData s /\
    messages s' = messages s /\
    toasts s' = toasts s /\
    sent s' = sent s /\
    conversationId s' = conversationId s /\
    messageInput s' = messageInput s /\
    isTyping s' = false.
Proof.
  intros Hh. split; [apply quick_onSuccess_not_held; exact Hh|].
  intros s' Hstep.
  destruct (quick_resolved_state s s' d Hstep) as [rest ->].
  rewrite quick_onSuccess_not_held by exact Hh.
  unfold messages. simpl. repeat split; reflexivity.
Qed.

(* ===================================================================== *)
(** ** The Typing flag and the requests in flight                         *)
(* ===================================================================== *)

Section Typing.

Lemma reachable_pending_mounted (s : State) (m : MutationId) :
  reachable s -> isPending m s = true -> mounted s = true.
Proof.
  intros Hr Hp. pose proof (reachable_Inv s Hr) as HI.
  destruct (mounted s) eqn:Hm; [reflexivity|].
  rewrite (inv_unmounted s HI Hm) in Hp. destruct m; discriminate.
Qed.

Lemma settle_enabled (p : Request -> bool) (k : Request -> State -> State)
    (s : State) :
  count p (inflight s) <> 0%nat ->
  exists r rest,
    take_first p (inflight s) = Some (r, rest) /\
    settle p k s = Some (k r (setInflight rest s)).
Proof.
  intros Hc. unfold settle.
  destruct (take_first p (inflight s)) as [[r rest]|] eqn:Ht.
  - exists r, rest. split; reflexivity.
  - apply take_first_none in Ht. contradiction.
Qed.

(** The failure of a pending send can always be delivered. *)
Lemma send_rejected_enabled (s : State) (err : js_error) :
  reachable s -> isPending MSend s = true ->
  exists s', step (SendRejected err) s = Some s'.
Proof.
  intros Hr Hp. pose proof (reachable_Inv s Hr) as HI.
  simpl. rewrite (reachable_pending_mounted s MSend Hr Hp). simpl.
  destruct (settle_enabled is_post
              (fun _ => reject sendMessageMutation err) s)
    as (r & rest & _ & Hs).
  - rewrite (inv_post s HI). simpl in Hp. rewrite Hp. discriminate.
  - eauto.
Qed.

Lemma quick_rejected_enabled (s : State) (err : js_error) :
  reachable s -> isPending MQuick s = true ->
  exists s', step (QuickRejected err) s = Some s'.
Proof.
  intros Hr Hp. pose proof (reachable_Inv s Hr) as HI.
  simpl. rewrite (reachable_pending_mounted s MQuick Hr Hp). simpl.
  destruct (settle_enabled is_quick
              (fun _ => reject quickActionMutation err) s)
    as (r & rest & _ & Hs).
  - rewrite (inv_quick s HI). simpl in Hp. rewrite Hp. discriminate.
  - eauto.
Qed.

Lemma quick_rejected (s s' : State) (e : js_error) :
  step (QuickRejected e) s = Some s' ->
  isTyping s' = false /\
  toasts s' =
    toasts s ++
      [error_toast
         (error_description e (lit "Failed to get quick action response"))].
Proof.
  intros Hstep.
  simpl in Hstep. destruct (mounted s); simpl in Hstep; [|discriminate].
  apply settle_inv in Hstep.
  destruct Hstep as (r & rest & _ & _ & _ & ->).
  simpl. split; reflexivity.
Qed.

Lemma completion_clears_typing (e : Event) (s s' : State) :
  is_completion e = true -> step e s = Some s' -> isTyping s' = false.
Proof.
  intros He Hstep. destruct e; try discriminate; simpl in Hstep;
    (destruct (mounted s); simpl in Hstep; [|discriminate]);
    apply settle_inv in Hstep;
    destruct Hstep as (r & rest & _ & _ & _ & ->); reflexivity.
Qed.

End Typing.

(** C4. Typing is set whenever [handleSendMessage] sends a message and
    whenever [handleQuickAction] is called (which always sends its request);
    it is cleared by the completion of either request, success or failure.
    The failure of a pending send or quick action can always be handled: the
    page moves to a state that is out of Typing and shows one more notice,
    carrying the error. *)
Theorem C4_typing_flag :
  (forall (s : State) (id : Z) (c : jsstring),
     sent (handleSendMessage s) = sent s ++ [PostMessage id c] ->
     isTyping (handleSendMessage s) = true) /\
  (forall (a : jsstring) (s : State),
     sent (handleQuickAction a s) = sent s ++ [QuickActionCall a] /\
     isTyping (handleQuickAction a s) = true) /\
  (forall (e : Event) (s s' : State),
     is_completion e = true -> step e s = Some s' -> isTyping s' = false) /\
  (forall (s : State) (err : js_error),
     reachable s -> isPending MSend s = true ->
     exists s',
       step (SendRejected err) s = Some s' /\
       isTyping s' = false /\
       toasts s' =
         toasts s ++
           [error_toast (error_description err (lit "Failed to send message"))])
  /\
  (forall (s : State) (err : js_error),
     reachable s -> isPending MQuick s = true ->
     exists s',
       step (QuickRejected err) s = Some s' /\
       isTyping s' = false /\
       toasts s' =
         toasts s ++
           [error_toast
              (error_description err
                 (lit "Failed to get quick action response"))]).
Proof.
  repeat apply conj.
  - intros s id c Hs.
    destruct (handleSendMessage_cases s)
      as [[Heq _] | [(_ & _ & _ & Heq) | (_ & _ & _ & id' & _ & Heq)]];
      rewrite Heq in *; simpl in *.
    + symmetry in Hs. apply snoc_neq in Hs. contradiction.
    + symmetry in Hs. apply snoc_neq in Hs. contradiction.
    + reflexivity.
  - intros a s. split; reflexivity.
  - exact completion_clears_typing.
  - intros s err Hr Hp.
    destruct (send_rejected_enabled s err Hr Hp) as [s' Hs].
    exists s'. destruct (send_rejected s s' err Hs) as (Ht & Hto & _). auto.
  - intros s err Hr Hp.
    destruct (quick_rejected_enabled s err Hr Hp) as [s' Hs].
    exists s'. destruct (quick_rejected s s' err Hs) as (Ht & Hto). auto.
Qed.

Section InFlight.

Lemma send_resolved_enabled (s : State) (r : Message) :
  reachable s -> isPending MSend s = true ->
  exists s', step (SendResolved r) s = Some s' /\
             isPending MQuick s' = isPending MQuick s.
Proof.
  intros Hr Hp. pose proof (reachable_Inv s Hr) as HI.
  simpl. rewrite (reachable_pending_mounted s MSend Hr Hp). simpl.
  destruct (settle_enabled is_post
              (fun _ => resolve sendMessageMutation r) s)
    as (q & rest & _ & Hs).
  - rewrite (inv_post s HI). simpl in Hp. rewrite Hp. discriminate.
  - rewrite Hs. eexists. split; [reflexivity|].
    unfold resolve. cbn [onSuccess sendMessageMutation mid].
    destruct (invalidateQueries_cases (setInflight rest s))
      as [Heq | (cid & l & _ & _ & Heq & _)]; rewrite Heq; reflexivity.
Qed.

Lemma quick_resolved_enabled (s : State) (d : QuickData) :
  reachable s -> isPending MQuick s = true ->
  exists s', step (QuickResolved d) s = Some s' /\
             isPending MSend s' = isPending MSend s.
Proof.
  intros Hr Hp. pose proof (reachable_Inv s Hr) as HI.
  simpl. rewrite (reachable_pending_mounted s MQuick Hr Hp). simpl.
  destruct (settle_enabled is_quick
              (fun _ => resolve quickActionMutation d) s)
    as (q & rest & _ & Hs).
  - rewrite (inv_quick s HI). simpl in Hp. rewrite Hp. discriminate.
  - rewrite Hs. eexists. split; [reflexivity|].
    unfold resolve. simpl.
    destruct (conversationId s) as [id|]; simpl; [|reflexivity].
    destruct (id =? 0); reflexivity.
Qed.

Lemma run_two (e1 e2 : Event) (s s1 s2 : State) :
  step e1 s = Some s1 -> step e2 s1 = Some s2 -> run [e1; e2] s = Some s2.
Proof.
  intros H1 H2. cbn [run]. rewrite H1. cbv iota beta. rewrite H2.
  reflexivity.
Qed.

Lemma b2n_le_1 (b : bool) : (b2n b <= 1)%nat.
Proof. destruct b; simpl; lia. Qed.

End InFlight.

(** C5. In every reachable state at most one [PostMessage] and at most one
    quick-action request are in flight. While a send is pending,
    [handleSendMessage] does nothing; while a quick action is pending, the
    quick-action buttons are disabled and a click on one is no event. A send
    and a quick action can be in flight together, and whenever they are,
    their responses can arrive in either order. *)
Theorem C5_in_flight :
  (forall s : State,
     reachable s ->
     (count is_post (inflight s) <= 1)%nat /\
     (count is_quick (inflight s) <= 1)%nat) /\
  (forall s : State,
     isPending MSend s = true ->
     handleSendMessage s = s /\ step ClickSend s = None) /\
  (forall (s : State) (i : nat),
     isPending MQuick s = true ->
     quick_buttons_disabled s = true /\ step (ClickQuickAction i) s = None) /\
  (exists s : State,
     reachable s /\
     count is_post (inflight s) = 1%nat /\
     count is_quick (inflight s) = 1%nat) /\
  (forall (s : State) (r : Message) (d : QuickData),
     reachable s -> isPending MSend s = true -> isPending MQuick s = true ->
     is_Some (run [SendResolved r; QuickResolved d] s) /\
     is_Some (run [QuickResolved d; SendResolved r] s)).
Proof.
  repeat apply conj.
  - intros s Hr. pose proof (reachable_Inv s Hr) as HI.
    rewrite (inv_post s HI), (inv_quick s HI). split; apply b2n_le_1.
  - intros s Hp. simpl in Hp. split.
    + unfold handleSendMessage. simpl. rewrite Hp, orb_true_r. reflexivity.
    + simpl. unfold send_button_disabled. simpl. rewrite Hp, orb_true_r.
      destruct (mounted s); reflexivity.
  - intros s i Hp. simpl in Hp. unfold quick_buttons_disabled. simpl.
    rewrite Hp. split; [reflexivity|].
    destruct (mounted s); simpl; [|reflexivity].
    unfold quick_buttons_disabled. simpl. rewrite Hp. reflexivity.
  - exists (after both_in_flight). split; [|split; vm_compute; reflexivity].
    exists both_in_flight. vm_compute. reflexivity.
  - intros s r d Hr Hps Hpq. split.
    + destruct (send_resolved_enabled s r Hr Hps) as (s1 & Hs1 & Hq1).
      destruct (quick_resolved_enabled s1 d) as (s2 & Hs2 & _).
      * eapply reachable_step; eassumption.
      * congruence.
      * exists s2. apply (run_two _ _ _ _ _ Hs1 Hs2).
    + destruct (quick_resolved_enabled s d Hr Hpq) as (s1 & Hs1 & Hq1).
      destruct (send_resolved_enabled s1 r) as (s2 & Hs2 & _).
      * eapply reachable_step; eassumption.
      * congruence.
      * exists s2. apply (run_two _ _ _ _ _ Hs1 Hs2).
Qed.

(* ===================================================================== *)
(** ** The conversation id                                                *)
(* ===================================================================== *)

Section ConversationId.

Lemma handleSendMessage_conversationId (s : State) :
  conversationId (handleSendMessage s) = conversationId s.
Proof.
  destruct (handleSendMessage_cases s)
    as [[Heq _] | [(_ & _ & _ & Heq) | (_ & _ & _ & id & _ & Heq)]];
    rewrite Heq; reflexivity.
Qed.

(** A conversation arrives: only while its creation is pending, which is
    only while no id is stored. *)
Lemma create_resolved (s s' : State) (c : Conversation) :
  Inv s -> step (CreateResolved c) s = Some s' ->
  conversationId s = None /\
  conversationId s' = Some (conv_id c) /\
  isPending MCreate s' = false /\
  holds_conversation s' = negb (conv_id c =? 0).
Proof.
  intros HI Hstep.
  simpl in Hstep. destruct (mounted s); simpl in Hstep; [|discriminate].
  apply settle_inv in Hstep.
  destruct Hstep as (r & rest & _ & Hp & Hc & ->).
  destruct r; try discriminate.
  pose proof (inv_create s HI) as H3. rewrite (Hc is_create) in H3.
  simpl in H3. apply b2n_pos in H3. destruct H3 as [Hcp _].
  split; [exact (inv_create_id s HI Hcp)|].
  unfold observe_query, query_enabled, holds_conversation. simpl.
  destruct (conv_id c =? 0) eqn:Hz; simpl; rewrite ?Hz;
    repeat split; reflexivity.
Qed.

Lemma create_rejected (s s' : State) (e : js_error) :
  Inv s -> step (CreateRejected e) s = Some s' ->
  conversationId s' = None /\
  toasts s' =
    toasts s ++
      [error_toast
         (lit "Failed to start conversation. Please refresh the page.")] /\
  sent s' = sent s /\
  isPending MCreate s' = false /\
  count is_create (inflight s') = 0%nat.
Proof.
  intros HI Hstep.
  simpl in Hstep. destruct (mounted s); simpl in Hstep; [|discriminate].
  apply settle_inv in Hstep.
  destruct Hstep as (r & rest & _ & Hp & Hc & ->).
  destruct r; try discriminate.
  pose proof (inv_create s HI) as H3. rewrite (Hc is_create) in H3.
  simpl in H3. apply b2n_pos in H3. destruct H3 as [Hcp H0].
  simpl. rewrite (inv_create_id s HI Hcp). repeat split; auto.
Qed.

(** Every event but the arrival of the conversation keeps the id. *)
Lemma step_conversationId (e : Event) (s s' : State) :
  step e s = Some s' -> is_create_resolved e = false ->
  conversationId s' = conversationId s.
Proof.
  intros Hstep He. destruct e; try discriminate; simpl in Hstep;
    (destruct (mounted s) eqn:Hm; simpl in Hstep; try discriminate).
  - injection Hstep as <-. unfold mountEffect. simpl.
    destruct (negb (truthy_id (conversationId s))); reflexivity.
  - destruct (textarea_disabled s); [discriminate|].
    injection Hstep as <-. reflexivity.
  - destruct (send_button_disabled s); [discriminate|].
    injection Hstep as <-. apply handleSendMessage_conversationId.
  - destruct (textarea_disabled s); [discriminate|].
    injection Hstep as <-. unfold handleKeyDown.
    destruct (enter && negb shiftKey); [|reflexivity].
    apply handleSendMessage_conversationId.
  - destruct (quick_buttons_disabled s); [discriminate|].
    destruct (quickActions !! i) as [a|]; [|discriminate].
    injection Hstep as <-. reflexivity.
  - apply settle_inv in Hstep.
    destruct Hstep as (r & rest & _ & _ & _ & ->). reflexivity.
  - apply settle_inv in Hstep.
    destruct Hstep as (r & rest & _ & _ & _ & ->).
    unfold resolve. cbn [onSuccess sendMessageMutation mid].
    destruct (invalidateQueries_cases (setInflight rest s))
      as [Heq | (cid & l & _ & _ & Heq & _)]; rewrite Heq; reflexivity.
  - apply settle_inv in Hstep.
    destruct Hstep as (r & rest & _ & _ & _ & ->). reflexivity.
  - apply settle_inv in Hstep.
    destruct Hstep as (r & rest & _ & _ & _ & ->).
    unfold resolve. simpl.
    destruct (conversationId s) as [id|] eqn:Hid; simpl; [|exact Hid].
    destruct (id =? 0); simpl; exact Hid.
  - apply settle_inv in Hstep.
    destruct Hstep as (r & rest & _ & _ & _ & ->). reflexivity.
  - apply settle_inv in Hstep.
    destruct Hstep as (r & rest & _ & Hp & _ & ->).
    destruct r; try discriminate. reflexivity.
Qed.

(** Once stored, the id stays. *)
Lemma run_conversationId (tr : list Event) (s s' : State) (v : Z) :
  Inv s -> conversationId s = Some v -> run tr s = Some s' ->
  conversationId s' = Some v.
Proof.
  revert s. induction tr as [|e tr IH]; intros s HI Hv; simpl.
  - intros [= <-]. exact Hv.
  - destruct (step e s) as [s1|] eqn:Hs; [|discriminate].
    apply IH; [eapply step_Inv; eassumption|].
    destruct (is_create_resolved e) eqn:He.
    + destruct e; try discriminate.
      destruct (create_resolved s s1 c HI Hs) as [Hn _]. congruence.
    + rewrite (step_conversationId e s s1 Hs He). exact Hv.
Qed.

(** A trace stores an id at most once, and not at all from a state that
    has one. *)
Lemma run_creations (tr : list Event) (s s' : State) :
  Inv s -> run tr s = Some s' ->
  (creations tr <= match conversationId s with Some _ => 0 | None => 1 end)%nat.
Proof.
  revert s. induction tr as [|e tr IH]; intros s HI; simpl.
  - intros _. unfold creations. simpl. destruct (conversationId s); lia.
  - destruct (step e s) as [s1|] eqn:Hs; [|discriminate].
    intros Hrun. pose proof (step_Inv e s s1 HI Hs) as HI1.
    specialize (IH s1 HI1 Hrun). unfold creations in *. simpl.
    destruct (is_create_resolved e) eqn:He.
    + destruct e; try discriminate.
      destruct (create_resolved s s1 c HI Hs) as (Hn & Hv & _).
      rewrite Hn. rewrite Hv in IH. simpl. lia.
    + rewrite (step_conversationId e s s1 Hs He) in IH. exact IH.
Qed.

End ConversationId.

(** C6. The mount effect of a page without a conversation id sends one
    [CreateConversation] for the user "anonymous" with the title
    "MedAssist Chat". Every reachable mounted page has sent exactly one such
    request, whatever happened since: there is no retry. When the conversation
    arrives its id is stored (and held, unless it is 0); when the request
    fails the id stays unset, one notice is shown, nothing is sent and no
    creation remains in flight. *)
Theorem C6_create_conversation_on_mount :
  (exists s1 : State,
     step Mount init = Some s1 /\
     sent s1 = [CreateConversation (lit "anonymous") (lit "MedAssist Chat")] /\
     isPending MCreate s1 = true /\
     conversationId s1 = None) /\
  (forall s : State,
     holds_conversation s = false ->
     sent (mountEffect s) =
       sent s ++ [CreateConversation (lit "anonymous") (lit "MedAssist Chat")])
  /\
  (forall s : State,
     reachable s -> mounted s = true ->
     count is_create (sent s) = 1%nat) /\
  (forall (s s' : State) (c : Conversation),
     reachable s -> step (CreateResolved c) s = Some s' ->
     conversationId s' = Some (conv_id c) /\
     holds_conversation s' = negb (conv_id c =? 0)) /\
  (forall (s s' : State) (e : js_error),
     reachable s -> step (CreateRejected e) s = Some s' ->
     conversationId s' = None /\
     toasts s' =
       toasts s ++
         [error_toast
            (lit "Failed to start conversation. Please refresh the page.")] /\
     sent s' = sent s /\
     count is_create (inflight s') = 0%nat).
Proof.
  repeat apply conj.
  - eexists. split; [reflexivity|]. repeat split; reflexivity.
  - intros s Hh. unfold mountEffect. unfold holds_conversation in Hh.
    rewrite Hh. reflexivity.
  - intros s Hr Hm. exact (inv_create_sent s (reachable_Inv s Hr) Hm).
  - intros s s' c Hr Hstep.
    destruct (create_resolved s s' c (reachable_Inv s Hr) Hstep)
      as (_ & Hv & _ & Hh).
    split; assumption.
  - intros s s' e Hr Hstep.
    destruct (create_rejected s s' e (reachable_Inv s Hr) Hstep)
      as (Hn & Ht & Hs & _ & Hc).
    repeat split; assumption.
Qed.

(** C10. The conversation id starts unset. An event changes it only when it
    is the arrival of the created conversation, and then from unset to the
    id that arrived; a session has at most one such event. Once an id is
    stored, every later state stores the same id, and every message posted
    in the session was addressed to the stored id. *)
Theorem C10_conversation_id_written_once :
  conversationId init = None /\
  (forall (e : Event) (s s' : State),
     reachable s -> step e s = Some s' ->
     conversationId s' = conversationId s \/
     (conversationId s = None /\
      exists c, e = CreateResolved c /\
                conversationId s' = Some (conv_id c))) /\
  (forall (tr : list Event) (s : State),
     run tr init = Some s -> (creations tr <= 1)%nat) /\
  (forall (tr : list Event) (s s' : State) (v : Z),
     reachable s -> conversationId s = Some v -> run tr s = Some s' ->
     conversationId s' = Some v) /\
  (forall (s : State) (id : Z) (c : jsstring),
     reachable s -> In (PostMessage id c) (sent s) ->
     conversationId s = Some id).
Proof.
  repeat apply conj.
  - reflexivity.
  - intros e s s' Hr Hstep.
    destruct (is_create_resolved e) eqn:He.
    + right. destruct e; try discriminate.
      destruct (create_resolved s s' c (reachable_Inv s Hr) Hstep)
        as (Hn & Hv & _).
      split; [exact Hn|]. exists c. split; [reflexivity | exact Hv].
    + left. exact (step_conversationId e s s' Hstep He).
  - intros tr s Hrun.
    exact (run_creations tr init s Inv_init Hrun).
  - intros tr s s' v Hr Hv Hrun.
    exact (run_conversationId tr s s' v (reachable_Inv s Hr) Hv Hrun).
  - intros s id c Hr Hin.
    exact (inv_post_target s (reachable_Inv s Hr) id c Hin).
Qed.

(* ===================================================================== *)
(** ** The insert schemas                                                 *)
(* ===================================================================== *)

Section InsertSchemas.

(** What a successful parse returns: the input, restricted to the keys of
    the shape. *)
Lemma parse_lookup (sc : schema) (input out : gmap string value) :
  parse sc input = Some out ->
  forall k, out !! k = if has_key sc k then input !! k else None.
Proof.
  revert out. induction sc as [|f rest IH]; intros out; simpl.
  - intros [= <-] k. apply lookup_empty.
  - destruct (check_field f (input !! fkey f)); [|discriminate].
    destruct (parse rest input) as [out'|]; [|discriminate].
    intros [= <-] k. specialize (IH out' eq_refl k).
    unfold has_key in *. simpl.
    destruct (String.eqb k (fkey f)) eqn:Hk; simpl.
    + apply String.eqb_eq in Hk. subst k.
      destruct (input !! fkey f) as [v|] eqn:Hv.
      * apply lookup_insert_eq.
      * rewrite IH. destruct (existsb _ _); reflexivity.
    + apply String.eqb_neq in Hk.
      destruct (input !! fkey f) as [v|] eqn:Hv.
      * rewrite lookup_insert_ne by congruence. exact IH.
      * exact IH.
Qed.

Lemma int32_spec (n : Z) :
  int32 n = true <-> -2147483648 <= n <= 2147483647.
Proof.
  unfold int32. rewrite andb_true_iff, !Z.leb_le. reflexivity.
Qed.

(** An object with the three creation fields, its conversation id in the
    32-bit range, is parsed to itself, whatever the strings. *)
Lemma message_input_parsed (cid : Z) (role content : jsstring) :
  -2147483648 <= cid <= 2147483647 ->
  parse insertMessageSchema (message_input cid role content)
    = Some (message_input cid role content).
Proof.
  intros Hcid. apply int32_spec in Hcid.
  unfold message_input.
  change insertMessageSchema with
    [mkField "conversationId" TInteger true true;
     mkField "role" TText false false;
     mkField "content" TText false false].
  cbn [parse fkey].
  rewrite lookup_insert_eq.
  rewrite (lookup_insert_ne _ "conversationId" "role") by discriminate.
  rewrite lookup_insert_eq.
  rewrite (lookup_insert_ne _ "conversationId" "content") by discriminate.
  rewrite (lookup_insert_ne _ "role" "content") by discriminate.
  rewrite lookup_insert_eq.
  cbn [check_field check_base base]. rewrite Hcid. reflexivity.
Qed.

End InsertSchemas.

(** C7. The insert schema of messages does not restrict [role] to the two
    values the column comment names: an object whose role is "system" is
    accepted, and the parsed object still carries that role; with a
    conversation id in the 32-bit range, any string at all is accepted as a
    role and reaches the parsed object. *)
Theorem C7_role_not_restricted :
  is_role (lit "system") = false /\
  accepts insertMessageSchema (message_input 1 (lit "system") (lit "hello"))
    = true /\
  (forall (cid : Z) (role content : jsstring),
     -2147483648 <= cid <= 2147483647 ->
     exists out,
       parse insertMessageSchema (message_input cid role content) = Some out /\
       out !! "role"%string = Some (VStr role)).
Proof.
  split; [vm_compute; reflexivity|]. split.
  - unfold accepts. rewrite message_input_parsed by lia. reflexivity.
  - intros cid role content Hcid. exists (message_input cid role content).
    split; [apply message_input_parsed; exact Hcid|].
    unfold message_input.
    rewrite (lookup_insert_ne _ "conversationId" "role") by discriminate.
    apply lookup_insert_eq.
Qed.

(** C7, on a message of role "system" for conversation 1. *)
Lemma C7_role_not_restricted_witness :
  exists out,
    parse insertMessageSchema (message_input 1 (lit "system") (lit "hello"))
      = Some out /\
    out !! "role"%string = Some (VStr (lit "system")).
Proof.
  apply (proj2 (proj2 C7_role_not_restricted) 1 (lit "system") (lit "hello")).
  lia.
Defined.

(** C8. The insert schema of messages has exactly the fields
    [conversationId], [role] and [content], and the insert schema of
    conversations exactly [userId] and [title]. Whatever object is parsed,
    the result carries these properties as given and no other: never an
    [id], a [timestamp], an [isTyping] or a [createdAt]. *)
Theorem C8_insert_schema_fields :
  keys insertMessageSchema = ["conversationId"; "role"; "content"]%string /\
  keys insertConversationSchema = ["userId"; "title"]%string /\
  (forall input out : gmap string value,
     parse insertMessageSchema input = Some out ->
     (forall k : string,
        out !! k = if has_key insertMessageSchema k then input !! k else None)
     /\
     out !! "id"%string = None /\
     out !! "timestamp"%string = None /\
     out !! "isTyping"%string = None) /\
  (forall input out : gmap string value,
     parse insertConversationSchema input = Some out ->
     (forall k : string,
        out !! k =
          if has_key insertConversationSchema k then input !! k else None)
     /\
     out !! "id"%string = None /\
     out !! "createdAt"%string = None).
Proof.
  split; [reflexivity|]. split; [reflexivity|]. split.
  - intros input out Hp.
    pose proof (parse_lookup _ _ _ Hp) as Hl.
    split; [exact Hl|]. repeat split; rewrite Hl; reflexivity.
  - intros input out Hp.
    pose proof (parse_lookup _ _ _ Hp) as Hl.
    split; [exact Hl|]. repeat split; rewrite Hl; reflexivity.
Qed.

(** C8, on a message object that also carries an id, a timestamp and a
    typing flag: it is parsed, and the three are gone. *)
Lemma C8_insert_schema_fields_witness :
  parse insertMessageSchema forged_message
    = Some (message_input 7 (lit "user") (lit "hi")) /\
  message_input 7 (lit "user") (lit "hi") !! "id"%string = None /\
  message_input 7 (lit "user") (lit "hi") !! "timestamp"%string = None /\
  message_input 7 (lit "user") (lit "hi") !! "isTyping"%string = None.
Proof.
  assert (Hp : parse insertMessageSchema forged_message
               = Some (message_input 7 (lit "user") (lit "hi")))
    by (vm_compute; reflexivity).
  split; [exact Hp|].
  exact (proj2 (proj1 (proj2 (proj2 C8_insert_schema_fields)) _ _ Hp)).
Defined.

(* ===================================================================== *)
(** ** The theorems on the sample sessions                                *)
(* ===================================================================== *)

Section Samples.

Lemma reachable_after (tr : list Event) :
  match run tr init with Some _ => true | None => false end = true -> reachable (after tr).
Proof.
  intros H. exists tr. unfold after.
  destruct (run tr init); [reflexivity | discriminate].
Qed.

End Samples.

(** C1, amended, on the sample session: the draft " I have a headache " is
    sent to conversation 7 as "I have a headache"; its success, which comes
    while the first fetch of the list is unanswered, sends nothing more;
    and the list that the first fetch brings back is the one displayed. *)
Lemma C1_send_flow_witness :
  (exists id,
     conversationId (after ready) = Some id /\
     isTyping (handleSendMessage (after ready)) = true /\
     isPending MSend (handleSendMessage (after ready)) = true /\
     sent (handleSendMessage (after ready)) =
       sent (after ready) ++
         [PostMessage id (trim (messageInput (after ready)))] /\
     messageInput (handleSendMessage (after ready)) =
       messageInput (after ready)) /\
  sent (after (send_in_flight ++ [SendResolved reply]))
    = sent (after send_in_flight) /\
  messages (after settled) = [reply].
Proof.
  split; [|split].
  - apply (proj1 C1_send_flow (after ready)).
    + vm_compute. discriminate.
    + vm_compute. reflexivity.
    + vm_compute. reflexivity.
  - destruct (proj1 (proj2 C1_send_flow) (after send_in_flight)
                (after (send_in_flight ++ [SendResolved reply])) reply)
      as (id & Hid & Hsame & _).
    + apply reachable_after. vm_compute. reflexivity.
    + vm_compute. reflexivity.
    + vm_compute in Hid. injection Hid as <-. apply Hsame.
      * vm_compute. reflexivity.
      * vm_compute. reflexivity.
  - apply (proj1 (proj2 (proj2 C1_send_flow))
             (after [Mount; CreateResolved conversation7])
             (after settled) [reply]).
    + apply reachable_after. vm_compute. reflexivity.
    + vm_compute. reflexivity.
Defined.

(** C2, on the sample session: the emergency text is appended. *)
Lemma C2_quick_action_appends_witness :
  exists m,
    messages (after (quick_in_flight ++ [QuickResolved emergency])) =
      messages (after quick_in_flight) ++ [m] /\
    msg_role m = lit "assistant" /\
    msg_content m = content emergency /\
    (forall i x,
       messages (after quick_in_flight) !! i = Some x ->
       messages (after (quick_in_flight ++ [QuickResolved emergency])) !! i
         = Some x) /\
    sent (after (quick_in_flight ++ [QuickResolved emergency])) =
      sent (after quick_in_flight) /\
    count is_get
      (inflight (after (quick_in_flight ++ [QuickResolved emergency]))) =
    count is_get (inflight (after quick_in_flight)).
Proof.
  apply (C2_quick_action_appends (after quick_in_flight)
           (after (quick_in_flight ++ [QuickResolved emergency])) emergency).
  - vm_compute. reflexivity.
  - vm_compute. reflexivity.
Defined.

(** C4, on the sample session: the send fails on the server. *)
Lemma C4_typing_flag_witness :
  isTyping (handleSendMessage (after ready)) = true /\
  isTyping (after (send_in_flight ++ [SendRejected server_error])) = false.
Proof.
  split.
  - apply (proj1 C4_typing_flag (after ready) 7
             (lit "I have a headache")).
    vm_compute. reflexivity.
  - apply (proj1 (proj2 (proj2 C4_typing_flag))
             (SendRejected server_error) (after send_in_flight)).
    + reflexivity.
    + vm_compute. reflexivity.
Defined.

(** C5, on the sample session with both requests in flight. *)
Lemma C5_in_flight_witness :
  (count is_post (inflight (after both_in_flight)) <= 1)%nat /\
  (count is_quick (inflight (after both_in_flight)) <= 1)%nat.
Proof.
  apply (proj1 C5_in_flight (after both_in_flight)).
  apply reachable_after. vm_compute. reflexivity.
Defined.

(** C6, on a session whose conversation could not be created. *)
Lemma C6_create_conversation_on_mount_witness :
  count is_create (sent (after [Mount; CreateRejected server_error])) = 1%nat.
Proof.
  apply (proj1 (proj2 (proj2 C6_create_conversation_on_mount))).
  - apply reachable_after. vm_compute. reflexivity.
  - vm_compute. reflexivity.
Defined.

(** C9, on a session whose quick action returns before the conversation. *)
Lemma C9_quick_action_discarded_witness :
  onSuccess quickActionMutation emergency (after quick_while_waiting) =
    setIsTyping false (after quick_while_waiting).
Proof.
  apply (proj1 (C9_quick_action_discarded (after quick_while_waiting)
                  emergency eq_refl)).
Defined.

(** C10, on the sample session: the id 7 survives a send and a quick
    action with their responses. *)
Lemma C10_conversation_id_written_once_witness :
  conversationId
    (after (both_in_flight ++ [QuickResolved emergency; SendResolved reply]))
  = Some 7.
Proof.
  apply (proj1 (proj2 (proj2 (proj2 C10_conversation_id_written_once)))
           (ClickSend :: ClickQuickAction 3 ::
              [QuickResolved emergency; SendResolved reply])
           (after ready)).
  - apply reachable_after. vm_compute. reflexivity.
  - vm_compute. reflexivity.
  - vm_compute. reflexivity.
Defined.

(* ===================================================================== *)
(** ** More on the schemas                                                *)
(* ===================================================================== *)

Section ParseFacts.

Lemma has_key_cons (f : field) (sc : schema) (k : string) :
  has_key (f :: sc) k = String.eqb k (fkey f) || has_key sc k.
Proof. reflexivity. Qed.

(** Parsing looks at the properties of the shape only. *)
Lemma parse_agree (sc : schema) (i1 i2 : gmap string value) :
  (forall k, has_key sc k = true -> i1 !! k = i2 !! k) ->
  parse sc i1 = parse sc i2.
Proof.
  induction sc as [|f rest IH]; intros Hk; [reflexivity|].
  simpl.
  assert (Hf : i1 !! fkey f = i2 !! fkey f).
  { apply Hk. rewrite has_key_cons, String.eqb_refl. reflexivity. }
  rewrite Hf, IH; [reflexivity|].
  intros k Hin. apply Hk. rewrite has_key_cons, Hin. apply orb_true_r.
Qed.

Lemma accepts_forallb (sc : schema) (input : gmap string value) :
  accepts sc input = forallb (fun f => check_field f (input !! fkey f)) sc.
Proof.
  unfold accepts. induction sc as [|f rest IH]; [reflexivity|].
  simpl. destruct (check_field f (input !! fkey f)); [|reflexivity].
  simpl. rewrite <- IH. destruct (parse rest input); reflexivity.
Qed.

Lemma has_key_filter (p : field -> bool) (sc : schema) (k : string) :
  has_key (List.filter p sc) k = true ->
  exists f, In f sc /\ fkey f = k /\ p f = true.
Proof.
  induction sc as [|f rest IH]; simpl; [discriminate|].
  destruct (p f) eqn:Hp.
  - rewrite has_key_cons. intros H. apply orb_true_iff in H.
    destruct H as [H|H].
    + apply String.eqb_eq in H. exists f. auto.
    + destruct (IH H) as (g & Hg & Hk & Hpg). exists g. auto.
  - intros H. destruct (IH H) as (g & Hg & Hk & Hpg). exists g. auto.
Qed.

Lemma existsb_eqb_In (k : string) (ks : list string) :
  existsb (String.eqb k) ks = true <-> In k ks.
Proof.
  rewrite existsb_exists. split.
  - intros (x & Hx & He). apply String.eqb_eq in He. subst. exact Hx.
  - intros H. exists k. split; [exact H | apply String.eqb_refl].
Qed.

Lemma forallb_filter_weaken {A : Type} (p q : A -> bool) (l : list A) :
  forallb q l = true -> forallb q (List.filter p l) = true.
Proof.
  induction l as [|a l IH]; simpl; [reflexivity|].
  intros H. apply andb_true_iff in H. destruct H as [Ha Hl].
  destruct (p a); simpl; [rewrite Ha|]; auto.
Qed.

End ParseFacts.

(** X1. Parsing is idempotent: what a schema returns is accepted by the same
    schema and returned unchanged. *)
Theorem X1_parse_idempotent (sc : schema) (input out : gmap string value) :
  parse sc input = Some out -> parse sc out = Some out.
Proof.
  intros Hp. rewrite <- Hp. apply parse_agree.
  intros k Hk. rewrite (parse_lookup sc input out Hp k), Hk. reflexivity.
Qed.

(** X1, on the message object with forged fields. *)
Lemma X1_parse_idempotent_witness :
  parse insertMessageSchema (message_input 7 (lit "user") (lit "hi"))
    = Some (message_input 7 (lit "user") (lit "hi")).
Proof.
  apply (X1_parse_idempotent insertMessageSchema forged_message).
  vm_compute. reflexivity.
Defined.

(** X2. A schema ignores every property outside its shape: two objects
    that agree on the fields of the shape are both rejected or both parsed
    to the same object; and an object is accepted exactly when each field of
    the shape passes its own check. *)
Theorem X2_parse_reads_shape_only (sc : schema) (i1 i2 : gmap string value) :
  (forall k, has_key sc k = true -> i1 !! k = i2 !! k) ->
  parse sc i1 = parse sc i2 /\
  accepts sc i1 = forallb (fun f => check_field f (i1 !! fkey f)) sc.
Proof.
  intros Hk. split; [apply parse_agree; exact Hk | apply accepts_forallb].
Qed.

(** X2, on the conversation object with and without forged fields. *)
Lemma X2_parse_reads_shape_only_witness :
  parse insertConversationSchema forged_conversation =
  parse insertConversationSchema
    (conversation_input (lit "anonymous") (lit "MedAssist Chat")).
Proof.
  apply (X2_parse_reads_shape_only insertConversationSchema).
  intros k Hk. unfold has_key in Hk. simpl in Hk.
  apply orb_true_iff in Hk. destruct Hk as [Hk|Hk].
  - apply String.eqb_eq in Hk. subst k. vm_compute. reflexivity.
  - apply orb_true_iff in Hk. destruct Hk as [Hk|Hk]; [|discriminate].
    apply String.eqb_eq in Hk. subst k. vm_compute. reflexivity.
Defined.

(** X3. [omit] and [pick], for any schema and any list of keys: an object
    parsed by [omit ks sc] has none of the keys [ks], an object parsed by
    [pick ks sc] has only keys of [ks], and both accept whatever [sc]
    accepts. *)
Theorem X3_omit_pick (sc : schema) (ks : list string)
    (input out : gmap string value) (k : string) :
  (parse (omit ks sc) input = Some out -> In k ks -> out !! k = None) /\
  (parse (pick ks sc) input = Some out -> ~ In k ks -> out !! k = None) /\
  (accepts sc input = true ->
   accepts (omit ks sc) input = true /\ accepts (pick ks sc) input = true).
Proof.
  repeat apply conj.
  - intros Hp Hin. rewrite (parse_lookup _ _ _ Hp k).
    destruct (has_key (omit ks sc) k) eqn:Hk; [|reflexivity].
    apply has_key_filter in Hk. destruct Hk as (f & _ & <- & Hf).
    apply existsb_eqb_In in Hin. rewrite Hin in Hf. discriminate.
  - intros Hp Hnin. rewrite (parse_lookup _ _ _ Hp k).
    destruct (has_key (pick ks sc) k) eqn:Hk; [|reflexivity].
    apply has_key_filter in Hk. destruct Hk as (f & _ & <- & Hf).
    apply existsb_eqb_In in Hf. contradiction.
  - intros Ha. rewrite accepts_forallb in Ha.
    split; rewrite accepts_forallb; apply forallb_filter_weaken; exact Ha.
Qed.

(** X3, on the users table without its password. *)
Lemma X3_omit_pick_witness :
  <["username" := VStr (lit "ann")]> (∅ : gmap string value)
    !! "password"%string = None.
Proof.
  apply (proj1 (X3_omit_pick (createInsertSchema users) ["password"%string]
                  (<["password" := VStr (lit "secret")]>
                     (<["username" := VStr (lit "ann")]> ∅))
                  (<["username" := VStr (lit "ann")]> ∅)
                  "password"%string)).
  - vm_compute. reflexivity.
  - left. reflexivity.
Defined.

Section Acceptance.

(** A required text field passes exactly on a string. *)
Lemma check_required_text (k : string) (v : option value) :
  check_field (mkField k TText false false) v = true <->
  exists s, v = Some (VStr s).
Proof.
  destruct v as [[| | | s | |]|]; simpl; split;
    try discriminate; try (intros [s' [=]]); eauto.
Qed.

(** A nullable, optional text field passes exactly on a string, on [null]
    and on a missing property. *)
Lemma check_optional_text (k : string) (v : option value) :
  check_field (mkField k TText true true) v = true <->
  v = None \/ v = Some VNull \/ exists s, v = Some (VStr s).
Proof.
  destruct v as [[| | | s | |]|]; simpl; split; try discriminate; eauto;
    intros [H|[H|[s' H]]]; discriminate.
Qed.

(** A nullable, optional integer field passes exactly on an integer of the
    32-bit range, on [null] and on a missing property. *)
Lemma check_optional_integer (k : string) (v : option value) :
  check_field (mkField k TInteger true true) v = true <->
  v = None \/ v = Some VNull \/
  exists n, v = Some (VNum n) /\ -2147483648 <= n <= 2147483647.
Proof.
  destruct v as [[| n | | | |]|]; simpl; split; try discriminate; eauto;
    try (intros [H|[H|(n' & H & _)]]; discriminate).
  - intros H. right. right. exists n. split; [reflexivity|].
    apply int32_spec. exact H.
  - intros [H|[H|(n' & [= <-] & Hn)]]; try discriminate.
    apply int32_spec. exact Hn.
Qed.

End Acceptance.

(** X4. The insert schema of users accepts an object exactly when its
    [username] and its [password] are both strings: neither may be missing
    or [null]. *)
Theorem X4_insertUserSchema_accepts (input : gmap string value) :
  accepts insertUserSchema input = true <->
  (exists u, input !! "username"%string = Some (VStr u)) /\
  (exists p, input !! "password"%string = Some (VStr p)).
Proof.
  rewrite accepts_forallb.
  change insertUserSchema with
    [mkField "username" TText false false;
     mkField "password" TText false false].
  cbn [forallb fkey]. rewrite andb_true_r, andb_true_iff.
  rewrite !check_required_text. reflexivity.
Qed.

(** X5. The insert schema of messages accepts an object exactly when its
    [role] and its [content] are strings and its [conversationId] is an
    integer of the 32-bit range, [null] or missing; a conversation id
    outside that range, or a number that is no integer, is rejected. The
    content may be the empty string: that a message is not empty is not
    checked here. *)
Theorem X5_insertMessageSchema_accepts (input : gmap string value) :
  (accepts insertMessageSchema input = true <->
   (input !! "conversationId"%string = None \/
    input !! "conversationId"%string = Some VNull \/
    exists n, input !! "conversationId"%string = Some (VNum n) /\
              -2147483648 <= n <= 2147483647) /\
   (exists r, input !! "role"%string = Some (VStr r)) /\
   (exists c, input !! "content"%string = Some (VStr c))) /\
  (forall (cid : Z) (role : jsstring),
     -2147483648 <= cid <= 2147483647 ->
     accepts insertMessageSchema (message_input cid role []) = true) /\
  accepts insertMessageSchema
    (message_input 2147483648 (lit "user") (lit "hi")) = false /\
  accepts insertMessageSchema
    (<["conversationId" := VNonInteger]>
       (message_input 1 (lit "user") (lit "hi"))) = false.
Proof.
  split.
  - rewrite accepts_forallb.
    change insertMessageSchema with
      [mkField "conversationId" TInteger true true;
       mkField "role" TText false false;
       mkField "content" TText false false].
    cbn [forallb fkey]. rewrite andb_true_r, !andb_true_iff.
    rewrite !check_required_text, check_optional_integer. reflexivity.
  - split; [|split; vm_compute; reflexivity].
    intros cid role Hcid. unfold accepts.
    rewrite message_input_parsed by exact Hcid. reflexivity.
Qed.

(** X6. The insert schema of conversations accepts an object exactly when
    [userId] and [title] are each a string, [null] or missing; the empty
    object is accepted. *)
Theorem X6_insertConversationSchema_accepts (input : gmap string value) :
  (accepts insertConversationSchema input = true <->
   (input !! "userId"%string = None \/
    input !! "userId"%string = Some VNull \/
    exists u, input !! "userId"%string = Some (VStr u)) /\
   (input !! "title"%string = None \/
    input !! "title"%string = Some VNull \/
    exists t, input !! "title"%string = Some (VStr t))) /\
  parse insertConversationSchema ∅ = Some ∅.
Proof.
  split; [|reflexivity].
  rewrite accepts_forallb.
  change insertConversationSchema with
    [mkField "userId" TText true true;
     mkField "title" TText true true].
  cbn [forallb fkey]. rewrite andb_true_r, andb_true_iff.
  rewrite !check_optional_text. reflexivity.
Qed.

(** X4, on one complete and valid user object. *)
Lemma X4_insertUserSchema_accepts_witness :
  accepts insertUserSchema
    (<["username" := VStr (lit "ann")]>
       (<["password" := VStr (lit "secret")]> ∅)) = true.
Proof.
  apply (proj2 (X4_insertUserSchema_accepts _)).
  split; eexists; vm_compute; reflexivity.
Defined.

(** X5, on a message object without a conversation id. *)
Lemma X5_insertMessageSchema_accepts_witness :
  accepts insertMessageSchema
    (<["role" := VStr (lit "user")]>
       (<["content" := VStr (lit "hi")]> ∅)) = true.
Proof.
  apply (proj2 (proj1 (X5_insertMessageSchema_accepts _))).
  split; [left; vm_compute; reflexivity|].
  split; eexists; vm_compute; reflexivity.
Defined.

(** X6, on a conversation object whose title is [null]. *)
Lemma X6_insertConversationSchema_accepts_witness :
  accepts insertConversationSchema
    (<["userId" := VStr (lit "anonymous")]> (<["title" := VNull]> ∅)) = true.
Proof.
  apply (proj2 (proj1 (X6_insertConversationSchema_accepts _))).
  split.
  - right. right. eexists. vm_compute. reflexivity.
  - right. left. vm_compute. reflexivity.
Defined.

(* ===================================================================== *)
(** ** Time labels and the messages area                                  *)
(* ===================================================================== *)

Section TimeLabels.

Variable parseDate : jsstring -> option Z.
Variable toLocaleTimeString : Z -> jsstring.

Lemma minutes_lt (diff q : Z) : (diff / 60000 <? q) = (diff <? 60000 * q).
Proof.
  destruct (diff <? 60000 * q) eqn:H.
  - apply Z.ltb_lt. apply Z.ltb_lt in H.
    apply Z.div_lt_upper_bound; lia.
  - apply Z.ltb_ge. apply Z.ltb_ge in H.
    apply Z.div_le_lower_bound; lia.
Qed.

Lemma formatTimestamp_date (now d : Z) :
  formatTimestamp parseDate toLocaleTimeString now (TDate d) =
    if now - d <? 60000 then lit "Just now"
    else if now - d <? 3600000 then
      decimal ((now - d) / 60000) ++ lit " min"
        ++ (if (now - d) / 60000 =? 1 then lit "" else lit "s") ++ lit " ago"
    else toLocaleTimeString d.
Proof.
  unfold formatTimestamp. cbn [falsy_timestamp time_value].
  cbv zeta. rewrite !minutes_lt. reflexivity.
Qed.

End TimeLabels.

(** X7. The label of a date [d] read at [now]: "Just now" when less than a
    minute has passed, which includes every date in the future; "1 min ago"
    in the second minute; "[m] mins ago" with [m] the whole minutes passed,
    between 2 and 59, up to the hour; and from one hour on the locale time
    of the date, whatever [now] is. *)
Theorem X7_formatTimestamp_date
    (parseDate : jsstring -> option Z) (toLocaleTimeString : Z -> jsstring)
    (now d : Z) :
  (now - d < 60000 ->
   formatTimestamp parseDate toLocaleTimeString now (TDate d)
     = lit "Just now") /\
  (60000 <= now - d < 120000 ->
   formatTimestamp parseDate toLocaleTimeString now (TDate d)
     = lit "1 min ago") /\
  (120000 <= now - d < 3600000 ->
   formatTimestamp parseDate toLocaleTimeString now (TDate d)
     = decimal ((now - d) / 60000) ++ lit " mins ago" /\
   2 <= (now - d) / 60000 <= 59) /\
  (3600000 <= now - d ->
   formatTimestamp parseDate toLocaleTimeString now (TDate d)
     = toLocaleTimeString d).
Proof.
  rewrite formatTimestamp_date. repeat apply conj.
  - intros H. apply Z.ltb_lt in H. rewrite H. reflexivity.
  - intros [H1 H2].
    assert (Hq : (now - d) / 60000 = 1).
    { apply Z.le_antisymm.
      - apply Z.lt_succ_r. apply Z.div_lt_upper_bound; lia.
      - apply Z.div_le_lower_bound; lia. }
    rewrite Hq.
    apply Z.ltb_ge in H1. rewrite H1.
    assert (H3 : (now - d <? 3600000) = true) by (apply Z.ltb_lt; lia).
    rewrite H3. reflexivity.
  - intros [H1 H2].
    assert (Hlo : 2 <= (now - d) / 60000)
      by (apply Z.div_le_lower_bound; lia).
    assert (Hhi : (now - d) / 60000 <= 59)
      by (apply Z.lt_succ_r; apply Z.div_lt_upper_bound; lia).
    split; [|split; assumption].
    assert (H0 : (now - d <? 60000) = false) by (apply Z.ltb_ge; lia).
    assert (H3 : (now - d <? 3600000) = true) by (apply Z.ltb_lt; lia).
    assert (Hne : ((now - d) / 60000 =? 1) = false) by (apply Z.eqb_neq; lia).
    rewrite H0, H3, Hne. reflexivity.
  - intros H.
    assert (H0 : (now - d <? 60000) = false) by (apply Z.ltb_ge; lia).
    assert (H3 : (now - d <? 3600000) = false) by (apply Z.ltb_ge; lia).
    rewrite H0, H3. reflexivity.
Qed.

(** X7, ninety seconds after the date. *)
Lemma X7_formatTimestamp_date_witness :
  formatTimestamp (fun _ => None) (fun _ => []) 1090000 (TDate 1000000)
    = lit "1 min ago".
Proof.
  apply (proj1 (proj2 (X7_formatTimestamp_date _ _ 1090000 1000000))).
  lia.
Defined.

(** X8. A timestamp that arrives as text: the empty string is labelled
    "Just now", like [null]; a string that is no date is labelled
    "Invalid Date"; any other string is labelled as the date it denotes. *)
Theorem X8_formatTimestamp_string
    (parseDate : jsstring -> option Z) (toLocaleTimeString : Z -> jsstring)
    (now : Z) (s : jsstring) :
  formatTimestamp parseDate toLocaleTimeString now TNull = lit "Just now" /\
  formatTimestamp parseDate toLocaleTimeString now (TString [])
    = lit "Just now" /\
  (s <> [] -> parseDate s = None ->
   formatTimestamp parseDate toLocaleTimeString now (TString s)
     = lit "Invalid Date") /\
  (forall d, s <> [] -> parseDate s = Some d ->
   formatTimestamp parseDate toLocaleTimeString now (TString s)
     = formatTimestamp parseDate toLocaleTimeString now (TDate d)).
Proof.
  repeat apply conj; try reflexivity.
  - intros Hne Hp. unfold formatTimestamp. simpl.
    destruct s; [contradiction|]. rewrite Hp. reflexivity.
  - intros d Hne Hp. unfold formatTimestamp. simpl.
    destruct s; [contradiction|]. rewrite Hp. reflexivity.
Qed.

(** X8, on a text that no date parser accepts. *)
Lemma X8_formatTimestamp_string_witness :
  formatTimestamp (fun _ => None) (fun _ => []) 0 (TString (lit "soon"))
    = lit "Invalid Date".
Proof.
  apply (proj1 (proj2 (proj2
           (X8_formatTimestamp_string (fun _ => None) (fun _ => []) 0
              (lit "soon"))))).
  - discriminate.
  - reflexivity.
Defined.

Lemma lit_user_assistant : lit "user" <> lit "assistant".
Proof. discriminate. Qed.

(** X9. The messages area shows the welcome message first, then one bubble
    per message of the displayed list, in the order of the list and with the
    content of each message as its text, then the typing indicator exactly
    when the page is in Typing. *)
Theorem X9_messagesArea_layout
    (parseDate : jsstring -> option Z) (toLocaleTimeString : Z -> jsstring)
    (now : Z) (s : State) :
  let area := messagesArea parseDate toLocaleTimeString now s in
  head area = Some WelcomeMessage /\
  length area = (1 + length (messages s) + b2n (isTyping s))%nat /\
  (forall (i : nat) (m : Message),
     messages s !! i = Some m ->
     area !! S i
       = Some (ChatMessage (renderMessage parseDate toLocaleTimeString now m))
     /\ text_shown (renderMessage parseDate toLocaleTimeString now m)
          = msg_content m) /\
  (last area = Some TypingIndicator <-> isTyping s = true).
Proof.
  cbv zeta. unfold messagesArea. split; [|split; [|split]].
  - reflexivity.
  - simpl. rewrite length_app, length_map.
    destruct (isTyping s); simpl; lia.
  - intros i m Hm. split; [|reflexivity].
    simpl. apply lookup_app_l_Some.
    rewrite list_lookup_fmap, Hm. reflexivity.
  - destruct (isTyping s).
    + split; [reflexivity|]. intros _.
      rewrite app_comm_cons. apply last_snoc.
    + rewrite app_nil_r. split; [|discriminate].
      destruct (messages s) as [|m l] using rev_ind; [discriminate|].
      rewrite map_app. simpl. rewrite app_comm_cons, last_snoc.
      discriminate.
Qed.

(** X10. Who a bubble is drawn for depends on the role alone: a message of
    the user gets the user avatar, the user colours and the right-hand side;
    a message of the assistant gets the heart avatar and the bot colours; a
    message with any other role is drawn in the bot colours with no avatar
    at all. No bubble has both avatars. *)
Theorem X10_renderMessage_by_role
    (parseDate : jsstring -> option Z) (toLocaleTimeString : Z -> jsstring)
    (now : Z) (m : Message) :
  let b := renderMessage parseDate toLocaleTimeString now m in
  (msg_role m = lit "user" ->
   user_avatar b = true /\ heart_avatar b = false /\
   style b = UserBg /\ justify_end b = true /\ time_right b = true) /\
  (msg_role m = lit "assistant" ->
   heart_avatar b = true /\ user_avatar b = false /\
   style b = BotBg /\ justify_end b = false /\ time_right b = false) /\
  (msg_role m <> lit "user" -> msg_role m <> lit "assistant" ->
   heart_avatar b = false /\ user_avatar b = false /\
   style b = BotBg /\ justify_end b = false) /\
  heart_avatar b && user_avatar b = false.
Proof.
  cbv zeta. unfold renderMessage, is_user, is_assistant. simpl.
  repeat apply conj.
  - intros Hr. rewrite Hr.
    rewrite bool_decide_eq_true_2 by reflexivity.
    rewrite bool_decide_eq_false_2 by exact lit_user_assistant.
    repeat split; reflexivity.
  - intros Hr. rewrite Hr.
    rewrite (bool_decide_eq_true_2 (lit "assistant" = lit "assistant"))
      by reflexivity.
    rewrite bool_decide_eq_false_2
      by (intros H; symmetry in H; exact (lit_user_assistant H)).
    repeat split; reflexivity.
  - intros Hu Ha.
    rewrite (bool_decide_eq_false_2 _ Hu), (bool_decide_eq_false_2 _ Ha).
    repeat split; reflexivity.
  - destruct (bool_decide (msg_role m = lit "assistant")) eqn:Ha;
      [|reflexivity].
    apply bool_decide_eq_true_1 in Ha. rewrite Ha.
    rewrite bool_decide_eq_false_2
      by (intros H; symmetry in H; exact (lit_user_assistant H)).
    reflexivity.
Qed.

(** X10, on the sample reply of the assistant. *)
Lemma X10_renderMessage_by_role_witness :
  heart_avatar (renderMessage (fun _ => None) (fun _ => []) 0 reply) = true.
Proof.
  apply (proj1 (proj2
           (X10_renderMessage_by_role (fun _ => None) (fun _ => []) 0 reply))).
  reflexivity.
Defined.

(* ===================================================================== *)
(** ** The steps, case by case                                            *)
(* ===================================================================== *)

Section Steps.

Lemma take_first_holds (p : Request -> bool) (l rest : list Request)
    (r : Request) :
  take_first p l = Some (r, rest) -> p r = true.
Proof. intros H. exact (proj1 (take_first_count p l rest r H)). Qed.

Lemma settle_Some (p : Request -> bool) (k : Request -> State -> State)
    (s s' : State) :
  settle p k s = Some s' ->
  exists r rest,
    take_first p (inflight s) = Some (r, rest) /\ p r = true /\
    s' = k r (setInflight rest s).
Proof.
  intros H. destruct (settle_inv p k s s' H) as (r & rest & Ht & Hp & _ & Hs).
  exists r, rest. auto.
Qed.

Lemma submit_Step (e : Event) (s : State) :
  mounted s = true -> is_submit e = true -> sendPending s = false ->
  (match e with KeyDown _ _ => True | _ => trim (messageInput s) <> [] end) ->
  (match e with KeyDown _ _ => e = KeyDown true false | _ => True end) ->
  Step s e (handleSendMessage s).
Proof.
  intros Hm He Hp Hd Hk.
  destruct (handleSendMessage_cases s)
    as [[Heq [Hb|Hq]] | [(Hne & _ & Hh & Heq) | (Hne & _ & Hh & id & Hid & Heq)]];
    rewrite Heq.
  - destruct e; try discriminate; try contradiction.
    rewrite Hk. apply Step_key_idle; auto.
  - simpl in Hq. congruence.
  - apply Step_submit_fail; assumption.
  - apply Step_submit_send; try assumption.
    unfold holds_conversation in Hh. rewrite Hid in Hh. simpl in Hh.
    destruct (id =? 0); [discriminate | reflexivity].
Qed.

(** Every step of the page is one of the rules. *)
Lemma step_Step (e : Event) (s s' : State) :
  step e s = Some s' -> Step s e s'.
Proof.
  intros Hstep. destruct e; simpl in Hstep;
    (destruct (mounted s) eqn:Hm; simpl in Hstep; try discriminate).
  - injection Hstep as <-. apply Step_mount. exact Hm.
  - unfold textarea_disabled in Hstep. simpl in Hstep.
    destruct (sendPending s) eqn:Hp; [discriminate|].
    injection Hstep as <-. apply Step_change; assumption.
  - unfold send_button_disabled in Hstep. simpl in Hstep.
    destruct (trim (messageInput s)) as [|c t] eqn:Ht; [discriminate|].
    simpl in Hstep.
    destruct (sendPending s) eqn:Hp; [discriminate|].
    injection Hstep as <-. apply submit_Step; auto.
    rewrite Ht. discriminate.
  - unfold textarea_disabled in Hstep. simpl in Hstep.
    destruct (sendPending s) eqn:Hp; [discriminate|].
    injection Hstep as <-. unfold handleKeyDown.
    destruct (enter && negb shiftKey) eqn:He.
    + apply submit_Step; auto.
      apply andb_true_iff in He. destruct He as [-> Hs].
      destruct shiftKey; [discriminate | reflexivity].
    + apply Step_key_idle; auto.
  - unfold quick_buttons_disabled in Hstep. simpl in Hstep.
    destruct (quickPending s) eqn:Hq; [discriminate|].
    destruct (quickActions !! i) as [a|] eqn:Ha; [|discriminate].
    injection Hstep as <-. eapply Step_quick; eassumption.
  - apply settle_Some in Hstep. destruct Hstep as (r & rest & Ht & Hp & ->).
    destruct r; try discriminate. eapply Step_create_resolved; eassumption.
  - apply settle_Some in Hstep. destruct Hstep as (r & rest & Ht & Hp & ->).
    destruct r; try discriminate. eapply Step_create_rejected; eassumption.
  - apply settle_Some in Hstep. destruct Hstep as (r & rest & Ht & Hp & ->).
    destruct r; try discriminate. eapply Step_send_resolved; eassumption.
  - apply settle_Some in Hstep. destruct Hstep as (r & rest & Ht & Hp & ->).
    destruct r; try discriminate. eapply Step_send_rejected; eassumption.
  - apply settle_Some in Hstep. destruct Hstep as (r & rest & Ht & Hp & ->).
    destruct r; try discriminate. eapply Step_quick_resolved; eassumption.
  - apply settle_Some in Hstep. destruct Hstep as (r & rest & Ht & Hp & ->).
    destruct r; try discriminate. eapply Step_quick_rejected; eassumption.
  - apply settle_Some in Hstep. destruct Hstep as (r & rest & Ht & Hp & ->).
    destruct r; try discriminate. eapply Step_fetched; eassumption.
Qed.

End Steps.

(* ===================================================================== *)
(** ** Well-formed sessions                                               *)
(* ===================================================================== *)

Section WellFormed.

Lemma trimStart_fixed (s : jsstring) :
  (forall c, head s = Some c -> is_white_space c = false) ->
  trimStart s = s.
Proof.
  destruct s as [|c r]; [reflexivity|]. intros H. simpl.
  rewrite (H c eq_refl). reflexivity.
Qed.

(** [trim] leaves a trimmed string alone. *)
Lemma trim_idem (s : jsstring) : trim (trim s) = trim s.
Proof.
  unfold trim at 1. unfold trimEnd.
  rewrite (trimStart_fixed (trim s)) by (intros c; apply trim_first).
  rewrite trimStart_fixed.
  - apply rev_involutive.
  - intros c Hc. rewrite head_rev in Hc. apply (trim_last s). exact Hc.
Qed.

Lemma count_zero_not_in (p : Request -> bool) (l : list Request)
    (r : Request) :
  count p l = 0%nat -> In r l -> p r = false.
Proof.
  unfold count. induction l as [|a l IH]; simpl; [contradiction|].
  destruct (p a) eqn:Hpa; simpl; [discriminate|].
  intros Hc [<-|Hin]; auto.
Qed.

(** Requests that were well formed before the conversation id was stored
    stay so afterwards. *)
Lemma request_ok_store (v : Z) (r : Request) :
  request_ok None r = true -> request_ok (Some v) r = true.
Proof.
  destruct r; simpl; auto; discriminate.
Qed.

Lemma request_ok_get (id : Z) :
  (id =? 0) = false -> request_ok (Some id) (GetMessages id) = true.
Proof.
  intros Hz. simpl. rewrite Hz.
  rewrite bool_decide_eq_true_2 by reflexivity. reflexivity.
Qed.

Lemma request_ok_post (id : Z) (d : jsstring) :
  (id =? 0) = false -> trim d <> [] ->
  request_ok (Some id) (PostMessage id (trim d)) = true.
Proof.
  intros Hz Hne. simpl. rewrite Hz.
  rewrite bool_decide_eq_true_2 by reflexivity.
  rewrite (bool_decide_eq_true_2 _ (trim_idem d)).
  destruct (trim d); [contradiction | reflexivity].
Qed.

Lemma request_ok_quick (i : nat) (a : QuickAction) (cid : option Z) :
  quickActions !! i = Some a ->
  request_ok cid (QuickActionCall (qa_action a)) = true.
Proof.
  intros Ha. simpl. unfold is_quick_tag. apply existsb_exists.
  exists a. split.
  - apply list_elem_of_In. eapply list_elem_of_lookup_2. exact Ha.
  - apply bool_decide_eq_true_2. reflexivity.
Qed.

Lemma error_toast_notice (d : jsstring) : is_error_notice (error_toast d) = true.
Proof.
  reflexivity.
Qed.

Lemma Forall_snoc {A : Type} (P : A -> Prop) (l : list A) (x : A) :
  List.Forall P l -> P x -> List.Forall P (l ++ [x]).
Proof.
  intros Hl Hx. apply List.Forall_app. split; [exact Hl|].
  constructor; [exact Hx | constructor].
Qed.

Lemma Wf_init : Wf init.
Proof.
  constructor; simpl; try constructor; try discriminate; try contradiction.
Qed.

End WellFormed.

Section WellFormedSteps.

Lemma request_ok_target (cid : option Z) (id : Z) :
  request_ok cid (GetMessages id) = true ->
  cid = Some id /\ (id =? 0) = false.
Proof.
  simpl. intros H. apply andb_true_iff in H. destruct H as [H1 H2].
  apply bool_decide_eq_true_1 in H1. split; [exact H1|].
  destruct (id =? 0); [discriminate | reflexivity].
Qed.

Lemma pending_of_take_first (p : Request -> bool) (l rest : list Request)
    (r : Request) (b : bool) :
  take_first p l = Some (r, rest) -> count p l = b2n b ->
  b = true /\ count p rest = 0%nat.
Proof.
  intros Ht Hc. destruct (take_first_count p l rest r Ht) as [Hp Hq].
  rewrite (Hq p), Hp in Hc. simpl in Hc. apply b2n_pos in Hc.
  destruct Hc as [Hb Hz]. auto.
Qed.

Lemma in_issue (l : list Request) (sentl : list Request) (r x : Request) :
  (forall y, In y l -> In y sentl) ->
  In x (l ++ [r]) -> In x (sentl ++ [r]).
Proof.
  intros H Hin. apply in_snoc in Hin. apply in_or_app.
  destruct Hin as [Hin | ->]; [left; auto | right; left; reflexivity].
Qed.

Lemma cache_insert (m : gmap (option Z) (list Message)) (cid : option Z)
    (v : list Message) (k : option Z) (l : list Message) :
  truthy_id cid = true ->
  (forall k' l', m !! k' = Some l' -> k' = cid /\ truthy_id k' = true) ->
  <[cid := v]> m !! k = Some l ->
  k = cid /\ truthy_id k = true.
Proof.
  intros Ht Hm Hl. destruct (decide (cid = k)) as [<-|Hne].
  - auto.
  - rewrite lookup_insert_ne in Hl by exact Hne. eauto.
Qed.

(** The goals that need the requests still in flight or the new notice. *)
Ltac wf_rest W4 W6 Hrest :=
  auto; try discriminate;
  try (intros ?id ?c ?Hin; eapply W4; apply Hrest; eassumption);
  try (apply Forall_snoc; [exact W6 | apply error_toast_notice]).

(** Every rule keeps a well-formed state well formed. *)
Lemma Step_Wf (e : Event) (s s' : State) :
  Inv s -> Wf s -> Step s e s' -> Wf s'.
Proof.
  intros HI [W1 W2 W3 W4 W5 W6] HS. destruct HS.
  - (* mount *)
    rewrite (inv_unmounted s HI H). constructor; simpl;
      try discriminate; auto; try (repeat constructor; fail).
    intros id c [Hc|[]]. discriminate.
  - (* typing into the draft *)
    constructor; simpl; auto.
    intros id c Hin. exfalso.
    pose proof (inv_post s HI) as Hc. rewrite H0 in Hc. simpl in Hc.
    pose proof (count_zero_not_in is_post _ _ Hc Hin). discriminate.
  - (* a key that sends nothing *)
    constructor; assumption.
  - (* submit without a conversation *)
    constructor; simpl; auto; try discriminate.
    apply Forall_snoc; [exact W6 | apply error_toast_notice].
  - (* submit *)
    constructor; simpl; auto.
    + rewrite H3. apply Forall_snoc.
      * rewrite <- H3. exact W1.
      * apply request_ok_post; assumption.
    + intros r. apply in_issue. exact W2.
    + intros id' c Hin. apply in_snoc in Hin. destruct Hin as [Hin|Heq].
      * eapply W4. exact Hin.
      * congruence.
  - (* quick action *)
    constructor; simpl; auto.
    + apply Forall_snoc; [exact W1|]. eapply request_ok_quick. exact H1.
    + intros r. apply in_issue. exact W2.
    + intros _. apply orb_true_r.
    + intros id' c Hin. apply in_snoc in Hin. destruct Hin as [Hin|Heq].
      * eapply W4. exact Hin.
      * discriminate.
  - (* the conversation arrives *)
    destruct (pending_of_take_first _ _ _ _ _ H0 (inv_create s HI))
      as [Hcp _].
    pose proof (inv_create_id s HI Hcp) as Hnone.
    pose proof (take_first_rest _ _ _ _ H0) as Hrest.
    assert (Hempty : forall k l, queryData s !! k = Some l -> False).
    { intros k l Hk. destruct (W5 k l Hk) as [-> Ht].
      rewrite Hnone in Ht. discriminate. }
    rewrite Hnone in W1.
    assert (W1' : Forall
              (fun r => request_ok (Some (conv_id c)) r = true) (sent s)).
    { eapply List.Forall_impl; [|exact W1].
      intros r. apply request_ok_store. }
    unfold observe_query, query_enabled. simpl.
    destruct (conv_id c =? 0) eqn:Hz; simpl; constructor; simpl; auto;
      try (intros k l Hk; destruct (Hempty k l Hk); fail);
      try (intros id c0 Hin; apply W4 with id; apply Hrest; exact Hin).
    + apply Forall_snoc; [exact W1' | apply request_ok_get; exact Hz].
    + intros r. apply in_issue. auto.
    + intros id c0 Hin. apply in_snoc in Hin. destruct Hin as [Hin|Heq].
      * apply W4 with id. auto.
      * discriminate.
  - (* the conversation cannot be created *)
    pose proof (take_first_rest _ _ _ _ H0) as Hrest.
    constructor; simpl; wf_rest W4 W6 Hrest.
  - (* the send succeeds *)
    destruct (pending_of_take_first _ _ _ _ _ H0 (inv_post s HI))
      as [Hsp Hzero].
    pose proof (take_first_rest _ _ _ _ H0) as Hrest.
    unfold resolve. cbn [onSuccess sendMessageMutation mid].
    destruct (invalidateQueries_cases (setInflight rest s))
      as [Heq | (cid & l & Hid & Hz & Heq & Hl & _)];
      rewrite Heq; simpl in *.
    + constructor; simpl; auto; try discriminate.
      intros id' c' Hin.
      pose proof (count_zero_not_in is_post _ _ Hzero Hin). discriminate.
    + constructor; simpl; rewrite ?Hid; auto; try discriminate.
      * apply Forall_snoc; [|apply request_ok_get; exact Hz].
        rewrite <- Hid. exact W1.
      * intros r. apply in_issue. auto.
      * intros id' c' Hin. apply in_snoc in Hin. destruct Hin as [Hin|Heq'].
        -- pose proof (count_zero_not_in is_post _ _ Hzero (Hl _ Hin)).
           discriminate.
        -- discriminate.
      * rewrite <- Hid. exact W5.
  - (* the send fails *)
    pose proof (take_first_rest _ _ _ _ H0) as Hrest.
    constructor; simpl; wf_rest W4 W6 Hrest.
  - (* the quick action succeeds *)
    pose proof (take_first_rest _ _ _ _ H0) as Hrest.
    unfold resolve. simpl.
    destruct (conversationId s) as [cid|] eqn:Hid; simpl;
      [destruct (cid =? 0) eqn:Hz; simpl|];
      constructor; simpl; rewrite ?Hid; wf_rest W4 W6 Hrest.
    intros k l Hk. eapply cache_insert; [| |exact Hk].
    + simpl. rewrite Hz. reflexivity.
    + exact W5.
  - (* the quick action fails *)
    pose proof (take_first_rest _ _ _ _ H0) as Hrest.
    constructor; simpl; wf_rest W4 W6 Hrest.
  - (* the list arrives *)
    pose proof (take_first_rest _ _ _ _ H0) as Hrest.
    pose proof (W2 _ (take_first_in _ _ _ _ H0)) as Hsent.
    rewrite List.Forall_forall in W1.
    destruct (request_ok_target _ _ (W1 _ Hsent)) as [Hid Hz].
    constructor; simpl; wf_rest W4 W6 Hrest.
    + apply List.Forall_forall. exact W1.
    + intros k l Hk. rewrite Hid. eapply cache_insert; [| |exact Hk].
      * simpl. rewrite Hz. reflexivity.
      * rewrite <- Hid. exact W5.
Qed.

Lemma run_Inv_Wf (tr : list Event) (s s' : State) :
  Inv s -> Wf s -> run tr s = Some s' -> Inv s' /\ Wf s'.
Proof.
  revert s. induction tr as [|e tr IH]; intros s HI HW; simpl.
  - intros [= <-]. split; assumption.
  - destruct (step e s) as [s1|] eqn:Hs; [|discriminate].
    apply IH; [eapply step_Inv; eassumption|].
    eapply Step_Wf; [exact HI | exact HW | apply step_Step; exact Hs].
Qed.

Lemma reachable_Wf (s : State) : reachable s -> Wf s.
Proof.
  intros [tr Hrun].
  exact (proj2 (run_Inv_Wf tr init s Inv_init Wf_init Hrun)).
Qed.

End WellFormedSteps.

(* ===================================================================== *)
(** ** What a session sends and shows                                     *)
(* ===================================================================== *)

Section SessionFacts.

Lemma sent_request_ok (s : State) (r : Request) :
  reachable s -> In r (sent s) -> request_ok (conversationId s) r = true.
Proof.
  intros Hr Hin. pose proof (wf_sent s (reachable_Wf s Hr)) as HF.
  rewrite List.Forall_forall in HF. apply HF. exact Hin.
Qed.

Lemma messages_without_conversation (s : State) :
  Wf s -> holds_conversation s = false -> messages s = [].
Proof.
  intros HW Hh. unfold messages.
  destruct (queryData s !! conversationId s) as [l|] eqn:Hl; [|reflexivity].
  destruct (wf_cache s HW _ _ Hl) as [_ Ht].
  unfold holds_conversation in Hh. congruence.
Qed.

End SessionFacts.

(** X11. In every reachable state, each message the page has posted went to
    the conversation id the page stores, which is not 0, with a content that
    is not empty and has no white space to trim. *)
Theorem X11_posted_messages (s : State) (id : Z) (c : jsstring) :
  reachable s -> In (PostMessage id c) (sent s) ->
  conversationId s = Some id /\ id <> 0 /\ c <> [] /\ trim c = c.
Proof.
  intros Hr Hin. pose proof (sent_request_ok s _ Hr Hin) as Hok.
  simpl in Hok.
  apply andb_true_iff in Hok. destruct Hok as [Hok H4].
  apply andb_true_iff in Hok. destruct Hok as [Hok H3].
  apply andb_true_iff in Hok. destruct Hok as [H1 H2].
  apply bool_decide_eq_true_1 in H1. apply bool_decide_eq_true_1 in H4.
  repeat split.
  - exact H1.
  - intros ->. discriminate.
  - intros ->. discriminate.
  - exact H4.
Qed.

(** X11, on the sample session after the send. *)
Lemma X11_posted_messages_witness :
  conversationId (after send_in_flight) = Some 7 /\ 7 <> 0 /\
  lit "I have a headache" <> [] /\
  trim (lit "I have a headache") = lit "I have a headache".
Proof.
  apply (X11_posted_messages (after send_in_flight) 7
           (lit "I have a headache")).
  - apply reachable_after. vm_compute. reflexivity.
  - vm_compute. auto.
Defined.

(** X12. In every reachable state, each quick-action request the page has
    sent carries the action of one of the four buttons. *)
Theorem X12_quick_action_tags (s : State) (a : jsstring) :
  reachable s -> In (QuickActionCall a) (sent s) ->
  exists q, In q quickActions /\ qa_action q = a.
Proof.
  intros Hr Hin. pose proof (sent_request_ok s _ Hr Hin) as Hok.
  simpl in Hok. unfold is_quick_tag in Hok.
  apply existsb_exists in Hok. destruct Hok as (q & Hq & Ha).
  apply bool_decide_eq_true_1 in Ha. exists q. split; assumption.
Qed.

(** X12, on the sample session after the emergency button. *)
Lemma X12_quick_action_tags_witness :
  exists q, In q quickActions /\ qa_action q = lit "emergency".
Proof.
  apply (X12_quick_action_tags (after quick_in_flight)).
  - apply reachable_after. vm_compute. reflexivity.
  - vm_compute. auto.
Defined.

(** X13. In every reachable state, each creation request the page has sent
    is for the user "anonymous" with the title "MedAssist Chat", and its
    body is accepted by the insert schema of conversations. *)
Theorem X13_creation_request (s : State) (userId title : jsstring) :
  reachable s -> In (CreateConversation userId title) (sent s) ->
  userId = lit "anonymous" /\ title = lit "MedAssist Chat" /\
  accepts insertConversationSchema (body (CreateConversation userId title))
    = true.
Proof.
  intros Hr Hin. pose proof (sent_request_ok s _ Hr Hin) as Hok.
  simpl in Hok. apply andb_true_iff in Hok. destruct Hok as [Hu Ht].
  apply bool_decide_eq_true_1 in Hu. apply bool_decide_eq_true_1 in Ht.
  subst. split; [reflexivity|]. split; [reflexivity|].
  vm_compute. reflexivity.
Qed.

(** X13, on the page right after its mount. *)
Lemma X13_creation_request_witness :
  lit "anonymous" = lit "anonymous" /\
  lit "MedAssist Chat" = lit "MedAssist Chat" /\
  accepts insertConversationSchema
    (body (CreateConversation (lit "anonymous") (lit "MedAssist Chat")))
    = true.
Proof.
  apply (X13_creation_request (after [Mount])).
  - apply reachable_after. vm_compute. reflexivity.
  - vm_compute. auto.
Defined.

(** X14. In every reachable state the page is in Typing only while a send
    or a quick action is pending. The converse fails by design of the single
    flag: when one of the two requests completes, Typing is cleared although
    the other is still pending. *)
Theorem X14_typing_needs_pending :
  (forall s : State,
     reachable s -> isTyping s = true ->
     isPending MSend s = true \/ isPending MQuick s = true) /\
  (forall (s s' : State) (d : QuickData),
     isPending MSend s = true -> step (QuickResolved d) s = Some s' ->
     isPending MSend s' = true /\ isTyping s' = false) /\
  (forall (s s' : State) (e : js_error),
     isPending MQuick s = true -> step (SendRejected e) s = Some s' ->
     isPending MQuick s' = true /\ isTyping s' = false).
Proof.
  repeat apply conj.
  - intros s Hr Ht.
    pose proof (wf_typing s (reachable_Wf s Hr) Ht) as Hp.
    apply orb_true_iff in Hp. exact Hp.
  - intros s s' d Hp Hstep. split.
    + destruct (quick_resolved_state s s' d Hstep) as [rest ->].
      simpl in *.
      destruct (conversationId s) as [id|]; simpl; [|exact Hp].
      destruct (id =? 0); exact Hp.
    + apply (completion_clears_typing (QuickResolved d) s s');
        [reflexivity | exact Hstep].
  - intros s s' e Hp Hstep. split.
    + apply step_Step in Hstep. inversion Hstep; subst; try discriminate.
      exact Hp.
    + apply (completion_clears_typing (SendRejected e) s s');
        [reflexivity | exact Hstep].
Qed.

(** X14, on the sample session with both requests in flight. *)
Lemma X14_typing_needs_pending_witness :
  isPending MSend (after both_in_flight) = true \/
  isPending MQuick (after both_in_flight) = true.
Proof.
  apply (proj1 X14_typing_needs_pending (after both_in_flight)).
  - apply reachable_after. vm_compute. reflexivity.
  - vm_compute. reflexivity.
Defined.

(** X15. In every reachable state the query cache has data under the held
    conversation id only; so a page that holds no conversation id displays
    no messages. *)
Theorem X15_cache_of_held_conversation (s : State) :
  reachable s ->
  (forall k l, queryData s !! k = Some l ->
     k = conversationId s /\ holds_conversation s = true) /\
  (holds_conversation s = false -> messages s = []).
Proof.
  intros Hr. pose proof (reachable_Wf s Hr) as HW. split.
  - intros k l Hk. destruct (wf_cache s HW k l Hk) as [-> Ht].
    split; [reflexivity | exact Ht].
  - apply messages_without_conversation. exact HW.
Qed.

(** X15, on the session whose quick action returned before the
    conversation. *)
Lemma X15_cache_of_held_conversation_witness :
  messages (after (quick_while_waiting ++ [QuickResolved emergency])) = [].
Proof.
  apply (X15_cache_of_held_conversation
           (after (quick_while_waiting ++ [QuickResolved emergency]))).
  - apply reachable_after. vm_compute. reflexivity.
  - vm_compute. reflexivity.
Defined.

(* ===================================================================== *)
(** ** Retrying, and a session without conversation                       *)
(* ===================================================================== *)

Section Retry.

(** On a mounted page with a non-blank draft, no send pending and a held
    conversation id, a click on Send posts the trimmed draft. *)
Lemma click_send_posts (s : State) (id : Z) :
  mounted s = true -> sendPending s = false ->
  trim (messageInput s) <> [] ->
  conversationId s = Some id -> (id =? 0) = false ->
  step ClickSend s
    = Some (issue (PostMessage id (trim (messageInput s)))
              (setIsTyping true (setPending MSend true s))).
Proof.
  intros Hm Hp Hne Hid Hz. simpl. rewrite Hm. simpl.
  unfold send_button_disabled, handleSendMessage. simpl. rewrite Hp.
  destruct (trim (messageInput s)) as [|c t] eqn:Ht; [contradiction|].
  simpl. unfold mutate. simpl. rewrite Hid. simpl. rewrite Hz. reflexivity.
Qed.

Lemma Step_mounted (e : Event) (s s' : State) :
  Step s e s' -> mounted s' = true.
Proof.
  intros HS. destruct HS; simpl; auto.
  - unfold mountEffect. simpl.
    destruct (negb (truthy_id (conversationId s))); reflexivity.
  - unfold observe_query, query_enabled. simpl.
    destruct (conv_id c =? 0); simpl; assumption.
  - unfold resolve. cbn [onSuccess sendMessageMutation mid].
    destruct (invalidateQueries_cases (setInflight rest s))
      as [Heq | (cid & l & _ & _ & Heq & _)]; rewrite Heq; simpl; assumption.
  - unfold resolve. simpl.
    destruct (conversationId s) as [cid|]; simpl; [|assumption].
    destruct (cid =? 0); simpl; assumption.
Qed.

(** A stranded page stays stranded. *)
Lemma Step_stranded (e : Event) (s s' : State) :
  Inv s -> stranded s -> Step s e s' -> stranded s'.
Proof.
  intros HI (Hm & Hcp & Hid) HS.
  assert (Hnone : take_first is_create (inflight s) = None).
  { apply take_first_none. rewrite (inv_create s HI), Hcp. reflexivity. }
  unfold stranded.
  destruct HS; simpl; rewrite ?Hid; auto; try congruence.
  unfold resolve. cbn [onSuccess sendMessageMutation mid].
  destruct (invalidateQueries_cases (setInflight rest s))
    as [Heq | (cid & l & Hc & _)]; [|simpl in Hc; congruence].
  rewrite Heq. simpl. auto.
Qed.

Lemma run_stranded (tr : list Event) (s s' : State) :
  Inv s -> stranded s -> run tr s = Some s' -> Inv s' /\ stranded s'.
Proof.
  revert s. induction tr as [|e tr IH]; intros s HI Hs; simpl.
  - intros [= <-]. split; assumption.
  - destruct (step e s) as [s1|] eqn:Hstep; [|discriminate].
    apply IH; [eapply step_Inv; eassumption|].
    eapply Step_stranded; [exact HI | exact Hs | apply step_Step; exact Hstep].
Qed.

End Retry.

(** X16. While a send is pending, the message in flight is the trimmed
    draft on the page. So when the send fails, the Send button is enabled
    again, and a click on it posts the very same content to the very same
    conversation and puts the page back in Typing. *)
Theorem X16_retry_after_failure :
  (forall (s : State) (id : Z) (c : jsstring),
     reachable s -> In (PostMessage id c) (inflight s) ->
     c = trim (messageInput s)) /\
  (forall (s s1 : State) (e : js_error),
     reachable s -> step (SendRejected e) s = Some s1 ->
     exists id c s2,
       In (PostMessage id c) (inflight s) /\
       send_button_disabled s1 = false /\
       step ClickSend s1 = Some s2 /\
       sent s2 = sent s1 ++ [PostMessage id c] /\
       isTyping s2 = true).
Proof.
  split.
  - intros s id c Hr Hin. exact (wf_draft s (reachable_Wf s Hr) id c Hin).
  - intros s s1 e Hr Hstep.
    pose proof (reachable_Inv s Hr) as HI.
    pose proof (reachable_Wf s Hr) as HW.
    apply step_Step in Hstep. inversion Hstep; subst; try discriminate.
    pose proof (take_first_in _ _ _ _ H1) as Hin.
    pose proof (wf_draft s HW id c Hin) as Hc.
    pose proof (wf_sent s HW) as HF. rewrite List.Forall_forall in HF.
    pose proof (HF _ (wf_inflight s HW _ Hin)) as Hok. simpl in Hok.
    apply andb_true_iff in Hok. destruct Hok as [Hok _].
    apply andb_true_iff in Hok. destruct Hok as [Hok Hne].
    apply andb_true_iff in Hok. destruct Hok as [Hid Hz].
    apply bool_decide_eq_true_1 in Hid.
    assert (Hz' : (id =? 0) = false) by (destruct (id =? 0); auto).
    assert (Hne' : trim (messageInput s) <> []).
    { rewrite <- Hc. intros ->. discriminate. }
    exists id, c. eexists. split; [exact Hin|].
    split.
    { unfold send_button_disabled. simpl.
      destruct (trim (messageInput s)); [contradiction | reflexivity]. }
    split.
    { apply (click_send_posts _ id); simpl; auto. }
    split; [simpl; rewrite <- Hc; reflexivity | reflexivity].
Qed.

(** X16, on the sample session: the failed send can be repeated. *)
Lemma X16_retry_after_failure_witness :
  lit "I have a headache" = trim (messageInput (after send_in_flight)).
Proof.
  apply (proj1 X16_retry_after_failure (after send_in_flight) 7).
  - apply reachable_after. vm_compute. reflexivity.
  - vm_compute. auto.
Defined.

(** X17. When the creation of the conversation fails, the page is stranded
    for the rest of the session: no conversation id is ever stored, no
    creation is requested again, no message is ever posted, and the
    displayed list stays empty. *)
Theorem X17_stranded_without_conversation :
  (forall (s s' : State) (e : js_error),
     reachable s -> step (CreateRejected e) s = Some s' -> stranded s') /\
  (forall (tr : list Event) (s s' : State),
     reachable s -> stranded s -> run tr s = Some s' ->
     stranded s' /\
     count is_create (sent s') = 1%nat /\
     (forall id c, ~ In (PostMessage id c) (sent s')) /\
     messages s' = []).
Proof.
  split.
  - intros s s' e Hr Hstep.
    pose proof (reachable_Inv s Hr) as HI.
    apply step_Step in Hstep. inversion Hstep; subst; try discriminate.
    destruct (pending_of_take_first _ _ _ _ _ H1 (inv_create s HI))
      as [Hcp _].
    unfold stranded. simpl. repeat split; auto.
    exact (inv_create_id s HI Hcp).
  - intros tr s s' Hr Hs Hrun.
    destruct (run_stranded tr s s' (reachable_Inv s Hr) Hs Hrun)
      as [HI' Hs'].
    pose proof (reachable_run tr s s' Hr Hrun) as Hr'.
    split; [exact Hs'|]. destruct Hs' as (Hm & _ & Hid).
    split; [exact (inv_create_sent s' HI' Hm)|]. split.
    + intros id c Hin. pose proof (inv_post_target s' HI' id c Hin).
      congruence.
    + apply messages_without_conversation; [exact (reachable_Wf s' Hr')|].
      unfold holds_conversation. rewrite Hid. reflexivity.
Qed.

(** X17, on a session whose creation failed and whose user keeps trying. *)
Lemma X17_stranded_without_conversation_witness :
  stranded (after [Mount; CreateRejected server_error]).
Proof.
  apply (proj1 X17_stranded_without_conversation (after [Mount])
           _ server_error).
  - apply reachable_after. vm_compute. reflexivity.
  - vm_compute. reflexivity.
Defined.

(* ===================================================================== *)
(** ** One event at a time                                                *)
(* ===================================================================== *)

Section Withdrawn.

Lemma take_first_split (p : Request -> bool) (l rest : list Request)
    (r x : Request) :
  take_first p l = Some (r, rest) -> In x l -> x = r \/ In x rest.
Proof.
  revert rest. induction l as [|a l IH]; intros rest; simpl; [discriminate|].
  destruct (p a).
  - intros [= <- <-] [Hx|Hx]; auto.
  - destruct (take_first p l) as [[y rest']|]; [|discriminate].
    intros [= <- <-] [Hx|Hx].
    + right. left. exact Hx.
    + destruct (IH rest' eq_refl Hx) as [H|H]; [left; exact H|].
      right. right. exact H.
Qed.

(** An invalidation keeps every request in flight that is no fetch. *)
Lemma invalidateQueries_keeps (s : State) (x : Request) :
  In x (inflight s) -> is_get x = false ->
  In x (inflight (invalidateQueries s)).
Proof.
  intros Hx Hg. unfold invalidateQueries, query_enabled.
  destruct (conversationId s) as [id|]; [|exact Hx].
  simpl. destruct (id =? 0); simpl; [exact Hx|].
  unfold refetch. destruct (fetching id s).
  - destruct (queryData s !! Some id); [|exact Hx].
    simpl. apply in_or_app. left. apply List.filter_In. split; [exact Hx|].
    destruct x; try discriminate; reflexivity.
  - simpl. apply in_or_app. left. exact Hx.
Qed.

Lemma in_snoc_l (l : list Request) (r x : Request) :
  In x l -> In x (l ++ [r]).
Proof. intros H. apply in_or_app. left. exact H. Qed.

End Withdrawn.

(** X18. An event makes the page send at most one request, and the message
    list is asked for only when the conversation arrives or a send
    succeeds: no click, no key, no failure and no quick action fetches it.
    A request leaves the requests in flight only when the event is the
    response to a request of its kind, or when it is a fetch and a send
    succeeds (the running fetch is then cancelled for a new one). *)
Theorem X18_one_request_per_event (e : Event) (s s' : State) :
  step e s = Some s' ->
  (sent s' = sent s \/
   exists r,
     sent s' = sent s ++ [r] /\
     (is_get r = true ->
      is_create_resolved e = true \/ is_send_resolved e = true)) /\
  (forall x,
     In x (inflight s) -> ~ In x (inflight s') ->
     answers e x = true \/
     (is_send_resolved e = true /\ is_get x = true)).
Proof.
  intros Hstep. apply step_Step in Hstep. split.
  - destruct Hstep; simpl; auto;
      try (right; eexists; split; [reflexivity | discriminate]).
    + unfold mountEffect. simpl.
      destruct (negb (truthy_id (conversationId s))); simpl; auto.
      right. eexists. split; [reflexivity | discriminate].
    + unfold observe_query, query_enabled. simpl.
      destruct (conv_id c =? 0); simpl; auto.
      right. eexists. split; [reflexivity | auto].
    + unfold resolve. cbn [onSuccess sendMessageMutation mid].
      destruct (invalidateQueries_cases (setInflight rest s))
        as [Heq | (cid & l & _ & _ & Heq & _)]; rewrite Heq; simpl; auto.
      right. eexists. split; [reflexivity | auto].
    + unfold resolve. simpl.
      destruct (conversationId s) as [cid|]; simpl; auto.
      destruct (cid =? 0); simpl; auto.
  - intros x Hx Hnot.
    destruct Hstep; simpl in *;
      try (exfalso; apply Hnot; auto using in_snoc_l; fail);
      try (destruct (take_first_split _ _ _ _ x H0 Hx) as [-> | Hrest];
           [left; reflexivity | exfalso; apply Hnot; exact Hrest]).
    + exfalso. apply Hnot. unfold mountEffect. simpl.
      destruct (negb (truthy_id (conversationId s))); simpl;
        auto using in_snoc_l.
    + destruct (take_first_split _ _ _ _ x H0 Hx) as [-> | Hrest];
        [left; reflexivity|].
      exfalso. apply Hnot. unfold observe_query, query_enabled. simpl.
      destruct (conv_id c =? 0); simpl; auto using in_snoc_l.
    + destruct (take_first_split _ _ _ _ x H0 Hx) as [-> | Hrest];
        [left; reflexivity|].
      destruct (is_get x) eqn:Hg; [right; split; reflexivity|].
      exfalso. apply Hnot.
      unfold resolve. cbn [onSuccess sendMessageMutation mid]. simpl.
      apply (invalidateQueries_keeps (setInflight rest s) x); assumption.
    + destruct (take_first_split _ _ _ _ x H0 Hx) as [-> | Hrest];
        [left; reflexivity|].
      exfalso. apply Hnot. unfold resolve. simpl.
      destruct (conversationId s) as [cid|]; simpl; auto.
      destruct (cid =? 0); simpl; auto.
Qed.

(** X18, on the click that sends the sample draft. *)
Lemma X18_one_request_per_event_witness :
  sent (after send_in_flight) = sent (after ready) \/
  exists r,
    sent (after send_in_flight) = sent (after ready) ++ [r] /\
    (is_get r = true ->
     is_create_resolved ClickSend = true \/ is_send_resolved ClickSend = true).
Proof.
  apply (X18_one_request_per_event ClickSend (after ready)
           (after send_in_flight)).
  vm_compute. reflexivity.
Defined.

(** X19. Enter without Shift does what the Send button does whenever the
    button can be clicked. Enter on a blank draft does nothing, where the
    button is disabled; and any other key, or Enter with Shift, never
    changes the page. *)
Theorem X19_enter_is_send :
  (forall s s' : State,
     step ClickSend s = Some s' -> step (KeyDown true false) s = Some s') /\
  (forall s : State,
     mounted s = true -> isPending MSend s = false ->
     trim (messageInput s) = [] ->
     step (KeyDown true false) s = Some s /\ step ClickSend s = None) /\
  (forall (s s' : State) (enter shiftKey : bool),
     step (KeyDown enter shiftKey) s = Some s' ->
     enter && negb shiftKey = false -> s' = s).
Proof.
  repeat apply conj.
  - intros s s' H. simpl in *.
    destruct (mounted s); simpl in *; [|discriminate].
    unfold send_button_disabled, textarea_disabled in *. simpl in *.
    destruct (sendPending s); [rewrite orb_true_r in H; discriminate|].
    rewrite orb_false_r in H.
    destruct (negb (truthy_string (trim (messageInput s)))); [discriminate|].
    exact H.
  - intros s Hm Hp Hb. simpl in Hp. simpl. rewrite Hm. simpl.
    unfold textarea_disabled, send_button_disabled, handleKeyDown,
      handleSendMessage. simpl. rewrite Hp, Hb. simpl. split; reflexivity.
  - intros s s' enter shiftKey H He. simpl in H.
    destruct (mounted s); simpl in H; [|discriminate].
    destruct (textarea_disabled s); [discriminate|].
    unfold handleKeyDown in H. rewrite He in H. congruence.
Qed.

(** X19, on the sample page with its draft. *)
Lemma X19_enter_is_send_witness :
  step (KeyDown true false) (after ready) = Some (after send_in_flight).
Proof.
  apply (proj1 X19_enter_is_send (after ready) (after send_in_flight)).
  vm_compute. reflexivity.
Defined.

(** X20. A whole exchange: on a reachable page that holds conversation
    [id] and has no send pending, typing any draft [d] that is not blank,
    clicking Send and receiving the reply posts the trimmed draft, in full,
    to [id]; the list of [id] is then asked for again, unless its first
    fetch is still unanswered with nothing cached, in which case nothing
    more is sent; either way a fetch of the list is in flight at the end,
    and the page is out of Typing with an empty draft and no send
    pending. *)
Theorem X20_exchange (s : State) (id : Z) (d : jsstring) (reply : Message) :
  reachable s -> mounted s = true -> isPending MSend s = false ->
  conversationId s = Some id -> id <> 0 -> trim d <> [] ->
  exists s',
    run [ChangeInput d; ClickSend; SendResolved reply] s = Some s' /\
    (fetching id s = true -> queryData s !! Some id = None ->
     sent s' = sent s ++ [PostMessage id (trim d)]) /\
    (fetching id s = false \/ queryData s !! Some id <> None ->
     sent s' = sent s ++ [PostMessage id (trim d); GetMessages id]) /\
    fetching id s' = true /\
    messageInput s' = [] /\
    isTyping s' = false /\
    isPending MSend s' = false.
Proof.
  intros Hr Hm Hp Hid Hz Hd. simpl in Hp.
  assert (Hz' : (id =? 0) = false) by (apply Z.eqb_neq; exact Hz).
  assert (H1 : step (ChangeInput d) s = Some (setMessageInput d s)).
  { simpl. rewrite Hm. simpl. unfold textarea_disabled. simpl.
    rewrite Hp. reflexivity. }
  pose proof (click_send_posts (setMessageInput d s) id Hm Hp Hd Hid Hz')
    as H2.
  simpl messageInput in H2.
  set (s2 := issue (PostMessage id (trim d))
               (setIsTyping true
                  (setPending MSend true (setMessageInput d s)))) in *.
  assert (Hr2 : reachable s2).
  { eapply reachable_step; [|exact H2].
    eapply reachable_step; [exact Hr | exact H1]. }
  assert (Hf2 : fetching id s2 = fetching id s).
  { unfold fetching. simpl. rewrite existsb_app. simpl.
    rewrite !orb_false_r. reflexivity. }
  destruct (send_resolved_enabled s2 reply Hr2 eq_refl) as (s3 & H3 & _).
  destruct (send_resolved s2 s3 reply Hr2 H3)
    as (id' & Hid' & _ & Hs3 & Hs3' & Hf3 & _ & Hm3 & Ht3 & Hp3).
  simpl in Hid'. assert (id' = id) by congruence. subst id'.
  rewrite Hf2 in Hs3, Hs3'. simpl queryData in Hs3, Hs3'.
  exists s3. split.
  { cbn [run]. rewrite H1. cbv iota beta. rewrite H2. cbv iota beta.
    rewrite H3. reflexivity. }
  split; [intros Hf Hq; rewrite (Hs3 Hf Hq); reflexivity|].
  split; [intros Hc; rewrite (Hs3' Hc); simpl; rewrite <- app_assoc;
          reflexivity|].
  auto.
Qed.

(** X20, on the sample page whose first fetch is still unanswered (no
    second GET is sent), and on the sample page whose first fetch was
    answered (the list is asked for again). *)
Lemma X20_exchange_witness :
  (exists s',
     run [ChangeInput (lit "And a fever"); ClickSend; SendResolved reply]
       (after ready) = Some s' /\
     sent s' =
       sent (after ready) ++ [PostMessage 7 (trim (lit "And a fever"))]) /\
  (exists s',
     run [ChangeInput (lit "And a fever"); ClickSend; SendResolved reply]
       (after settled) = Some s' /\
     sent s' =
       sent (after settled)
         ++ [PostMessage 7 (trim (lit "And a fever")); GetMessages 7]).
Proof.
  split.
  - destruct (X20_exchange (after ready) 7 (lit "And a fever") reply)
      as (s' & Hrun & Hsame & _).
    + apply reachable_after. vm_compute. reflexivity.
    + vm_compute. reflexivity.
    + vm_compute. reflexivity.
    + vm_compute. reflexivity.
    + discriminate.
    + vm_compute. discriminate.
    + exists s'. split; [exact Hrun|]. apply Hsame.
      * vm_compute. reflexivity.
      * vm_compute. reflexivity.
  - destruct (X20_exchange (after settled) 7 (lit "And a fever") reply)
      as (s' & Hrun & _ & Hagain & _).
    + apply reachable_after. vm_compute. reflexivity.
    + vm_compute. reflexivity.
    + vm_compute. reflexivity.
    + vm_compute. reflexivity.
    + discriminate.
    + vm_compute. discriminate.
    + exists s'. split; [exact Hrun|]. apply Hagain.
      left. vm_compute. reflexivity.
Defined.

(** X21. Every notice the page shows is an error notice (title "Error",
    destructive variant). An event adds at most one notice and removes
    none; it adds one only when a request fails or when the draft is
    submitted without a conversation id. No success shows a notice. *)
Theorem X21_notices :
  (forall s : State,
     reachable s ->
     Forall (fun t => is_error_notice t = true) (toasts s)) /\
  (forall (e : Event) (s s' : State),
     step e s = Some s' ->
     toasts s' = toasts s \/
     exists t,
       toasts s' = toasts s ++ [t] /\
       (is_rejection e = true \/
        (is_submit e = true /\ holds_conversation s = false))).
Proof.
  split.
  - intros s Hr. exact (wf_toasts s (reachable_Wf s Hr)).
  - intros e s s' Hstep. apply step_Step in Hstep.
    destruct Hstep; simpl; auto;
      try (right; eexists; split; [reflexivity | auto]).
    + unfold mountEffect. simpl.
      destruct (negb (truthy_id (conversationId s))); simpl; auto.
    + unfold observe_query, query_enabled. simpl.
      destruct (conv_id c =? 0); simpl; auto.
    + unfold resolve. cbn [onSuccess sendMessageMutation mid].
      destruct (invalidateQueries_cases (setInflight rest s))
        as [Heq | (cid & l & _ & _ & Heq & _)]; rewrite Heq; simpl; auto.
    + unfold resolve. simpl.
      destruct (conversationId s) as [cid|]; simpl; auto.
      destruct (cid =? 0); simpl; auto.
Qed.

(** X21, on the sample session whose send fails. *)
Lemma X21_notices_witness :
  Forall (fun t => is_error_notice t = true)
    (toasts (after (send_in_flight ++ [SendRejected server_error]))).
Proof.
  apply (proj1 X21_notices).
  apply reachable_after. vm_compute. reflexivity.
Defined.

(* ===================================================================== *)
(** ** Coming to rest, and the reply of a quick action on screen          *)
(* ===================================================================== *)

Section Rest.

Lemma step_settling (err : js_error) (msgs : list Message) (r : Request)
    (l : list Request) (s : State) :
  mounted s = true -> inflight s = r :: l ->
  exists s1,
    step (settling err msgs r) s = Some s1 /\
    inflight s1 = l /\ sent s1 = sent s /\
    conversationId s1 = conversationId s.
Proof.
  intros Hm Hi.
  destruct r; simpl; rewrite Hm; simpl; unfold settle; rewrite Hi; simpl;
    eexists; (split; [reflexivity|]); simpl; auto.
Qed.

Lemma inflight_mounted (s : State) :
  Inv s -> inflight s <> [] -> mounted s = true.
Proof.
  intros HI Hne. destruct (mounted s) eqn:Hm; [reflexivity|].
  rewrite (inv_unmounted s HI Hm) in Hne. contradiction.
Qed.

(** Settling the requests in flight one after the other empties the set. *)
Lemma drain (err : js_error) (msgs : list Message) (l : list Request)
    (s : State) :
  Inv s -> Wf s -> inflight s = l ->
  exists s',
    run (List.map (settling err msgs) l) s = Some s' /\
    Inv s' /\ Wf s' /\ inflight s' = [] /\ sent s' = sent s /\
    conversationId s' = conversationId s.
Proof.
  revert s. induction l as [|r l IH]; intros s HI HW Hi.
  - exists s. simpl. split; [reflexivity|]. split; [exact HI|].
    split; [exact HW|]. split; [exact Hi|]. split; reflexivity.
  - assert (Hm : mounted s = true).
    { apply inflight_mounted; [exact HI|]. rewrite Hi. discriminate. }
    destruct (step_settling err msgs r l s Hm Hi)
      as (s1 & Hs1 & Hi1 & Hsent1 & Hid1).
    pose proof (step_Inv _ _ _ HI Hs1) as HI1.
    pose proof (Step_Wf _ _ _ HI HW (step_Step _ _ _ Hs1)) as HW1.
    destruct (IH s1 HI1 HW1 Hi1) as (s' & Hrun & HI' & HW' & Hi' & Hs' & Hid').
    exists s'. simpl. rewrite Hs1.
    split; [exact Hrun|]. split; [exact HI'|]. split; [exact HW'|].
    split; [exact Hi'|]. split; congruence.
Qed.

Lemma b2n_zero (b : bool) : 0%nat = b2n b -> b = false.
Proof. destruct b; [discriminate | reflexivity]. Qed.

(** The reply of a quick action on a page that holds a conversation. *)
Lemma quick_resolved_held (s s' : State) (d : QuickData) :
  holds_conversation s = true -> step (QuickResolved d) s = Some s' ->
  exists id,
    conversationId s = Some id /\
    messages s' = messages s ++ [fakeAssistantMessage id d] /\
    isTyping s' = false.
Proof.
  intros Hh Hstep.
  destruct (quick_resolved_state s s' d Hstep) as [rest ->].
  unfold holds_conversation in Hh.
  destruct (conversationId s) as [id|] eqn:Hid; [|discriminate].
  exists id. split; [reflexivity|].
  rewrite (quick_onSuccess_held (setInflight rest s) d id Hid)
    by (unfold holds_conversation; simpl; rewrite Hid; exact Hh).
  unfold messages. simpl. rewrite Hid, lookup_insert_eq.
  split; [|reflexivity].
  destruct (queryData s !! Some id); reflexivity.
Qed.

End Rest.

(** X22. The page always comes to rest: from any reachable state, when each
    mutation in flight fails and the fetch of the list, if one is in
    flight, is answered (responses taken oldest request first), the page
    ends with nothing in flight, no mutation pending, out of Typing, the
    textarea and the quick buttons enabled; nothing was sent on the way and
    the conversation id is what it was. *)
Theorem X22_comes_to_rest (err : js_error) (msgs : list Message) (s : State) :
  reachable s ->
  exists s',
    run (List.map (settling err msgs) (inflight s)) s = Some s' /\
    inflight s' = [] /\
    isPending MCreate s' = false /\ isPending MSend s' = false /\
    isPending MQuick s' = false /\
    isTyping s' = false /\
    textarea_disabled s' = false /\ quick_buttons_disabled s' = false /\
    sent s' = sent s /\ conversationId s' = conversationId s.
Proof.
  intros Hr.
  destruct (drain err msgs (inflight s) s (reachable_Inv s Hr)
              (reachable_Wf s Hr) eq_refl)
    as (s' & Hrun & HI & HW & Hi & Hs & Hid).
  exists s'.
  pose proof (inv_create s' HI) as Hc. pose proof (inv_post s' HI) as Hp.
  pose proof (inv_quick s' HI) as Hq.
  rewrite Hi in Hc, Hp, Hq. unfold count in Hc, Hp, Hq. simpl in Hc, Hp, Hq.
  apply b2n_zero in Hc. apply b2n_zero in Hp. apply b2n_zero in Hq.
  assert (Ht : isTyping s' = false).
  { destruct (isTyping s') eqn:Ht; [|reflexivity].
    pose proof (wf_typing s' HW Ht) as Ho. rewrite Hp, Hq in Ho.
    discriminate. }
  unfold textarea_disabled, quick_buttons_disabled. simpl.
  repeat split; assumption.
Qed.

(** X22, on the sample session with a fetch, a send and a quick action in
    flight: the fetch is answered with the sample reply, the two mutations
    fail. *)
Lemma X22_comes_to_rest_witness :
  exists s',
    run (List.map (settling server_error [reply])
           (inflight (after both_in_flight)))
      (after both_in_flight) = Some s' /\
    inflight s' = [] /\
    isPending MCreate s' = false /\ isPending MSend s' = false /\
    isPending MQuick s' = false /\
    isTyping s' = false /\
    textarea_disabled s' = false /\ quick_buttons_disabled s' = false /\
    sent s' = sent (after both_in_flight) /\
    conversationId s' = conversationId (after both_in_flight).
Proof.
  apply (X22_comes_to_rest server_error [reply] (after both_in_flight)).
  apply reachable_after. vm_compute. reflexivity.
Defined.

(** X23. The reply of a quick action on screen: on a page that holds a
    conversation id, once the reply has arrived the messages area is the
    welcome message, the bubbles of the messages shown before, and last one
    new bubble with the heart avatar, in the bot colours, on the left, whose
    text is the returned content; no typing indicator follows it. Read
    within a minute of its creation, the bubble is labelled "Just now". *)
Theorem X23_quick_reply_on_screen
    (parseDate : jsstring -> option Z) (toLocaleTimeString : Z -> jsstring)
    (clock : Z) (s s' : State) (d : QuickData) :
  holds_conversation s = true -> step (QuickResolved d) s = Some s' ->
  exists b,
    messagesArea parseDate toLocaleTimeString clock s' =
      WelcomeMessage
        :: List.map
             (fun m => ChatMessage
                         (renderMessage parseDate toLocaleTimeString clock m))
             (messages s)
        ++ [ChatMessage b] /\
    heart_avatar b = true /\ user_avatar b = false /\
    style b = BotBg /\ justify_end b = false /\
    text_shown b = content d /\
    (clock - now d < 60000 -> time_label b = lit "Just now").
Proof.
  intros Hh Hstep.
  destruct (quick_resolved_held s s' d Hh Hstep) as (id & Hid & Hm & Ht).
  exists (renderMessage parseDate toLocaleTimeString clock
            (fakeAssistantMessage id d)).
  split.
  - unfold messagesArea. rewrite Hm, Ht, map_app, app_nil_r. reflexivity.
  - repeat split; try reflexivity.
    intros Hlt. simpl. unfold row_timestamp. simpl.
    rewrite formatTimestamp_date.
    apply Z.ltb_lt in Hlt. rewrite Hlt. reflexivity.
Qed.

(** X23, on the sample session, read two seconds after the reply. *)
Lemma X23_quick_reply_on_screen_witness :
  exists b,
    messagesArea (fun _ => None) (fun _ => []) 5000
      (after (quick_in_flight ++ [QuickResolved emergency])) =
      WelcomeMessage
        :: List.map
             (fun m => ChatMessage
                         (renderMessage (fun _ => None) (fun _ => []) 5000 m))
             (messages (after quick_in_flight))
        ++ [ChatMessage b] /\
    heart_avatar b = true /\ user_avatar b = false /\
    style b = BotBg /\ justify_end b = false /\
    text_shown b = content emergency /\
    (5000 - now emergency < 60000 -> time_label b = lit "Just now").
Proof.
  apply (X23_quick_reply_on_screen (fun _ => None) (fun _ => []) 5000
           (after quick_in_flight)
           (after (quick_in_flight ++ [QuickResolved emergency])) emergency).
  - vm_compute. reflexivity.
  - vm_compute. reflexivity.
Defined.

(** X9, on the sample session after the reply of the quick action. *)
Lemma X9_messagesArea_layout_witness :
  messagesArea (fun _ => None) (fun _ => []) 5000
    (after (quick_in_flight ++ [QuickResolved emergency])) !! 1%nat
  = Some (ChatMessage
            (renderMessage (fun _ => None) (fun _ => []) 5000
               (fakeAssistantMessage 7 emergency))).
Proof.
  apply (proj1 (proj1 (proj2 (proj2
           (X9_messagesArea_layout (fun _ => None) (fun _ => []) 5000
              (after (quick_in_flight ++ [QuickResolved emergency])))))
           0%nat (fakeAssistantMessage 7 emergency) eq_refl)).
Defined.

(* ===================================================================== *)
(** ** What changes the draft and the displayed list                      *)
(* ===================================================================== *)

Section Frames.

Lemma lookup_unheld (s : State) (k : option Z) :
  Wf s -> k <> conversationId s -> queryData s !! k = None.
Proof.
  intros HW Hk. destruct (queryData s !! k) as [l|] eqn:Hl; [|reflexivity].
  destruct (wf_cache s HW k l Hl) as [-> _]. contradiction.
Qed.

End Frames.

(** X24. The draft changes only when the user types into the enabled
    textarea or when a send succeeds; and the draft a successful send clears
    is, once trimmed, the content that was posted: no text is cleared that
    was not sent. *)
Theorem X24_draft_changes :
  (forall (e : Event) (s s' : State),
     step e s = Some s' ->
     messageInput s' = messageInput s \/
     (exists v, e = ChangeInput v /\ messageInput s' = v /\
                isPending MSend s = false) \/
     (exists reply, e = SendResolved reply /\ messageInput s' = [])) /\
  (forall (s s' : State) (reply : Message),
     reachable s -> step (SendResolved reply) s = Some s' ->
     exists id,
       In (PostMessage id (trim (messageInput s))) (sent s) /\
       messageInput s' = []).
Proof.
  split.
  - intros e s s' Hstep. apply step_Step in Hstep.
    destruct Hstep; simpl; auto.
    + left. unfold mountEffect. simpl.
      destruct (negb (truthy_id (conversationId s))); reflexivity.
    + right. left. exists v. auto.
    + left. unfold observe_query, query_enabled. simpl.
      destruct (conv_id c =? 0); reflexivity.
    + right. right. eexists. split; reflexivity.
    + left. unfold resolve. simpl.
      destruct (conversationId s) as [cid|]; simpl; [|reflexivity].
      destruct (cid =? 0); reflexivity.
  - intros s s' reply Hr Hstep.
    pose proof (reachable_Wf s Hr) as HW.
    apply step_Step in Hstep. inversion Hstep; subst; try discriminate.
    pose proof (take_first_in _ _ _ _ H1) as Hin.
    exists id. rewrite <- (wf_draft s HW id c Hin).
    split; [exact (wf_inflight s HW _ Hin) | reflexivity].
Qed.

(** X24, on the sample session whose send succeeds. *)
Lemma X24_draft_changes_witness :
  exists id,
    In (PostMessage id (trim (messageInput (after send_in_flight))))
      (sent (after send_in_flight)) /\
    messageInput (after (send_in_flight ++ [SendResolved reply])) = [].
Proof.
  apply (proj2 X24_draft_changes (after send_in_flight)
           (after (send_in_flight ++ [SendResolved reply])) reply).
  - apply reachable_after. vm_compute. reflexivity.
  - vm_compute. reflexivity.
Defined.

(** X25. In a reachable state an event changes the displayed list in two
    ways only: a fetched list replaces it, or the reply of a quick action is
    appended to it. Nothing else touches it: no click, no key, no failure,
    not the arrival of the conversation, and not the success of a send,
    whose reply reaches the screen only through the list fetched
    afterwards. *)
Theorem X25_displayed_list_changes (e : Event) (s s' : State) :
  reachable s -> step e s = Some s' ->
  messages s' = messages s \/
  (exists msgs, e = MessagesFetched msgs /\ messages s' = msgs) \/
  (exists d m, e = QuickResolved d /\ messages s' = messages s ++ [m] /\
               msg_content m = content d).
Proof.
  intros Hr Hstep.
  pose proof (reachable_Inv s Hr) as HI.
  pose proof (reachable_Wf s Hr) as HW.
  pose proof Hstep as HS. apply step_Step in HS.
  destruct HS; auto.
  - left. rewrite (inv_unmounted s HI H). reflexivity.
  - (* the conversation arrives: nothing is cached for the new key *)
    left.
    destruct (pending_of_take_first _ _ _ _ _ H0 (inv_create s HI))
      as [Hcp _].
    pose proof (inv_create_id s HI Hcp) as Hnone.
    assert (Hs' : queryData s !! Some (conv_id c) = None).
    { apply lookup_unheld; [exact HW|]. rewrite Hnone. discriminate. }
    assert (Hs : queryData s !! conversationId s = None).
    { destruct (queryData s !! conversationId s) as [l|] eqn:Hl;
        [|reflexivity].
      destruct (wf_cache s HW _ _ Hl) as [_ Ht].
      rewrite Hnone in Ht. discriminate. }
    unfold messages at 2. rewrite Hs.
    unfold observe_query, query_enabled, messages. simpl.
    destruct (conv_id c =? 0); simpl; rewrite Hs'; reflexivity.
  - (* the send succeeds *)
    left. unfold resolve. cbn [onSuccess sendMessageMutation mid].
    destruct (invalidateQueries_cases (setInflight rest s))
      as [Heq | (cid & l & _ & _ & Heq & _)]; rewrite Heq; reflexivity.
  - (* the quick action succeeds *)
    destruct (holds_conversation s) eqn:Hh.
    + right. right.
      destruct (quick_resolved_held s _ d Hh Hstep) as (id & _ & Hm & _).
      exists d, (fakeAssistantMessage id d). auto.
    + left. unfold resolve.
      rewrite (quick_onSuccess_not_held (setInflight rest s) d)
        by exact Hh.
      reflexivity.
  - (* the list arrives *)
    right. left. exists msgs. split; [reflexivity|].
    pose proof (inv_get_target s HI id (take_first_in _ _ _ _ H0)) as Hid.
    unfold messages. simpl. rewrite Hid, lookup_insert_eq. reflexivity.
Qed.

(** X25, on the sample session whose send succeeds: the list on screen is
    not touched by the success itself. *)
Lemma X25_displayed_list_changes_witness :
  messages (after (send_in_flight ++ [SendResolved reply]))
    = messages (after send_in_flight) \/
  (exists msgs,
     SendResolved reply = MessagesFetched msgs /\
     messages (after (send_in_flight ++ [SendResolved reply])) = msgs) \/
  (exists d m,
     SendResolved reply = QuickResolved d /\
     messages (after (send_in_flight ++ [SendResolved reply]))
       = messages (after send_in_flight) ++ [m] /\
     msg_content m = content d).
Proof.
  apply (X25_displayed_list_changes (SendResolved reply)
           (after send_in_flight)).
  - apply reachable_after. vm_compute. reflexivity.
  - vm_compute. reflexivity.
Defined.
